(** * Taiwan ETF holdings scraper: fetch, parse, persist

    A shallow embedding of [projects/taiwan_etf_holdings/scraper.py] and the
    properties of its pipeline ([ETFScraper.parse_holdings], [fetch_etf],
    [fetch_all], [save_holdings], [run]).

    Python text is a list of Unicode code points.  Everything the program
    does not own (environment variables, the wall clock, the network, the
    HTML parser behind BeautifulSoup, the base64 codec and the PostgreSQL
    server) is gathered in one record, [World]; the process itself is a
    state-and-exception monad over the clock position, a trace of outside
    calls and the committed database. *)

From Stdlib Require Import List ZArith NArith Bool Lia String Ascii Arith.
From Stdlib Require Import Permutation.
Import ListNotations.

Set Implicit Arguments.
Set Warnings "-register-all".

(* ================================================================== *)
(** * Python text *)
(* ================================================================== *)

Module Py.

(** A [str] is its sequence of code points. *)
Definition str := list N.

(** A literal with characters below U+0100. *)
Definition u (s : string) : str := map N_of_ascii (list_ascii_of_string s).

Fixpoint str_eqb (a b : str) : bool :=
  match a, b with
  | [], [] => true
  | x :: a', y :: b' => (x =? y)%N && str_eqb a' b'
  | _, _ => false
  end.

(** Truth value of a string: [bool(s)] is [len(s) != 0]. *)
Definition truthy (s : str) : bool :=
  match s with [] => false | _ :: _ => true end.

Definition between (lo hi c : N) : bool := ((lo <=? c) && (c <=? hi))%N.

(** [str.isspace] on one character, the test behind [str.strip()]. *)
Definition isspace (c : N) : bool :=
  between 9 13 c || between 28 32 c
  || (c =? 133)%N || (c =? 160)%N || (c =? 5760)%N
  || between 8192 8202 c || (c =? 8232)%N || (c =? 8233)%N
  || (c =? 8239)%N || (c =? 8287)%N || (c =? 12288)%N.

Fixpoint lstrip_by (sp : N -> bool) (s : str) : str :=
  match s with
  | [] => []
  | c :: s' => if sp c then lstrip_by sp s' else s
  end.

Definition rstrip_by (sp : N -> bool) (s : str) : str :=
  rev (lstrip_by sp (rev s)).

(** [s.strip()] *)
Definition strip (s : str) : str := rstrip_by isspace (lstrip_by isspace s).

(** [s.replace(c, '')] for a one-character pattern [c]: every occurrence
    goes, not only a trailing one. *)
Definition remove_char (c : N) (s : str) : str :=
  filter (fun d => negb (d =? c)%N) s.

(** ** Numbers *)

(** The result of [float(text)].  A finite result is kept as the decimal
    that was read, sign, digits and power of ten; Python then rounds that
    decimal to the nearest binary64, a step that belongs to the
    interpreter and that no property below depends on. *)
Inductive float :=
| FDec (neg : bool) (digits : N) (exp10 : Z)
| FInf (neg : bool)
| FNan.

(** A Python number as the dataclass fields hold it: the literal [0] is
    an [int], the result of [float(...)] a [float]. *)
Inductive num :=
| PInt (z : Z)
| PFloat (x : float).

(** Exact value of a finite float, as a fraction. *)
Definition float_value (x : float) : option (Z * positive) :=
  match x with
  | FDec neg m e =>
      let s := if neg then (-1)%Z else 1%Z in
      match e with
      | Z0 => Some (s * Z.of_N m, 1%positive)%Z
      | Zpos p => Some (s * Z.of_N m * Z.pow 10 (Zpos p), 1%positive)%Z
      | Zneg p => Some (s * Z.of_N m, Pos.pow 10 p)%Z
      end
  | _ => None
  end.

(** [a/b = c/d] on fractions. *)
Definition frac_eq (p q : Z * positive) : Prop :=
  (fst p * Zpos (snd q) = fst q * Zpos (snd p))%Z.

Definition isdigit (c : N) : bool := between 48 57 c.

(** Whitespace for the C routines behind [float] and [int]
    ([Py_ISSPACE]): the six blanks of the C locale. *)
Definition c_space (c : N) : bool := between 9 13 c || (c =? 32)%N.

(** The zero of each run of ten decimal digits above ASCII in the
    Unicode database of CPython 3.11 (Unicode 14.0): Arabic-Indic,
    Devanagari, ..., the fullwidth digits at U+FF10, ..., the
    mathematical digits, ... *)
Definition digit_zeros : list N :=
  [1632; 1776; 1984; 2406; 2534; 2662; 2790; 2918; 3046; 3174; 3302;
   3430; 3558; 3664; 3792; 3872; 4160; 4240; 6112; 6160; 6470; 6608;
   6784; 6800; 6992; 7088; 7232; 7248; 42528; 43216; 43264; 43472; 43504;
   43600; 44016; 65296; 66720; 68912; 69734; 69872; 69942; 70096; 70384;
   70736; 70864; 71248; 71360; 71472; 71904; 72016; 72784; 73040; 73120;
   92768; 92864; 93008; 120782; 120792; 120802; 120812; 120822; 123200;
   123632; 125264; 130032]%N.

(** [Py_UNICODE_TODECIMAL] over that database. *)
Definition todecimal (c : N) : option N :=
  match find (fun z => between z (z + 9) c) digit_zeros with
  | Some z => Some (c - z)%N
  | None => None
  end.

Definition is_ascii (s : str) : bool := forallb (fun c => (c <? 128)%N) s.

(** The loop of [_PyUnicode_TransformDecimalAndSpaceToASCII]: a
    character below 127 stays, a Unicode blank becomes a space, a
    decimal digit of any script becomes its ASCII digit, and at the
    first other character the text ends in a question mark.  [decimal]
    is the interpreter's [Py_UNICODE_TODECIMAL]. *)
Fixpoint transform_chars (decimal : N -> option N) (s : str) : str :=
  match s with
  | [] => []
  | c :: r =>
      if (c <? 127)%N then c :: transform_chars decimal r
      else if isspace c then 32%N :: transform_chars decimal r
      else match decimal c with
           | Some d => (48 + d)%N :: transform_chars decimal r
           | None => [63%N]
           end
  end.

(** What [float] and [int] first do to a [str] argument; an ASCII text
    is handed on as it is. *)
Definition transform_decimal_and_space_to_ascii (decimal : N -> option N)
    (s : str) : str :=
  if is_ascii s then s else transform_chars decimal s.

(** Underscores: one may stand between two digits and nowhere else.
    [None] when the grouping is illegal, else the text without them. *)
Fixpoint ungroup (prev : N) (s : str) : option str :=
  match s with
  | [] => if (prev =? 95)%N then None else Some []
  | c :: s' =>
      if (c =? 95)%N then
        if isdigit prev then ungroup c s' else None
      else if (prev =? 95)%N && negb (isdigit c) then None
      else option_map (cons c) (ungroup c s')
  end.

Fixpoint span_digits (s : str) : list N * str :=
  match s with
  | [] => ([], [])
  | c :: s' =>
      if isdigit c then
        let '(ds, r) := span_digits s' in (c :: ds, r)
      else ([], s)
  end.

Definition digits_value (ds : list N) : N :=
  fold_left (fun acc d => (10 * acc + (d - 48))%N) ds 0%N.

Definition lower (c : N) : N := if between 65 90 c then (c + 32)%N else c.

Definition split_sign (s : str) : bool * str :=
  match s with
  | 43%N :: r => (false, r)
  | 45%N :: r => (true, r)
  | _ => (false, s)
  end.

(** The exponent part after the mantissa: nothing, or [e], an optional
    sign and at least one digit, up to the end of the text. *)
Definition exponent (s : str) : option Z :=
  match s with
  | [] => Some 0%Z
  | c :: r =>
      if (lower c =? 101)%N then
        let '(neg, r') := split_sign r in
        match span_digits r' with
        | ((_ :: _) as ds, []) =>
            let e := Z.of_N (digits_value ds) in
            Some (if neg then (- e)%Z else e)
        | _ => None
        end
      else None
  end.

(** A decimal numeral without sign: digits, an optional point, digits
    (one digit at least in all), an optional exponent. *)
Definition decimal_numeral (neg : bool) (s : str) : option float :=
  let '(ip, r) := span_digits s in
  let '(fp, r') :=
    match r with
    | 46%N :: t => span_digits t
    | _ => ([], r)
    end in
  match ip ++ fp with
  | [] => None
  | _ :: _ =>
      match exponent r' with
      | Some e =>
          Some (FDec neg (digits_value (ip ++ fp))
                     (e - Z.of_nat (List.length fp)))
      | None => None
      end
  end.

(** [float(text)] for a [str] argument; [None] is [ValueError].  The
    text goes through the transformation above, loses its underscores,
    is stripped of C blanks and is read as infinity, nan or a decimal
    numeral. *)
Definition float_of_str (decimal : N -> option N) (text : str)
    : option float :=
  match ungroup 0%N (transform_decimal_and_space_to_ascii decimal text) with
  | None => None
  | Some t =>
      let t := rstrip_by c_space (lstrip_by c_space t) in
      let '(neg, body) := split_sign t in
      let low := map lower body in
      if str_eqb low (u "inf") || str_eqb low (u "infinity") then
        Some (FInf neg)
      else if str_eqb low (u "nan") then Some FNan
      else decimal_numeral neg body
  end.

(** [int(text)] in base ten for a [str] argument; [None] is
    [ValueError]. *)
Definition int_of_str (decimal : N -> option N) (text : str) : option Z :=
  match ungroup 0%N (transform_decimal_and_space_to_ascii decimal text) with
  | None => None
  | Some t =>
      let t := rstrip_by c_space (lstrip_by c_space t) in
      let '(neg, body) := split_sign t in
      match span_digits body with
      | ((_ :: _) as ds, []) =>
          let v := Z.of_N (digits_value ds) in
          Some (if neg then (- v)%Z else v)
      | _ => None
      end
  end.

End Py.

Definition pystr := Py.str.
Definition u := Py.u.

(* ================================================================== *)
(** * The parsed page *)
(* ================================================================== *)

(** What [BeautifulSoup(html, 'lxml')] hands back: a tree of tags and
    text nodes.  Tag names are as the parser gives them (lower case).
    [Text] is a plain string of the page; comments and the strings of
    script and style elements, which [get_text] passes over, have no
    node here. *)
Inductive node :=
| Text (s : pystr)
| Tag (name : pystr) (contents : list node).

Definition name_in (names : list pystr) (n : pystr) : bool :=
  existsb (Py.str_eqb n) names.

(** A node and everything below it, in document order, restricted to the
    tags called one of [names]. *)
Fixpoint matching (names : list pystr) (n : node) : list node :=
  match n with
  | Text _ => []
  | Tag nm cs =>
      (if name_in names nm then [n] else []) ++ flat_map (matching names) cs
  end.

(** [tag.find_all(names)]: the descendants of [tag], at any depth, that
    are tags called one of [names], in document order. *)
Definition find_all (names : list pystr) (n : node) : list node :=
  match n with
  | Text _ => []
  | Tag _ cs => flat_map (matching names) cs
  end.

(** The text nodes below (or at) a node, in document order. *)
Fixpoint strings (n : node) : list pystr :=
  match n with
  | Text s => [s]
  | Tag _ cs => flat_map strings cs
  end.

(** [tag.get_text(strip=True)]: every text node stripped, the empty ones
    left out, the rest joined without separator. *)
Definition get_text (n : node) : pystr :=
  List.concat (filter Py.truthy (map Py.strip (strings n))).

(* ================================================================== *)
(** * Records of the program *)
(* ================================================================== *)

Record date := { year : Z; month : Z; day : Z }.

Record ETFConfig := {
  symbol : pystr;
  name : pystr;
  provider : pystr;
  type : pystr;
  url : pystr
}.

Record Holding := {
  etf_symbol : pystr;
  trade_date : date;
  holding_date : date;
  rank : Z;
  isin : option pystr;
  issuer_name : pystr;
  security_name : pystr;
  security_type : pystr;
  shares_held : Py.num;
  market_value_twd : Py.num;
  weight_pct : Py.num;
  source_url : pystr
}.

(** ** The database *)

(** Rows of the tables that [save_holdings] does not write. *)
Record ScrapeLogEntry := {
  scrape_date : date;
  log_etf_symbol : pystr;
  status : pystr;
  holdings_count : Z;
  error_message : option pystr
}.

Record HoldingChange := {
  chg_etf_symbol : pystr;
  chg_trade_date : date;
  chg_isin : option pystr;
  change_type : pystr;
  shares_change : Py.num;
  weight_change : Py.num
}.

(** The committed content of the four tables. *)
Record Database := {
  etf_master : list ETFConfig;
  etf_holdings : list Holding;
  etf_holding_changes : list HoldingChange;
  etf_scrape_log : list ScrapeLogEntry
}.

Definition with_holdings (db : Database) (rows : list Holding) : Database :=
  {| etf_master := etf_master db;
     etf_holdings := rows;
     etf_holding_changes := etf_holding_changes db;
     etf_scrape_log := etf_scrape_log db |}.

(* ================================================================== *)
(** * The outside world and the process *)
(* ================================================================== *)

Inductive exn :=
| ValueError
| IndexError
| DatabaseError.

Inductive res (A : Type) :=
| Ok (a : A)
| Raise (e : exn).
Arguments Ok {A} a.
Arguments Raise {A} e.

(** What comes back from the POST to the rendering service. *)
Inductive zyte_reply :=
| ZyteRaise
    (* anything raised inside the [try]: transport error, timeout,
       a body that is not the expected JSON *)
| ZyteResponse (http_status : Z) (httpResponseBody : option pystr).

(** What comes back from a plain GET. *)
Inductive direct_reply :=
| DirectRaise
| DirectResponse (http_status : Z) (text : pystr).

(** Calls that leave the process, recorded when they return.
    [TaskDone i] is not a call: it marks the moment the [i]-th awaitable
    handed to [asyncio.gather] has returned. *)
Inductive event :=
| ZytePost (target : pystr)
| DirectGet (target : pystr)
| TaskDone (i : nat)
| PgConnect
| PgInsert (row : Holding)
| PgCommit
| PgClose.

Record World := {
  ZYTE_API_KEY : pystr;
    (* os.getenv('ZYTE_API_KEY', '') *)
  clock : nat -> date;
    (* the k-th answer of date.today() since the process started *)
  unicode_decimal : N -> option N;
    (* Py_UNICODE_TODECIMAL(ch): the digit value that the interpreter's
       Unicode database gives a character, if it is a decimal digit *)
  zyte_net : pystr -> zyte_reply;
    (* outcome of the rendering request for a target URL *)
  direct_net : pystr -> direct_reply;
  latency : nat -> nat;
    (* when the reply to the i-th task of a gather arrives *)
  lxml : pystr -> node;
    (* BeautifulSoup(html, 'lxml') *)
  b64decode_utf8 : pystr -> res pystr;
    (* base64.b64decode(s).decode('utf-8', errors='ignore') *)
  pg_connect : Database -> bool;
    (* does psycopg2.connect succeed *)
  pg_insert : Database -> list Holding -> Holding -> bool;
    (* does the server take this INSERT, given the committed tables and
       the rows already inserted by the open transaction; the verdict
       stands for the constraints of schema.sql *)
  pg_commit : Database -> list Holding -> bool
}.

Record State := {
  reads : nat;           (* answers of the clock used so far *)
  trace : list event;    (* outside calls so far, oldest first *)
  pg : Database          (* committed tables *)
}.

Definition M (A : Type) := State -> res A * State.

Definition ret {A} (a : A) : M A := fun s => (Ok a, s).

Definition bind {A B} (m : M A) (k : A -> M B) : M B :=
  fun s =>
    match m s with
    | (Ok a, s') => k a s'
    | (Raise e, s') => (Raise e, s')
    end.

Definition raise {A} (e : exn) : M A := fun s => (Raise e, s).

Declare Scope py_scope.
Delimit Scope py_scope with py.
Notation "x <- m ;; k" := (bind m (fun x => k))
  (at level 100, m at next level, right associativity) : py_scope.
Notation "m ;;; k" := (bind m (fun _ => k))
  (at level 100, right associativity) : py_scope.
Open Scope py_scope.

(** [try: body  except (classes): handler] *)
Definition try_except {A} (body : M A) (caught : exn -> bool)
    (handler : M A) : M A :=
  fun s =>
    match body s with
    | (Raise e, s') => if caught e then handler s' else (Raise e, s')
    | r => r
    end.

Definition lift {A} (r : res A) : M A := fun s => (r, s).

Definition emit (e : event) : M unit :=
  fun s => (Ok tt, {| reads := reads s; trace := trace s ++ [e]; pg := pg s |}).

(** [date.today()] *)
Definition today (w : World) : M date :=
  fun s => (Ok (clock w (reads s)),
            {| reads := S (reads s); trace := trace s; pg := pg s |}).

(** [l[i]] with Python's negative indices; out of range is [IndexError]. *)
Definition py_index {A} (l : list A) (i : Z) : res A :=
  let n := Z.of_nat (List.length l) in
  let j := if (i <? 0)%Z then (i + n)%Z else i in
  if (j <? 0)%Z then Raise IndexError
  else match nth_error l (Z.to_nat j) with
       | Some a => Ok a
       | None => Raise IndexError
       end.

(** [float(text)] *)
Definition float (w : World) (text : pystr) : res Py.float :=
  match Py.float_of_str (unicode_decimal w) text with
  | Some x => Ok x
  | None => Raise ValueError
  end.

(* ================================================================== *)
(** * ETFScraper.parse_holdings *)
(* ================================================================== *)

Definition TABLE := [u "table"].
Definition TR := [u "tr"].
Definition TD_TH := [u "td"; u "th"].

Definition PERCENT : N := 37.
Definition COMMA : N := 44.

(** The [Holding(...)] call of the loop body, its arguments evaluated in
    the order they are written. *)
Definition make_holding (w : World) (sym : pystr) (holdings : list Holding)
    (cols : list node) : M Holding :=
  d1 <- today w ;;
  d2 <- today w ;;
  let rk := (Z.of_nat (List.length holdings) + 1)%Z in
  c0 <- lift (py_index cols 0) ;;
  sec <- (if 1 <? List.length cols
          then c1 <- lift (py_index cols 1) ;; ret (get_text c1)
          else ret []) ;;
  cl <- lift (py_index cols (-1)) ;;
  wt <- (if Py.truthy (get_text cl)
         then cl' <- lift (py_index cols (-1)) ;;
              x <- lift (float w (Py.remove_char COMMA
                                    (Py.remove_char PERCENT (get_text cl')))) ;;
              ret (Py.PFloat x)
         else ret (Py.PInt 0)) ;;
  ret {| etf_symbol := sym;
         trade_date := d1;
         holding_date := d2;
         rank := rk;
         isin := None;
         issuer_name := get_text c0;
         security_name := sec;
         security_type := [];
         shares_held := Py.PInt 0;
         market_value_twd := Py.PInt 0;
         weight_pct := wt;
         source_url := [] |}.

Definition value_or_index (e : exn) : bool :=
  match e with ValueError | IndexError => true | _ => false end.

(** [for row in rows: ...] over the rows still to visit, [holdings] being
    the list built so far. *)
Fixpoint for_rows (w : World) (sym : pystr) (rows : list node)
    (holdings : list Holding) : M (list Holding) :=
  match rows with
  | [] => ret holdings
  | row :: rest =>
      let cols := find_all TD_TH row in
      if 4 <=? List.length cols then
        holdings' <- try_except
                       (h <- make_holding w sym holdings cols ;;
                        ret (holdings ++ [h]))
                       value_or_index
                       (ret holdings) ;;
        for_rows w sym rest holdings'
      else for_rows w sym rest holdings
  end.

(** [for table in tables: rows = table.find_all('tr'); for row in rows[1:]] *)
Fixpoint for_tables (w : World) (sym : pystr) (tables : list node)
    (holdings : list Holding) : M (list Holding) :=
  match tables with
  | [] => ret holdings
  | table :: rest =>
      holdings' <- for_rows w sym (skipn 1 (find_all TR table)) holdings ;;
      for_tables w sym rest holdings'
  end.

Definition parse_holdings (w : World) (html : pystr) (sym : pystr)
    : M (list Holding) :=
  let soup := lxml w html in
  for_tables w sym (find_all TABLE soup) [].

(* ================================================================== *)
(** * The two fetch clients *)
(* ================================================================== *)

Record ZyteClient := { api_key : pystr; api_url : pystr }.

(** [ZyteClient.__init__]: [api_key or os.getenv('ZYTE_API_KEY', '')] *)
Definition ZyteClient_init (w : World) (key : option pystr) : ZyteClient :=
  {| api_key := match key with
                | Some k => if Py.truthy k then k else ZYTE_API_KEY w
                | None => ZYTE_API_KEY w
                end;
     api_url := u "https://api.zyte.com/v1/extract" |}.

(** [ZyteClient.fetch]: the page, or [None] on any failure. *)
Definition ZyteClient_fetch (w : World) (self : ZyteClient) (target : pystr)
    : M (option pystr) :=
  if negb (Py.truthy (api_key self)) then ret None
  else
    emit (ZytePost target) ;;;
    match zyte_net w target with
    | ZyteRaise => ret None
    | ZyteResponse st body =>
        if negb (st =? 200)%Z then ret None
        else match body with
             | Some html_b64 =>
                 if Py.truthy html_b64 then
                   match b64decode_utf8 w html_b64 with
                   | Ok html => ret (Some html)
                   | Raise _ => ret None
                   end
                 else ret None
             | None => ret None
             end
    end.

Record DirectClient := { headers : list (pystr * pystr) }.

Definition DirectClient_init : DirectClient :=
  {| headers :=
       [ (u "User-Agent",
          u "Mozilla/5.0 (Macintosh; Intel Mac OS X 10_15_7) AppleWebKit/537.36");
         (u "Accept",
          u "text/html,application/xhtml+xml,application/xml;q=0.9,*/*;q=0.8");
         (u "Accept-Language", u "en-US,en;q=0.5") ] |}.

(** [DirectClient.fetch] *)
Definition DirectClient_fetch (w : World) (self : DirectClient)
    (target : pystr) : M (option pystr) :=
  emit (DirectGet target) ;;;
  match direct_net w target with
  | DirectRaise => ret None
  | DirectResponse st body =>
      if (st =? 200)%Z then ret (Some body) else ret None
  end.

(* ================================================================== *)
(** * ETFScraper *)
(* ================================================================== *)

Record ETFScraper := {
  etfs : list ETFConfig;
  zyte : ZyteClient;
  direct : DirectClient
}.

(** [ETFScraper.__init__], from the fund list that [_parse_etfs] reads
    out of the configuration file on. *)
Definition ETFScraper_init (w : World) (funds : list ETFConfig) : ETFScraper :=
  let zyte_key := ZYTE_API_KEY w in
  {| etfs := funds;
     zyte := ZyteClient_init w (Some zyte_key);
     direct := DirectClient_init |}.

Definition fetch_etf (w : World) (self : ETFScraper) (etf : ETFConfig)
    : M (list Holding) :=
  html <- ZyteClient_fetch w (zyte self) (url etf) ;;
  match html with
  | Some h => if Py.truthy h then parse_holdings w h (symbol etf) else ret []
  | None => ret []
  end.

(** ** asyncio.gather *)

(** Tasks finish in the order their replies arrive; two replies at the
    same instant are served in task order. *)
Fixpoint insert_by (key : nat -> nat) (i : nat) (l : list nat) : list nat :=
  match l with
  | [] => [i]
  | j :: l' => if key i <=? key j then i :: l else j :: insert_by key i l'
  end.

Definition completion_order (key : nat -> nat) (n : nat) : list nat :=
  fold_right (insert_by key) [] (seq 0 n).

Fixpoint assoc {A} (i : nat) (l : list (nat * A)) : option A :=
  match l with
  | [] => None
  | (j, a) :: l' => if i =? j then Some a else assoc i l'
  end.

(** Every task is run, each from the arrival of its reply to its return
    in one piece (a task does not suspend while it parses), in completion
    order; [done] collects the returned values by task index. *)
Fixpoint run_tasks {A} (tasks : list (M A)) (order : list nat)
    (done : list (nat * A)) : M (list (nat * A)) :=
  match order with
  | [] => ret done
  | i :: rest =>
      match nth_error tasks i with
      | Some t =>
          a <- t ;;
          emit (TaskDone i) ;;;
          run_tasks tasks rest (done ++ [(i, a)])
      | None => run_tasks tasks rest done
      end
  end.

(** [await asyncio.gather] over the tasks: returns once every task has returned,
    with the results in the order of the tasks. *)
Definition gather {A} (w : World) (tasks : list (M A)) : M (list A) :=
  let n := List.length tasks in
  done <- run_tasks tasks (completion_order (latency w) n) [] ;;
  ret (flat_map (fun i => match assoc i done with
                          | Some a => [a]
                          | None => []
                          end) (seq 0 n)).

(** ** dict *)

(** A [dict] keeps its keys in the order of first insertion; setting a
    key that is there replaces its value in place. *)
Definition dict (V : Type) := list (pystr * V).

Fixpoint dict_set {V} (k : pystr) (v : V) (d : dict V) : dict V :=
  match d with
  | [] => [(k, v)]
  | (k', v') :: d' =>
      if Py.str_eqb k' k then (k', v) :: d' else (k', v') :: dict_set k v d'
  end.

Fixpoint dict_get {V} (k : pystr) (d : dict V) : option V :=
  match d with
  | [] => None
  | (k', v') :: d' => if Py.str_eqb k' k then Some v' else dict_get k d'
  end.

(** [dict(pairs)] *)
Definition dict_of {V} (pairs : list (pystr * V)) : dict V :=
  fold_left (fun d kv => dict_set (fst kv) (snd kv) d) pairs [].

Definition fetch_all (w : World) (self : ETFScraper)
    : M (dict (list Holding)) :=
  let tasks := map (fetch_etf w self) (etfs self) in
  results <- gather w tasks ;;
  ret (dict_of (combine (map symbol (etfs self)) results)).

(** ** Persistence *)

(** [self._get_db_connection()]: a connection is the list of rows its
    open transaction has inserted and not yet committed. *)
Definition _get_db_connection (w : World) : M (list Holding) :=
  emit PgConnect ;;;
  fun s => if pg_connect w (pg s) then (Ok [], s) else (Raise DatabaseError, s).

(** [cursor.execute('INSERT INTO etf_holdings ...', (h. ...))] *)
Definition execute_insert (w : World) (txn : list Holding) (h : Holding)
    : M (list Holding) :=
  emit (PgInsert h) ;;;
  fun s => if pg_insert w (pg s) txn h then (Ok (txn ++ [h]), s)
           else (Raise DatabaseError, s).

(** [conn.commit()] *)
Definition commit (w : World) (txn : list Holding) : M unit :=
  emit PgCommit ;;;
  fun s =>
    if pg_commit w (pg s) txn then
      (Ok tt, {| reads := reads s; trace := trace s;
                 pg := with_holdings (pg s) (etf_holdings (pg s) ++ txn) |})
    else (Raise DatabaseError, s).

(** [for h in holdings: cursor.execute(...); total += 1] *)
Fixpoint insert_each (w : World) (holdings : list Holding)
    (acc : list Holding * Z) : M (list Holding * Z) :=
  match holdings with
  | [] => ret acc
  | h :: rest =>
      txn <- execute_insert w (fst acc) h ;;
      insert_each w rest (txn, (snd acc + 1)%Z)
  end.

(** [for symbol, holdings in holdings_dict.items(): ...] *)
Fixpoint insert_items (w : World) (items : dict (list Holding))
    (acc : list Holding * Z) : M (list Holding * Z) :=
  match items with
  | [] => ret acc
  | (_, holdings) :: rest =>
      acc' <- insert_each w holdings acc ;;
      insert_items w rest acc'
  end.

(** [save_holdings]: returns the number of rows it logs as saved.  When
    an [execute] or the [commit] raises, the exception leaves the
    function, the connection is dropped without a commit and the server
    discards what the transaction had inserted. *)
Definition save_holdings (w : World) (self : ETFScraper)
    (holdings_dict : dict (list Holding)) : M Z :=
  conn <- _get_db_connection w ;;
  acc <- insert_items w holdings_dict (conn, 0%Z) ;;
  commit w (fst acc) ;;;
  emit PgClose ;;;
  ret (snd acc).

Definition run (w : World) (self : ETFScraper) : M unit :=
  holdings <- fetch_all w self ;;
  _ <- save_holdings w self holdings ;;
  ret tt.

(* ================================================================== *)
(** * What the parser computes, row by row *)
(* ================================================================== *)

(** The texts of the cells that the loop body sees for a row. *)
Definition cell_texts (row : node) : list pystr :=
  map get_text (find_all TD_TH row).

(** The rows the two loops visit, in order: for each table of the page,
    every [tr] below it but the first. *)
Definition rows_visited (soup : node) : list node :=
  flat_map (fun table => skipn 1 (find_all TR table)) (find_all TABLE soup).

(** Every table with all the [tr] below it, the first one included. *)
Definition table_texts (soup : node) : list (list (list pystr)) :=
  map (fun table => map cell_texts (find_all TR table)) (find_all TABLE soup).

Definition clean_weight (t : pystr) : pystr :=
  Py.remove_char COMMA (Py.remove_char PERCENT t).

(** The weight read from the text of the last cell; [None] when [float]
    raises. *)
Definition weight_of_text (w : World) (t : pystr) : option Py.num :=
  if Py.truthy t
  then option_map Py.PFloat
         (Py.float_of_str (unicode_decimal w) (clean_weight t))
  else Some (Py.PInt 0).

Definition holding_of_cells (w : World) (sym : pystr) (d1 d2 : date)
    (rk : Z) (cells : list pystr) : option Holding :=
  match weight_of_text w (last cells []) with
  | Some wt =>
      Some {| etf_symbol := sym;
              trade_date := d1;
              holding_date := d2;
              rank := rk;
              isin := None;
              issuer_name := nth 0 cells [];
              security_name := nth 1 cells [];
              security_type := [];
              shares_held := Py.PInt 0;
              market_value_twd := Py.PInt 0;
              weight_pct := wt;
              source_url := [] |}
  | None => None
  end.

(** A row is a candidate when it has four cells or more. *)
Definition candidate (cells : list pystr) : bool := 4 <=? List.length cells.

(** Does [float] accept the text of a weight cell, once the percent
    signs and commas are out. *)
Definition converts (w : World) (t : pystr) : bool :=
  match Py.float_of_str (unicode_decimal w) (clean_weight t) with
  | Some _ => true
  | None => false
  end.

(** A candidate is kept when its weight cell is empty or converts. *)
Definition kept (w : World) (cells : list pystr) : bool :=
  candidate cells &&
  (negb (Py.truthy (last cells [])) || converts w (last cells [])).

(** The holdings for a list of rows, when [t] answers of the clock have
    been used and [n] holdings are already in the list. *)
Fixpoint number_rows (w : World) (sym : pystr) (rows : list (list pystr))
    (t n : nat) : list Holding :=
  match rows with
  | [] => []
  | cells :: rest =>
      if candidate cells then
        match holding_of_cells w sym (clock w t) (clock w (S t))
                (Z.of_nat n + 1) cells with
        | Some h => h :: number_rows w sym rest (S (S t)) (S n)
        | None => number_rows w sym rest (S (S t)) n
        end
      else number_rows w sym rest t n
  end.

(** Each candidate row asks the clock twice. *)
Definition clock_after (t : nat) (rows : list (list pystr)) : nat :=
  t + 2 * List.length (filter candidate rows).

Definition set_reads (n : nat) (s : State) : State :=
  {| reads := n; trace := trace s; pg := pg s |}.

Definition add_trace (evs : list event) (s : State) : State :=
  {| reads := reads s; trace := trace s ++ evs; pg := pg s |}.

(** The rows of a batch in the order [save_holdings] inserts them. *)
Definition batch_rows (d : dict (list Holding)) : list Holding :=
  flat_map snd d.

Definition is_pg (e : event) : bool :=
  match e with
  | PgConnect | PgInsert _ | PgCommit | PgClose => true
  | _ => false
  end.

Definition is_direct (e : event) : bool :=
  match e with DirectGet _ => true | _ => false end.


(** What [ZyteClient.fetch] returns, which no state enters. *)
Definition zyte_result (w : World) (self : ZyteClient) (target : pystr)
    : option pystr :=
  if negb (Py.truthy (api_key self)) then None
  else match zyte_net w target with
       | ZyteRaise => None
       | ZyteResponse st body =>
           if negb (st =? 200)%Z then None
           else match body with
                | Some html_b64 =>
                    if Py.truthy html_b64 then
                      match b64decode_utf8 w html_b64 with
                      | Ok html => Some html
                      | Raise _ => None
                      end
                    else None
                | None => None
                end
       end.

Definition zyte_events (self : ZyteClient) (target : pystr) : list event :=
  if negb (Py.truthy (api_key self)) then [] else [ZytePost target].

(** The fields that no cell feeds. *)
Definition blank_fields (h : Holding) : Prop :=
  isin h = None /\ security_type h = [] /\ shares_held h = Py.PInt 0 /\
  market_value_twd h = Py.PInt 0 /\ source_url h = [].

(** How a holding relates to the cells of the row it was made from. *)
Definition made_from (w : World) (sym : pystr) (h : Holding)
    (cells : list pystr) : Prop :=
  etf_symbol h = sym /\
  issuer_name h = nth 0 cells [] /\
  security_name h = nth 1 cells [] /\
  weight_of_text w (last cells []) = Some (weight_pct h).


(** ** What a fetch computes *)

(** A state after [evs] more outside calls, the clock at position [n]. *)
Definition upd (n : nat) (evs : list event) (s : State) : State :=
  {| reads := n; trace := trace s ++ evs; pg := pg s |}.

Definition page_rows (w : World) (html : pystr) : list (list pystr) :=
  map cell_texts (rows_visited (lxml w html)).

(** The page that [fetch_etf] goes on to parse, if any. *)
Definition etf_html (w : World) (self : ETFScraper) (etf : ETFConfig)
    : option pystr :=
  match zyte_result w (zyte self) (url etf) with
  | Some h => if Py.truthy h then Some h else None
  | None => None
  end.

(** The holdings of one fund, fetched when the clock is at [t]. *)
Definition etf_result (w : World) (self : ETFScraper) (etf : ETFConfig)
    (t : nat) : list Holding :=
  match etf_html w self etf with
  | Some h => number_rows w (symbol etf) (page_rows w h) t 0
  | None => []
  end.

Definition etf_reads (w : World) (self : ETFScraper) (etf : ETFConfig)
    (t : nat) : nat :=
  match etf_html w self etf with
  | Some h => clock_after t (page_rows w h)
  | None => t
  end.

(** ** What a gather computes, for tasks that return [val i t] when
    started at clock position [t], leave the clock at [rd i t] and make
    the outside calls [ev i]. *)
Section GatherSpec.

Variable A : Type.
Variable val : nat -> nat -> A.
Variable rd : nat -> nat -> nat.
Variable ev : nat -> list event.

Fixpoint done_of (order : list nat) (t : nat) : list (nat * A) :=
  match order with
  | [] => []
  | i :: rest => (i, val i t) :: done_of rest (rd i t)
  end.

Fixpoint reads_of (order : list nat) (t : nat) : nat :=
  match order with
  | [] => t
  | i :: rest => reads_of rest (rd i t)
  end.

Definition events_of (order : list nat) : list event :=
  flat_map (fun i => ev i ++ [TaskDone i]) order.

(** The clock position at which task [i] starts. *)
Fixpoint start_of (order : list nat) (t : nat) (i : nat) : nat :=
  match order with
  | [] => t
  | j :: rest => if i =? j then t else start_of rest (rd j t) i
  end.

End GatherSpec.

(** The three functions for the tasks of [fetch_all]. *)
Definition fund_val (w : World) (self : ETFScraper) (i t : nat)
    : list Holding :=
  match nth_error (etfs self) i with
  | Some etf => etf_result w self etf t
  | None => []
  end.

Definition fund_rd (w : World) (self : ETFScraper) (i t : nat) : nat :=
  match nth_error (etfs self) i with
  | Some etf => etf_reads w self etf t
  | None => t
  end.

Definition fund_ev (self : ETFScraper) (i : nat) : list event :=
  match nth_error (etfs self) i with
  | Some etf => zyte_events (zyte self) (url etf)
  | None => []
  end.

(** The order in which the tasks of one [fetch_all] finish. *)
Definition fund_order (w : World) (self : ETFScraper) : list nat :=
  completion_order (latency w) (List.length (etfs self)).

(** The results of one [fetch_all] started at clock position [t], in
    the order of the funds. *)
Definition fund_results (w : World) (self : ETFScraper) (t : nat)
    : list (list Holding) :=
  map (fun i => fund_val w self i
                  (start_of (fund_rd w self) (fund_order w self) t i))
      (seq 0 (List.length (etfs self))).

(** ** What a persist step does *)

(** The rows handed to the server, the refused one included, and the
    rows of the transaction if none was refused. *)
Fixpoint insert_spec (w : World) (db : Database) (txn : list Holding)
    (hs : list Holding) : list Holding * option (list Holding) :=
  match hs with
  | [] => ([], Some txn)
  | h :: rest =>
      if pg_insert w db txn h then
        let '(tried, r) := insert_spec w db (txn ++ [h]) rest in
        (h :: tried, r)
      else ([h], None)
  end.

Definition date_eqb (a b : date) : bool :=
  ((year a =? year b) && (month a =? month b) && (day a =? day b))%Z.

(** The scrape-log rows of a fund for a date. *)
Definition log_rows_for (sym : pystr) (d : date) (db : Database)
    : list ScrapeLogEntry :=
  filter (fun e => Py.str_eqb (log_etf_symbol e) sym
                   && date_eqb (scrape_date e) d)
         (etf_scrape_log db).

Definition num_eqb (a b : Py.num) : bool :=
  match a, b with
  | Py.PInt x, Py.PInt y => (x =? y)%Z
  | Py.PFloat (Py.FDec s m e), Py.PFloat (Py.FDec s' m' e') =>
      Bool.eqb s s' && (m =? m')%N && (e =? e')%Z
  | Py.PFloat (Py.FInf s), Py.PFloat (Py.FInf s') => Bool.eqb s s'
  | Py.PFloat Py.FNan, Py.PFloat Py.FNan => true
  | _, _ => false
  end.

(** Two rows with the same twelve columns. *)
Definition row_eqb (a b : Holding) : bool :=
  Py.str_eqb (etf_symbol a) (etf_symbol b)
  && date_eqb (trade_date a) (trade_date b)
  && date_eqb (holding_date a) (holding_date b)
  && (rank a =? rank b)%Z
  && match isin a, isin b with
     | None, None => true
     | Some x, Some y => Py.str_eqb x y
     | _, _ => false
     end
  && Py.str_eqb (issuer_name a) (issuer_name b)
  && Py.str_eqb (security_name a) (security_name b)
  && Py.str_eqb (security_type a) (security_type b)
  && num_eqb (shares_held a) (shares_held b)
  && num_eqb (market_value_twd a) (market_value_twd b)
  && num_eqb (weight_pct a) (weight_pct b)
  && Py.str_eqb (source_url a) (source_url b).

(** How many rows of a table equal [h]. *)
Definition count_occ_rows (h : Holding) (table : list Holding) : nat :=
  List.length (filter (row_eqb h) table).

(* ================================================================== *)
(** * Pages, worlds and databases to run the program on *)
(* ================================================================== *)

Module Sample.

Local Open Scope string_scope.

Definition td (s : string) : node := Tag (u "td") [Text (u s)].
Definition tr (cells : list string) : node := Tag (u "tr") (map td cells).
Definition table (rows : list (list string)) : node :=
  Tag (u "table") (map tr rows).
Definition page (tables : list node) : node :=
  Tag (u "[document]") [Tag (u "html") [Tag (u "body") tables]].

Definition row_a := ["Co A"; "Sec A"; "100"; "1.23%"].
Definition row_b := ["Co B"; "Sec B"; "50"; "0.50%"].
Definition header := ["Issuer"; "Security"; "Shares"; "Weight"].

(** One table whose only rows are the two data rows. *)
Definition page_two_rows : node := page [table [row_a; row_b]].

(** The same two rows under a header row. *)
Definition page_with_header : node := page [table [header; row_a; row_b]].

(** A header, a row whose weight is not a number, a row whose weight
    cell is empty, and a good row. *)
Definition page_bad_weight : node :=
  page [table [header;
               ["Co A"; "Sec A"; "100"; "n/a"];
               ["Co B"; "Sec B"; "50"; ""];
               ["Co C"; "Sec C"; "10"; "2.5%"]]].

(** Two tables, the second with a short row. *)
Definition page_two_tables : node :=
  page [table [header; row_a; row_b];
        table [header; ["short"; "row"]; ["Co C"; "Sec C"; "10"; "2.5%"]]].

(** A layout table whose second row holds a table of its own. *)
Definition inner_table : node := table [["A"; "B"; "C"; "1%"]].
Definition page_nested : node :=
  page [Tag (u "table")
          [tr ["h"]; Tag (u "tr") [Tag (u "td") [inner_table]]]].

(** The same layout around a table with a header and two data rows. *)
Definition page_nested_data : node :=
  page [Tag (u "table")
          [tr ["h"];
           Tag (u "tr") [Tag (u "td") [table [header; row_a; row_b]]]]].

(** A table whose data row gives the weight [1.5%] in fullwidth digits
    (U+FF11, full stop, U+FF15, percent sign). *)
Definition page_fullwidth : node :=
  page [Tag (u "table")
          [tr header;
           Tag (u "tr") [td "Co A"; td "Sec A"; td "100";
                         Tag (u "td") [Text [65297; 46; 65301; 37]%N]]]].

(** The cells of the rows above, as the parser reads them. *)
Definition cells_a : list pystr := map u row_a.
Definition cells_b : list pystr := map u row_b.
Definition cells_header : list pystr := map u header.
Definition cells_bad : list pystr := map u ["Co A"; "Sec A"; "100"; "n/a"].
Definition cells_inner : list pystr := map u ["A"; "B"; "C"; "1%"].

Definition d0 : date := {| year := 2025; month := 1; day := 2 |}.
Definition d1 : date := {| year := 2025; month := 1; day := 3 |}.

Definition empty_db : Database :=
  {| etf_master := []; etf_holdings := [];
     etf_holding_changes := []; etf_scrape_log := [] |}.

Definition s0 : State := {| reads := 0; trace := []; pg := empty_db |}.

(** A world with a credential in which every page is [doc], the clock
    stands still and the server takes every statement. *)
Definition world (doc : node) : World :=
  {| ZYTE_API_KEY := u "key";
     clock := fun _ => d0;
     unicode_decimal := Py.todecimal;
     zyte_net := fun _ => ZyteResponse 200 (Some (u "PGh0bWw+"));
     direct_net := fun _ => DirectResponse 200 (u "<html>");
     latency := fun i => 10 - i;
     lxml := fun _ => doc;
     b64decode_utf8 := fun _ => Ok (u "<html>");
     pg_connect := fun _ => true;
     pg_insert := fun _ _ _ => true;
     pg_commit := fun _ _ => true |}.

(** The same world, in which the rendering service answers 503 for the
    URL [bad]. *)
Definition world_down (doc : node) (bad : pystr) : World :=
  {| ZYTE_API_KEY := u "key";
     clock := fun _ => d0;
     unicode_decimal := Py.todecimal;
     zyte_net := fun t => if Py.str_eqb t bad
                          then ZyteResponse 503 None
                          else ZyteResponse 200 (Some (u "PGh0bWw+"));
     direct_net := fun _ => DirectResponse 200 (u "<html>");
     latency := fun i => 10 - i;
     lxml := fun _ => doc;
     b64decode_utf8 := fun _ => Ok (u "<html>");
     pg_connect := fun _ => true;
     pg_insert := fun _ _ _ => true;
     pg_commit := fun _ _ => true |}.

(** A world without credential. *)
Definition world_no_key (doc : node) : World :=
  {| ZYTE_API_KEY := [];
     clock := fun _ => d0;
     unicode_decimal := Py.todecimal;
     zyte_net := fun _ => ZyteResponse 200 (Some (u "PGh0bWw+"));
     direct_net := fun _ => DirectResponse 200 (u "<html>");
     latency := fun i => i;
     lxml := fun _ => doc;
     b64decode_utf8 := fun _ => Ok (u "<html>");
     pg_connect := fun _ => true;
     pg_insert := fun _ _ _ => true;
     pg_commit := fun _ _ => true |}.

(** A world whose clock passes midnight between its first two answers. *)
Definition world_midnight (doc : node) : World :=
  {| ZYTE_API_KEY := u "key";
     clock := fun k => if (k =? 0)%nat then d0 else d1;
     unicode_decimal := Py.todecimal;
     zyte_net := fun _ => ZyteResponse 200 (Some (u "PGh0bWw+"));
     direct_net := fun _ => DirectResponse 200 (u "<html>");
     latency := fun i => i;
     lxml := fun _ => doc;
     b64decode_utf8 := fun _ => Ok (u "<html>");
     pg_connect := fun _ => true;
     pg_insert := fun _ _ _ => true;
     pg_commit := fun _ _ => true |}.

(** A world whose server refuses the second row of a transaction. *)
Definition world_refusing (doc : node) : World :=
  {| ZYTE_API_KEY := u "key";
     clock := fun _ => d0;
     unicode_decimal := Py.todecimal;
     zyte_net := fun _ => ZyteResponse 200 (Some (u "PGh0bWw+"));
     direct_net := fun _ => DirectResponse 200 (u "<html>");
     latency := fun i => i;
     lxml := fun _ => doc;
     b64decode_utf8 := fun _ => Ok (u "<html>");
     pg_connect := fun _ => true;
     pg_insert := fun _ txn _ => (List.length txn <? 1)%nat;
     pg_commit := fun _ _ => true |}.

Definition fund (sym target : string) : ETFConfig :=
  {| symbol := u sym; name := u sym; provider := u "p"; type := u "active";
     url := u target |}.

Definition funds : list ETFConfig :=
  [fund "00980A" "https://a"; fund "00981A" "https://b";
   fund "00982A" "https://c"].

(** The scraper of a world over the three funds. *)
Definition scraper (w : World) : ETFScraper := ETFScraper_init w funds.

Definition holding (rk : Z) (issuer security : string) (weight : N)
    : Holding :=
  {| etf_symbol := u "00980A";
     trade_date := d0;
     holding_date := d0;
     rank := rk;
     isin := None;
     issuer_name := u issuer;
     security_name := u security;
     security_type := [];
     shares_held := Py.PInt 0;
     market_value_twd := Py.PInt 0;
     weight_pct := Py.PFloat (Py.FDec false weight (-2));
     source_url := [] |}.

(** A batch of one fund with two holdings. *)
Definition batch : dict (list Holding) :=
  [(u "00980A", [holding 1 "Co A" "Sec A" 123; holding 2 "Co B" "Sec B" 50])].

(** The accepting world, its scraper, and the states after one and two
    persist steps of [batch]. *)
Definition w_ok : World := world page_with_header.
Definition s_once : State := snd (save_holdings w_ok (scraper w_ok) batch s0).
Definition s_twice : State :=
  snd (save_holdings w_ok (scraper w_ok) batch s_once).

(** The world in which the second fund's page cannot be fetched. *)
Definition w_down : World := world_down page_with_header (u "https://b").

End Sample.

(* ================================================================== *)
(** * Further notions for the fetch and persist steps *)
(* ================================================================== *)

(** The same world with another timing of the replies. *)
Definition with_latency (f : nat -> nat) (w : World) : World :=
  {| ZYTE_API_KEY := ZYTE_API_KEY w;
     clock := clock w;
     unicode_decimal := unicode_decimal w;
     zyte_net := zyte_net w;
     direct_net := direct_net w;
     latency := f;
     lxml := lxml w;
     b64decode_utf8 := b64decode_utf8 w;
     pg_connect := pg_connect w;
     pg_insert := pg_insert w;
     pg_commit := pg_commit w |}.

(** A holding without its two dates. *)
Definition undated (h : Holding)
    : pystr * Z * pystr * pystr * Py.num :=
  (etf_symbol h, rank h, issuer_name h, security_name h, weight_pct h).

(** The key of a stored row that the data model calls unique within a
    run. *)
Definition row_key (h : Holding) : pystr * Z := (etf_symbol h, rank h).

Definition is_network (e : event) : bool :=
  match e with ZytePost _ | DirectGet _ => true | _ => false end.

Definition is_insert (e : event) : bool :=
  match e with PgInsert _ => true | _ => false end.

(** A server that takes every statement. *)
Definition accepting (w : World) : Prop :=
  (forall db, pg_connect w db = true) /\
  (forall db txn h, pg_insert w db txn h = true) /\
  (forall db txn, pg_commit w db txn = true).

(** One step of [dict(pairs)]. *)
Definition dict_step {V} (d : dict V) (kv : pystr * V) : dict V :=
  dict_set (fst kv) (snd kv) d.

(** Further pages, funds and worlds to run the program on. *)
Module More.

Local Open Scope string_scope.

(** Two configured funds under one symbol; the first one's page is the
    one that cannot be fetched in [Sample.w_down]. *)
Definition dup_first : ETFConfig := Sample.fund "00980A" "https://b".
Definition dup_second : ETFConfig := Sample.fund "00980A" "https://a".
Definition dup_scraper (w : World) : ETFScraper :=
  ETFScraper_init w [dup_first; dup_second].

(** A page whose only table has a header and nothing else. *)
Definition page_header_only : node := Sample.page [Sample.table [Sample.header]].

(** A page with a row whose weight cell holds a percent sign alone, and
    the page without that row. *)
Definition cells_sign : list pystr := map u ["Co S"; "Sec S"; "7"; "%"].
Definition page_sign : node :=
  Sample.page [Sample.table [Sample.header; Sample.row_a;
                             ["Co S"; "Sec S"; "7"; "%"]; Sample.row_b]].

(** A world that parses the text [sign] as [page_sign] and any other
    text as the page with the two good rows. *)
Definition world_sign : World :=
  {| ZYTE_API_KEY := u "key";
     clock := fun _ => Sample.d0;
     unicode_decimal := Py.todecimal;
     zyte_net := fun _ => ZyteResponse 200 (Some (u "PGh0bWw+"));
     direct_net := fun _ => DirectResponse 200 (u "<html>");
     latency := fun i => i;
     lxml := fun t => if Py.str_eqb t (u "sign") then page_sign
                      else Sample.page_with_header;
     b64decode_utf8 := fun _ => Ok (u "<html>");
     pg_connect := fun _ => true;
     pg_insert := fun _ _ _ => true;
     pg_commit := fun _ _ => true |}.

End More.

(* ================================================================== *)
(** * ETFScraper._init_db: the fund master table *)
(* ================================================================== *)

(** [INSERT INTO etf_master (symbol, name, provider, type, zyte_url)
    VALUES ... ON CONFLICT (symbol) DO UPDATE SET name = EXCLUDED.name,
    updated_at = NOW()], as the statement acts on the rows of the table:
    a row with the symbol takes the new name and keeps its other
    columns, and without such a row the new row is added.  A row of
    [etf_master] is held as an [ETFConfig], its [url] being the column
    [zyte_url]; the column [updated_at] is not represented.  The table
    is held as the list of its rows, with one row per symbol at most
    (the key that [ON CONFLICT (symbol)] relies on).  The place of a row
    in the list belongs to this representation only: a table hands its
    rows back in no promised order, so where the renamed row stands and
    where the new one is put says nothing of what a later [SELECT]
    returns first. *)
Fixpoint upsert_master (e : ETFConfig) (table : list ETFConfig)
    : list ETFConfig :=
  match table with
  | [] => [e]
  | r :: rest =>
      if Py.str_eqb (symbol r) (symbol e) then
        {| symbol := symbol r; name := name e; provider := provider r;
           type := type r; url := url r |} :: rest
      else r :: upsert_master e rest
  end.

(** [for etf in self.etfs: cursor.execute(...)]: the table the loop of
    [_init_db] builds in its transaction, from the table it finds. *)
Definition upsert_etfs (funds : list ETFConfig) (table : list ETFConfig)
    : list ETFConfig :=
  fold_left (fun t e => upsert_master e t) funds table.

(** The name the configuration gives last to a symbol, if any. *)
Fixpoint last_name (funds : list ETFConfig) (k : pystr) : option pystr :=
  match funds with
  | [] => None
  | e :: rest =>
      match last_name rest k with
      | Some n => Some n
      | None => if Py.str_eqb (symbol e) k then Some (name e) else None
      end
  end.

(** A row under the name the configuration gives its symbol last. *)
Definition retitled (funds : list ETFConfig) (r : ETFConfig) : ETFConfig :=
  match last_name funds (symbol r) with
  | Some n => {| symbol := symbol r; name := n; provider := provider r;
                 type := type r; url := url r |}
  | None => r
  end.

(** Two rows that differ in their name at most. *)
Definition same_but_name (r r' : ETFConfig) : Prop :=
  symbol r' = symbol r /\ provider r' = provider r /\
  type r' = type r /\ url r' = url r.

(** A row of the master table for the first sample fund, under an older
    name, provider and URL. *)
Definition old_master_row : ETFConfig :=
  {| symbol := u "00980A"; name := u "old name"; provider := u "old";
     type := u "active"; url := u "https://old" |}.

(* ================================================================== *)
(** * scheduler.py: the trigger time of [ETFScheduler.start] *)
(* ================================================================== *)

Definition rbind {A B} (r : res A) (k : A -> res B) : res B :=
  match r with
  | Ok a => k a
  | Raise e => Raise e
  end.

Definition COLON : N := 58.
Definition SPACE : N := 32.

(** [c in s] for a one-character [c] *)
Definition contains (c : N) (s : pystr) : bool :=
  existsb (fun d => (d =? c)%N) s.

(** [s.split()]: the maximal runs of characters that are not
    whitespace; [cur] is the run being read. *)
Fixpoint split_ws (cur : pystr) (s : pystr) : list pystr :=
  match s with
  | [] => if Py.truthy cur then [cur] else []
  | c :: r =>
      if Py.isspace c then
        (if Py.truthy cur then [cur] else []) ++ split_ws [] r
      else split_ws (cur ++ [c]) r
  end.

Definition py_split (s : pystr) : list pystr := split_ws [] s.

(** [s.split(sep)] for a one-character [sep]: empty fields are kept. *)
Fixpoint split_on (sep : N) (cur : pystr) (s : pystr) : list pystr :=
  match s with
  | [] => [cur]
  | c :: r =>
      if (c =? sep)%N then cur :: split_on sep [] r
      else split_on sep (cur ++ [c]) r
  end.

Definition py_split_on (sep : N) (s : pystr) : list pystr :=
  split_on sep [] s.

(** [int(text)] *)
Definition py_int (w : World) (text : pystr) : res Z :=
  match Py.int_of_str (unicode_decimal w) text with
  | Some z => Ok z
  | None => Raise ValueError
  end.

(** The lines of [start] that read the trigger time out of the schedule
    text: eight o'clock unless the text has a colon; then the first
    blank-separated word of the text, or the whole text when it has no
    space, is cut at its colons into hour and minute. *)
Definition trigger_time (w : World) (cron_time : pystr) : res (Z * Z) :=
  if contains COLON cron_time then
    rbind (if contains SPACE cron_time
           then py_index (py_split cron_time) 0
           else Ok cron_time)
      (fun time_part =>
         match py_split_on COLON time_part with
         | [h; m] =>
             rbind (py_int w h) (fun hour =>
             rbind (py_int w m) (fun minute => Ok (hour, minute)))
         | _ => Raise ValueError
         end)
  else Ok (8%Z, 0%Z).

(** [self.config.get('schedule', {}).get('daily_fetch', '08:00 Asia/Taipei')],
    the configuration being read as sections of text entries. *)
Definition daily_fetch (config : dict (dict pystr)) : pystr :=
  let schedule_config :=
    match dict_get (u "schedule") config with
    | Some sc => sc
    | None => []
    end in
  match dict_get (u "daily_fetch") schedule_config with
  | Some t => t
  | None => u "08:00 Asia/Taipei"
  end.

Definition start_time (w : World) (config : dict (dict pystr))
    : res (Z * Z) :=
  trigger_time w (daily_fetch config).

(** The decimal digits of a number, most significant first. *)
Fixpoint uint_digits (d : Decimal.uint) : pystr :=
  match d with
  | Decimal.Nil => []
  | Decimal.D0 r => 48%N :: uint_digits r
  | Decimal.D1 r => 49%N :: uint_digits r
  | Decimal.D2 r => 50%N :: uint_digits r
  | Decimal.D3 r => 51%N :: uint_digits r
  | Decimal.D4 r => 52%N :: uint_digits r
  | Decimal.D5 r => 53%N :: uint_digits r
  | Decimal.D6 r => 54%N :: uint_digits r
  | Decimal.D7 r => 55%N :: uint_digits r
  | Decimal.D8 r => 56%N :: uint_digits r
  | Decimal.D9 r => 57%N :: uint_digits r
  end.

(** [format(z, '02d')]: sign, then the digits padded with zeros so that
    sign and digits fill two places at least. *)
Definition format_02d (z : Z) : pystr :=
  let ds := uint_digits (N.to_uint (Z.abs_N z)) in
  let sign := if (z <? 0)%Z then [45%N] else [] in
  sign ++ repeat 48%N (2 - List.length sign - List.length ds) ++ ds.

(** The time as [start] writes it in its log line, [HH:MM Asia/Taipei]. *)
Definition logged_time (hour minute : Z) : pystr :=
  format_02d hour ++ [COLON] ++ format_02d minute ++ u " Asia/Taipei".

(** Does a time come back from its logged form? *)
Definition rereads (w : World) (hour minute : nat) : bool :=
  match trigger_time w (logged_time (Z.of_nat hour) (Z.of_nat minute)) with
  | Ok (h, m) => (h =? Z.of_nat hour)%Z && (m =? Z.of_nat minute)%Z
  | Raise _ => false
  end.

(* ================================================================== *)
(** * tw_stock_screener.py *)
(* ================================================================== *)

Module Screener.

Definition YAHOO_URL : pystr :=
  u "https://finance.yahoo.com/markets/tw/stocks/gainers/".
Definition TRADINGVIEW_URL : pystr :=
  u "https://www.tradingview.com/markets/stocks/taiwan/".

Definition TD := [u "td"].
Definition A := [u "a"].

(** [tag.find(names)]: the first of [find_all], or [None]. *)
Definition find (names : list pystr) (n : node) : option node :=
  hd_error (find_all names n).

(** [l[a:b]] for [0 <= a <= b] *)
Definition slice {T} (a b : nat) (l : list T) : list T :=
  firstn (b - a) (skipn a l).

(** [cols[i].get_text(strip=True) if len(cols) > i else ""] *)
Definition text_at (cols : list node) (i : nat) : res pystr :=
  if i <? List.length cols
  then rbind (py_index cols (Z.of_nat i)) (fun c => Ok (get_text c))
  else Ok [].

(** The dict made for a row of six cells or more. *)
Definition stock_of_row (cols : list node) : res (dict pystr) :=
  rbind (py_index cols 0) (fun c0 =>
  let symbol := get_text c0 in
  rbind (text_at cols 1) (fun name =>
  rbind (text_at cols 2) (fun price =>
  rbind (text_at cols 3) (fun change =>
  rbind (text_at cols 4) (fun pct_change =>
  rbind (text_at cols 5) (fun volume =>
  Ok [ (u "symbol", symbol); (u "name", name); (u "price", price);
       (u "change", change); (u "pct_change", pct_change);
       (u "volume", volume) ])))))).

(** [for row in rows: ...] of [get_taiwan_stocks] *)
Fixpoint stock_rows (rows : list node) (stocks : list (dict pystr))
    : res (list (dict pystr)) :=
  match rows with
  | [] => Ok stocks
  | row :: rest =>
      let cols := find_all TD row in
      if 6 <=? List.length cols then
        rbind (stock_of_row cols) (fun d => stock_rows rest (stocks ++ [d]))
      else stock_rows rest stocks
  end.

(** The body of the [try] of [get_taiwan_stocks] once the page is
    there. *)
Definition stocks_of_soup (soup : node) : res (list (dict pystr)) :=
  match find TABLE soup with
  | Some table => stock_rows (slice 1 11 (find_all TR table)) []
  | None => Ok []
  end.

(** [response.raise_for_status()] raises for the statuses 400 to 599. *)
Definition is_error_status (st : Z) : bool :=
  ((400 <=? st) && (st <? 600))%Z.

(** [get_taiwan_stocks]: the list of stocks, or [None] when anything in
    the [try] raised. *)
Definition get_taiwan_stocks (w : World) : M (option (list (dict pystr))) :=
  emit (DirectGet YAHOO_URL) ;;;
  match direct_net w YAHOO_URL with
  | DirectRaise => ret None
  | DirectResponse st text =>
      if is_error_status st then ret None
      else match stocks_of_soup (lxml w text) with
           | Ok stocks => ret (Some stocks)
           | Raise _ => ret None
           end
  end.

(** One row of [get_market_summary]. *)
Definition gainer_of_row (cols : list node) : res (option (dict pystr)) :=
  rbind (py_index cols 0) (fun c0 =>
  let symbol := match find A c0 with
                | Some a => get_text a
                | None => get_text c0
                end in
  rbind (py_index cols (-1)) (fun change_elem =>
  let pct := get_text change_elem in
  if Py.truthy symbol && contains PERCENT pct
  then Ok (Some [ (u "symbol", symbol); (u "pct", pct) ])
  else Ok None)).

Fixpoint gainer_rows (rows : list node) (gainers : list (dict pystr))
    : res (list (dict pystr)) :=
  match rows with
  | [] => Ok gainers
  | row :: rest =>
      let cols := find_all TD_TH row in
      if 3 <=? List.length cols then
        rbind (gainer_of_row cols) (fun g =>
          gainer_rows rest (match g with
                            | Some d => gainers ++ [d]
                            | None => gainers
                            end))
      else gainer_rows rest gainers
  end.

Fixpoint gainer_tables (tables : list node) (gainers : list (dict pystr))
    : res (list (dict pystr)) :=
  match tables with
  | [] => Ok gainers
  | table :: rest =>
      rbind (gainer_rows (slice 1 6 (find_all TR table)) gainers)
            (gainer_tables rest)
  end.

(** [get_market_summary]: no status check here, whatever page comes
    back is parsed. *)
Definition get_market_summary (w : World) : M (option (list (dict pystr))) :=
  emit (DirectGet TRADINGVIEW_URL) ;;;
  match direct_net w TRADINGVIEW_URL with
  | DirectRaise => ret None
  | DirectResponse _ text =>
      match gainer_tables (slice 0 3 (find_all TABLE (lxml w text))) [] with
      | Ok gainers => ret (Some (slice 0 5 gainers))
      | Raise _ => ret None
      end
  end.

End Screener.

(** The keys of a stock, in the order of the dict literal. *)
Definition stock_keys : list pystr :=
  [u "symbol"; u "name"; u "price"; u "change"; u "pct_change"; u "volume"].

(** An entry of the market summary as the loop admits it: a symbol that
    is not empty and a change text with a percent sign. *)
Definition good_gainer (d : dict pystr) : Prop :=
  exists sym pct,
    d = [ (u "symbol", sym); (u "pct", pct) ] /\
    Py.truthy sym = true /\ contains PERCENT pct = true.

(* ================================================================== *)
(** * The parser refines its row-by-row description *)
(* ================================================================== *)

Section Parser.

Variable w : World.
Variable sym : pystr.

Lemma py_index_nth {A} (l : list A) (i : nat) (a : A) :
  nth_error l i = Some a -> py_index l (Z.of_nat i) = Ok a.
Proof.
  intros H. unfold py_index.
  destruct (Z.of_nat i <? 0)%Z eqn:E; [apply Z.ltb_lt in E; lia|].
  rewrite E, Nat2Z.id, H. reflexivity.
Qed.

Lemma nth_error_last {A} (l : list A) (d : A) :
  l <> [] -> nth_error l (List.length l - 1) = Some (last l d).
Proof.
  induction l as [|x l IH]; [congruence|]. intros _.
  destruct l as [|y l]; [reflexivity|].
  specialize (IH ltac:(discriminate)).
  replace (List.length (x :: y :: l) - 1)
    with (S (List.length (y :: l) - 1)) by (cbn; lia).
  exact IH.
Qed.

Lemma py_index_last {A} (l : list A) (d : A) :
  l <> [] -> py_index l (-1) = Ok (last l d).
Proof.
  intros Hl. unfold py_index. cbn [Z.ltb Z.compare].
  assert (Hlen : 0 < List.length l) by (destruct l; [congruence | cbn; lia]).
  destruct (-1 + Z.of_nat (List.length l) <? 0)%Z eqn:E;
    [apply Z.ltb_lt in E; lia|].
  replace (Z.to_nat (-1 + Z.of_nat (List.length l)))
    with (List.length l - 1) by lia.
  rewrite (nth_error_last d Hl). reflexivity.
Qed.

Lemma last_map {A B} (f : A -> B) (l : list A) (a : A) :
  last (map f l) (f a) = f (last l a).
Proof.
  induction l as [|x l IH]; [reflexivity|].
  destruct l; [reflexivity|]. exact IH.
Qed.

(** The [Holding(...)] call on a row of four cells or more: two answers
    of the clock are used, and the call raises exactly when the weight
    does not convert. *)
Lemma make_holding_run (hs : list Holding) (cols : list node) (s : State) :
  4 <= List.length cols ->
  make_holding w sym hs cols s =
    (match holding_of_cells w sym (clock w (reads s)) (clock w (S (reads s)))
             (Z.of_nat (List.length hs) + 1) (map get_text cols) with
     | Some h => Ok h
     | None => Raise ValueError
     end,
     set_reads (S (S (reads s))) s).
Proof.
  intros Hlen.
  destruct cols as [|c0 [|c1 [|c2 [|c3 tl]]]]; cbn in Hlen; try lia.
  set (cols := c0 :: c1 :: c2 :: c3 :: tl).
  assert (Hne : cols <> []) by discriminate.
  assert (Hl : py_index cols (-1) = Ok (last cols (Text [])))
    by (apply py_index_last; exact Hne).
  assert (Ht : last (map get_text cols) [] = get_text (last cols (Text []))).
  { change (@nil N) with (get_text (Text [])) at 1. apply last_map. }
  unfold make_holding, holding_of_cells, weight_of_text.
  rewrite Ht. unfold bind, today, lift, ret, float, clean_weight, set_reads.
  rewrite Hl. cbn [reads trace pg].
  change (py_index cols 0) with (Ok c0).
  change (1 <? List.length cols) with true.
  change (py_index cols 1) with (Ok c1).
  cbn iota beta.
  destruct (Py.truthy (get_text (last cols (Text [])))); [|reflexivity].
  destruct (Py.float_of_str _); reflexivity.
Qed.

Lemma for_rows_run (rows : list node) :
  forall (hs : list Holding) (s : State),
    for_rows w sym rows hs s =
      (Ok (hs ++ number_rows w sym (map cell_texts rows) (reads s)
                   (List.length hs)),
       set_reads (clock_after (reads s) (map cell_texts rows)) s).
Proof.
  induction rows as [|row rest IH]; intros hs s.
  - cbn. rewrite app_nil_r. unfold ret, clock_after, set_reads. cbn.
    rewrite Nat.add_0_r. destruct s; reflexivity.
  - assert (Ec : candidate (cell_texts row)
                 = (4 <=? List.length (find_all TD_TH row))).
    { unfold candidate, cell_texts. rewrite length_map. reflexivity. }
    cbn [for_rows map number_rows]. unfold clock_after. cbn [filter].
    rewrite Ec.
    destruct (4 <=? List.length (find_all TD_TH row)) eqn:E.
    + apply Nat.leb_le in E.
      unfold bind at 1, try_except, bind at 1.
      rewrite (make_holding_run hs _ s E).
      fold (cell_texts row).
      destruct (holding_of_cells _ _ _ _ _ _) as [h|].
      * unfold ret at 1. rewrite IH. cbn [reads set_reads].
        rewrite length_app. cbn [List.length]. rewrite Nat.add_1_r.
        rewrite <- app_assoc. cbn [app]. f_equal.
        unfold clock_after, set_reads. cbn. f_equal. lia.
      * cbn [value_or_index]. unfold ret at 1. rewrite IH.
        cbn [reads set_reads]. f_equal.
        unfold clock_after, set_reads. cbn. f_equal. lia.
    + rewrite IH. reflexivity.
Qed.

Lemma number_rows_app (r1 r2 : list (list pystr)) :
  forall t n,
    number_rows w sym (r1 ++ r2) t n =
      number_rows w sym r1 t n ++
      number_rows w sym r2 (clock_after t r1)
        (n + List.length (number_rows w sym r1 t n)).
Proof.
  induction r1 as [|cells r1 IH]; intros t n.
  - cbn. unfold clock_after. cbn. rewrite !Nat.add_0_r. reflexivity.
  - cbn [app number_rows]. unfold clock_after. cbn [filter].
    destruct (candidate cells).
    + destruct (holding_of_cells _ _ _ _ _ _) as [h|]; rewrite IH;
        unfold clock_after; cbn [app List.length].
      * f_equal. f_equal. f_equal; lia.
      * f_equal. f_equal; lia.
    + apply IH.
Qed.

Lemma clock_after_app (t : nat) (r1 r2 : list (list pystr)) :
  clock_after t (r1 ++ r2) = clock_after (clock_after t r1) r2.
Proof.
  unfold clock_after. rewrite filter_app, length_app. lia.
Qed.

Lemma for_tables_run (tables : list node) :
  forall (hs : list Holding) (s : State),
    let rows := flat_map (fun table => skipn 1 (find_all TR table)) tables in
    for_tables w sym tables hs s =
      (Ok (hs ++ number_rows w sym (map cell_texts rows) (reads s)
                   (List.length hs)),
       set_reads (clock_after (reads s) (map cell_texts rows)) s).
Proof.
  induction tables as [|table rest IH]; intros hs s.
  - cbn. rewrite app_nil_r. unfold ret, clock_after, set_reads. cbn.
    rewrite Nat.add_0_r. destruct s; reflexivity.
  - cbn zeta in IH |- *. cbn [for_tables flat_map]. unfold bind.
    rewrite for_rows_run, IH. cbn [reads set_reads].
    rewrite map_app, number_rows_app, clock_after_app, length_app.
    rewrite <- app_assoc. reflexivity.
Qed.

(** [parse_holdings] always returns, and returns the numbered rows. *)
Lemma parse_holdings_run (html : pystr) (s : State) :
  let rows := map cell_texts (rows_visited (lxml w html)) in
  parse_holdings w html sym s =
    (Ok (number_rows w sym rows (reads s) 0),
     set_reads (clock_after (reads s) rows) s).
Proof.
  cbn zeta. unfold parse_holdings, rows_visited.
  rewrite for_tables_run. reflexivity.
Qed.

End Parser.

(* ================================================================== *)
(** * Properties of the parser *)
(* ================================================================== *)

Section ParserProperties.

Variable w : World.
Variable sym : pystr.

Lemma number_rows_ranks (rows : list (list pystr)) :
  forall t n,
    map rank (number_rows w sym rows t n) =
    map Z.of_nat (seq (S n) (List.length (number_rows w sym rows t n))).
Proof.
  induction rows as [|cells rest IH]; intros t n; [reflexivity|].
  cbn [number_rows]. destruct (candidate cells); [|apply IH].
  unfold holding_of_cells.
  destruct (weight_of_text w (last cells [])); [|apply IH].
  cbn [map List.length seq rank]. rewrite IH. f_equal. lia.
Qed.

Lemma number_rows_blank (rows : list (list pystr)) :
  forall t n, Forall blank_fields (number_rows w sym rows t n).
Proof.
  induction rows as [|cells rest IH]; intros t n; [constructor|].
  cbn [number_rows]. destruct (candidate cells); [|apply IH].
  unfold holding_of_cells.
  destruct (weight_of_text w (last cells [])); [|apply IH].
  constructor; [|apply IH]. repeat split.
Qed.

Lemma number_rows_dates (d : date) (rows : list (list pystr)) :
  forall t n,
    (forall k, t <= k < clock_after t rows -> clock w k = d) ->
    Forall (fun h => trade_date h = d /\ holding_date h = d)
           (number_rows w sym rows t n).
Proof.
  induction rows as [|cells rest IH]; intros t n Hd; [constructor|].
  unfold clock_after in Hd. cbn [filter] in Hd. cbn [number_rows].
  destruct (candidate cells).
  - cbn [List.length] in Hd.
    assert (Hrest : Forall (fun h => trade_date h = d /\ holding_date h = d)
                           (number_rows w sym rest (S (S t)) n) /\
                    Forall (fun h => trade_date h = d /\ holding_date h = d)
                           (number_rows w sym rest (S (S t)) (S n))).
    { split; apply IH; intros k Hk; apply Hd; unfold clock_after in Hk; lia. }
    unfold holding_of_cells.
    destruct (weight_of_text w (last cells [])); [|apply Hrest].
    constructor; [|apply Hrest]. cbn [trade_date holding_date].
    split; apply Hd; lia.
  - apply IH. exact Hd.
Qed.

(** Each holding carries two successive answers of the clock. *)
Lemma number_rows_clock (rows : list (list pystr)) :
  forall t n,
    Forall (fun h => exists k, t <= k /\ S k < clock_after t rows /\
                               trade_date h = clock w k /\
                               holding_date h = clock w (S k))
           (number_rows w sym rows t n).
Proof.
  induction rows as [|cells rest IH]; intros t n; [constructor|].
  cbn [number_rows]. unfold clock_after. cbn [filter].
  destruct (candidate cells); [|apply IH].
  cbn [List.length].
  assert (Hmono : forall m,
             Forall (fun h => exists k, t <= k /\
                      S k < t + 2 * S (List.length (filter candidate rest)) /\
                      trade_date h = clock w k /\
                      holding_date h = clock w (S k))
                    (number_rows w sym rest (S (S t)) m)).
  { intros m. eapply Forall_impl; [|apply (IH (S (S t)) m)].
    intros h (k & H1 & H2 & H3 & H4). exists k.
    unfold clock_after in H2. repeat split; try assumption; lia. }
  unfold holding_of_cells.
  destruct (weight_of_text w (last cells [])); [|apply Hmono].
  constructor; [|apply Hmono].
  exists t. cbn [trade_date holding_date]. repeat split; lia.
Qed.

Lemma kept_weight (cells : list pystr) :
  candidate cells = true ->
  kept w cells = match weight_of_text w (last cells []) with
                 | Some _ => true
                 | None => false
                 end.
Proof.
  intros Hc. unfold kept, weight_of_text, converts. rewrite Hc.
  destruct (Py.truthy (last cells [])); cbn; [|reflexivity].
  destruct (Py.float_of_str _); reflexivity.
Qed.

(** The holdings are, in order, the kept rows. *)
Lemma number_rows_kept (rows : list (list pystr)) :
  forall t n,
    Forall2 (made_from w sym) (number_rows w sym rows t n)
            (filter (kept w) rows).
Proof.
  induction rows as [|cells rest IH]; intros t n; [constructor|].
  cbn [number_rows filter].
  destruct (candidate cells) eqn:Hc.
  - rewrite (kept_weight _ Hc). unfold holding_of_cells.
    destruct (weight_of_text w (last cells [])) eqn:Hw; [|apply IH].
    constructor; [|apply IH]. repeat split. exact Hw.
  - unfold kept. rewrite Hc. apply IH.
Qed.

Lemma map_skipn {A B} (f : A -> B) (k : nat) (l : list A) :
  map f (skipn k l) = skipn k (map f l).
Proof.
  revert l. induction k as [|k IH]; intros [|a l]; cbn; auto.
Qed.

Lemma rows_visited_texts (soup : node) :
  map cell_texts (rows_visited soup) =
  flat_map (skipn 1) (table_texts soup).
Proof.
  unfold rows_visited, table_texts.
  induction (find_all TABLE soup) as [|table rest IH]; [reflexivity|].
  cbn [flat_map map]. rewrite map_app, IH, map_skipn. reflexivity.
Qed.

End ParserProperties.

(* ================================================================== *)
(** * The parser: the claims *)
(* ================================================================== *)

(** C5.  Whatever the page and the fund, one call of [parse_holdings]
    returns holdings whose ranks are 1, 2, 3, ... in list order: the
    k-th holding of the list has rank k, over all the tables of the page
    together. *)
Theorem parse_holdings_ranks_sequential
    (w : World) (html sym : pystr) (s : State) :
  exists out s',
    parse_holdings w html sym s = (Ok out, s') /\
    map rank out = map Z.of_nat (seq 1 (List.length out)).
Proof.
  rewrite parse_holdings_run. eexists. eexists. split; [reflexivity|].
  apply number_rows_ranks.
Qed.

(** The ranks run on from the first table into the second. *)
Example ranks_two_tables :
  exists out s',
    parse_holdings (Sample.world Sample.page_two_tables) [] (u "XYZ")
      Sample.s0 = (Ok out, s') /\
    map rank out = [1; 2; 3]%Z /\
    map issuer_name out = [u "Co A"; u "Co B"; u "Co C"].
Proof. eexists. eexists. split; [reflexivity|]. split; reflexivity. Qed.

(** C9, as the code has it.  Whatever the page and the fund, every
    holding that [parse_holdings] returns has no isin, an empty security
    type, zero shares, zero market value and an empty source URL, and
    its trade date and its holding date are two successive answers of
    the clock, both given during the call.  So both dates are [d] when
    the clock answers [d] all through the call. *)
Theorem parse_holdings_fixed_fields
    (w : World) (html sym : pystr) (s : State) :
  exists out s',
    parse_holdings w html sym s = (Ok out, s') /\
    Forall (fun h =>
              isin h = None /\ security_type h = [] /\
              shares_held h = Py.PInt 0 /\ market_value_twd h = Py.PInt 0 /\
              source_url h = [] /\
              exists k,
                reads s <= k /\ S k < reads s' /\
                trade_date h = clock w k /\ holding_date h = clock w (S k))
           out /\
    (forall d,
        (forall k, reads s <= k < reads s' -> clock w k = d) ->
        Forall (fun h => trade_date h = d /\ holding_date h = d) out).
Proof.
  rewrite parse_holdings_run. eexists. eexists. split; [reflexivity|].
  cbn [reads set_reads].
  pose proof (number_rows_blank w sym
                (map cell_texts (rows_visited (lxml w html))) (reads s) 0) as Hb.
  pose proof (number_rows_clock w sym
                (map cell_texts (rows_visited (lxml w html))) (reads s) 0) as Hc.
  split.
  - rewrite Forall_forall in *. intros h Hin.
    destruct (Hb h Hin) as (H1 & H2 & H3 & H4 & H5).
    repeat (split; [assumption|]). apply Hc. exact Hin.
  - intros d Hd. apply number_rows_dates. exact Hd.
Qed.

(** On a day that does not end during the call, both dates are that
    day. *)
Example dates_on_one_day :
  exists out s',
    parse_holdings (Sample.world Sample.page_with_header) [] (u "XYZ")
      Sample.s0 = (Ok out, s') /\
    map trade_date out = [Sample.d0; Sample.d0] /\
    map holding_date out = [Sample.d0; Sample.d0].
Proof. eexists. eexists. split; [reflexivity|]. split; reflexivity. Qed.

(** C9 as it is written fails: when midnight falls between the two
    readings of the clock made for a row, the holding of that row has a
    trade date and a holding date that differ, so they are not both the
    date of the parse. *)
Lemma dates_across_midnight :
  exists h1 h2 s',
    parse_holdings (Sample.world_midnight Sample.page_with_header) []
      (u "XYZ") Sample.s0 = (Ok [h1; h2], s') /\
    trade_date h1 = Sample.d0 /\ holding_date h1 = Sample.d1 /\
    trade_date h1 <> holding_date h1.
Proof.
  eexists. eexists. eexists. split; [reflexivity|].
  split; [reflexivity|]. split; [reflexivity|].
  vm_compute. discriminate.
Qed.

(** C2, as the code has it.  The holdings returned are, in order, the
    visited rows of four cells or more whose last cell is empty or
    converts.  A holding made from a row with an empty last cell has
    weight zero; one made from a row with a non-empty last cell has the
    converted number as its weight.  A row of four cells or more whose
    last cell is not empty and does not convert is not among the kept
    rows: it yields no holding, and the rows after it are still parsed. *)
Theorem parse_holdings_weight_or_drop
    (w : World) (html sym : pystr) (s : State) :
  exists out s',
    parse_holdings w html sym s = (Ok out, s') /\
    Forall2
      (fun h cells =>
         issuer_name h = nth 0 cells [] /\
         (last cells [] = [] -> weight_pct h = Py.PInt 0) /\
         (last cells [] <> [] ->
          exists x,
            Py.float_of_str (unicode_decimal w) (clean_weight (last cells [])) = Some x /\
            weight_pct h = Py.PFloat x))
      out
      (filter (kept w) (map cell_texts (rows_visited (lxml w html)))) /\
    (forall cells,
        candidate cells = true ->
        (last cells [] = [] -> kept w cells = true) /\
        (last cells [] <> [] ->
         Py.float_of_str (unicode_decimal w) (clean_weight (last cells [])) = None ->
         kept w cells = false)).
Proof.
  rewrite parse_holdings_run. eexists. eexists. split; [reflexivity|]. split.
  - eapply Forall2_impl; [|apply number_rows_kept].
    intros h cells (_ & Hi & _ & Hw). split; [exact Hi|].
    unfold weight_of_text in Hw. unfold pystr, Py.str in *. split.
    + intros He. rewrite He in Hw. cbn in Hw. congruence.
    + intros Hne. destruct (last cells []) as [|c t]; [congruence|].
      cbn [Py.truthy] in Hw.
      destruct (Py.float_of_str _ (clean_weight (c :: t))) as [x|];
        [|discriminate].
      exists x. split; [reflexivity|]. cbn in Hw. congruence.
  - intros cells Hc. unfold kept, converts. rewrite Hc.
    unfold pystr, Py.str in *. split.
    + intros He. rewrite He. reflexivity.
    + intros Hne Hf. rewrite Hf.
      destruct (last cells []); [congruence|reflexivity].
Qed.

(** C2 as it is written fails: on a page with a row whose weight cell
    reads [n/a], the row is a candidate, its weight does not convert, and
    no holding is returned for it, with zero weight or any other. *)
Lemma unparsable_weight_drops_row :
  In Sample.cells_bad
     (map cell_texts
        (rows_visited (lxml (Sample.world Sample.page_bad_weight) []))) /\
  candidate Sample.cells_bad = true /\
  Py.float_of_str Py.todecimal (clean_weight (last Sample.cells_bad []))
    = None /\
  exists out s',
    parse_holdings (Sample.world Sample.page_bad_weight) [] (u "XYZ")
      Sample.s0 = (Ok out, s') /\
    ~ (exists h, In h out /\
                 issuer_name h = nth 0 Sample.cells_bad [] /\
                 weight_pct h = Py.PInt 0).
Proof.
  split; [left; reflexivity|]. split; [reflexivity|]. split; [reflexivity|].
  eexists. eexists. split; [reflexivity|].
  intros (h & Hin & Hi & _).
  destruct Hin as [H|[H|[]]]; subst h; vm_compute in Hi; discriminate.
Qed.

(** A weight written with the fullwidth digits U+FF11 and U+FF15 is
    read like [1.5%]: the row is kept with weight 15/10. *)
Example fullwidth_weight_is_read :
  Py.float_of_str Py.todecimal [65297; 46; 65301]%N
    = Some (Py.FDec false 15 (-1)) /\
  exists h s',
    parse_holdings (Sample.world Sample.page_fullwidth) [] (u "XYZ")
      Sample.s0 = (Ok [h], s') /\
    issuer_name h = u "Co A" /\
    weight_pct h = Py.PFloat (Py.FDec false 15 (-1)).
Proof.
  split; [vm_compute; reflexivity|].
  eexists. eexists. split; [vm_compute; reflexivity|].
  split; reflexivity.
Qed.

(** C3, as the code has it.  On a page with exactly one table whose rows
    are a header row followed by the rows [Co A, Sec A, 100, 1.23%] and
    [Co B, Sec B, 50, 0.50%], parsing for the fund XYZ returns exactly
    two holdings: rank 1, issuer Co A, weight 123/100, and rank 2,
    issuer Co B, weight 50/100. *)
Theorem parse_holdings_concrete_case
    (w : World) (html : pystr) (s : State) (hdr : list pystr)
    (Hpage : table_texts (lxml w html)
             = [[hdr; Sample.cells_a; Sample.cells_b]]) :
  exists h1 h2 s',
    parse_holdings w html (u "XYZ") s = (Ok [h1; h2], s') /\
    rank h1 = 1%Z /\ issuer_name h1 = u "Co A" /\
    weight_pct h1 = Py.PFloat (Py.FDec false 123 (-2)) /\
    rank h2 = 2%Z /\ issuer_name h2 = u "Co B" /\
    weight_pct h2 = Py.PFloat (Py.FDec false 50 (-2)).
Proof.
  rewrite parse_holdings_run, rows_visited_texts, Hpage.
  cbn [flat_map skipn app].
  eexists. eexists. eexists. split; [reflexivity|].
  repeat split.
Qed.

Lemma parse_holdings_concrete_case_witness :
  table_texts (lxml (Sample.world Sample.page_with_header) [])
    = [[Sample.cells_header; Sample.cells_a; Sample.cells_b]] /\
  exists h1 h2 s',
    parse_holdings (Sample.world Sample.page_with_header) [] (u "XYZ")
      Sample.s0 = (Ok [h1; h2], s') /\
    rank h1 = 1%Z /\ issuer_name h1 = u "Co A" /\
    weight_pct h1 = Py.PFloat (Py.FDec false 123 (-2)) /\
    rank h2 = 2%Z /\ issuer_name h2 = u "Co B" /\
    weight_pct h2 = Py.PFloat (Py.FDec false 50 (-2)).
Proof.
  split; [reflexivity|].
  apply (@parse_holdings_concrete_case
           (Sample.world Sample.page_with_header) [] Sample.s0
           Sample.cells_header).
  reflexivity.
Defined.

(** The decimals read from [1.23%] and [0.50%] are 123/100 and 1/2. *)
Example weights_read :
  Py.float_value (Py.FDec false 123 (-2)) = Some (123%Z, 100%positive) /\
  (exists v, Py.float_value (Py.FDec false 50 (-2)) = Some v /\
             Py.frac_eq v (1%Z, 2%positive)).
Proof. split; [reflexivity|]. eexists. split; reflexivity. Qed.

(** C3 as it is written fails: when the two rows are all the rows of the
    table, the first is passed over as the header and one holding comes
    back, Co B with rank 1. *)
Lemma two_rows_page_yields_one_holding :
  table_texts (lxml (Sample.world Sample.page_two_rows) [])
    = [[Sample.cells_a; Sample.cells_b]] /\
  (exists h s',
     parse_holdings (Sample.world Sample.page_two_rows) [] (u "XYZ")
       Sample.s0 = (Ok [h], s') /\
     rank h = 1%Z /\ issuer_name h = u "Co B") /\
  ~ (exists h1 h2 s',
       parse_holdings (Sample.world Sample.page_two_rows) [] (u "XYZ")
         Sample.s0 = (Ok [h1; h2], s') /\
       rank h1 = 1%Z /\ issuer_name h1 = u "Co A" /\
       rank h2 = 2%Z /\ issuer_name h2 = u "Co B").
Proof.
  split; [reflexivity|]. split.
  - eexists. eexists. split; [reflexivity|]. split; reflexivity.
  - intros (h1 & h2 & s' & H & _). vm_compute in H. discriminate.
Qed.

(** The holdings returned are, in order, the kept rows among the rows
    visited, which are, for each [table] element of the page, the [tr]
    elements anywhere below it except the first of them; a kept row has
    four [td] or [th] elements or more anywhere below it, the first two
    of which give the issuer and the security name. *)
Lemma parse_holdings_rows_kept
    (w : World) (html sym : pystr) (s : State) :
  exists out s',
    parse_holdings w html sym s = (Ok out, s') /\
    Forall2
      (fun h row =>
         4 <= List.length (find_all TD_TH row) /\
         issuer_name h = nth 0 (cell_texts row) [] /\
         security_name h = nth 1 (cell_texts row) [])
      out
      (filter (fun row => kept w (cell_texts row))
         (flat_map (fun table => skipn 1 (find_all TR table))
            (find_all TABLE (lxml w html)))).
Proof.
  rewrite parse_holdings_run. eexists. eexists. split; [reflexivity|].
  fold (rows_visited (lxml w html)).
  pose proof (number_rows_kept w sym
                (map cell_texts (rows_visited (lxml w html))) (reads s) 0) as H.
  remember (number_rows w sym _ _ _) as out eqn:E. clear E.
  revert out H.
  induction (rows_visited (lxml w html)) as [|row rest IH]; intros out H.
  - cbn in H. inversion H. constructor.
  - cbn [map filter] in H |- *.
    destruct (kept w (cell_texts row)) eqn:K.
    + inversion H as [|h cells out' rest' Hm Hrest]; subst.
      constructor; [|apply IH; exact Hrest].
      destruct Hm as (_ & Hi & Hs & _). split; [|split; assumption].
      unfold kept, candidate, cell_texts in K. rewrite length_map in K.
      apply andb_prop in K. destruct K as [K _].
      apply Nat.leb_le in K. exact K.
    + apply IH. exact H.
Qed.

(** C6.  The code breaks the claim on a table inside a table.  In the
    page below, a layout table has a row of one cell that holds an inner
    table, whose only row is its first row and occurs once in the page.
    The pass over the outer table lists the rows of the inner table as
    rows of its own, so that first row is visited and a holding is
    returned for it; the layout row, which has one cell of its own, is
    given the cells of the inner table too and yields a holding as
    well. *)
Lemma nested_first_row_yields_holding :
  exists table row r1 r2,
    In table (find_all TABLE Sample.page_nested) /\
    hd_error (find_all TR table) = Some row /\
    find_all TR Sample.page_nested = [r1; r2; row] /\
    cell_texts r1 <> cell_texts row /\
    cell_texts r2 <> cell_texts row /\
    exists out s',
      parse_holdings (Sample.world Sample.page_nested) [] (u "XYZ")
        Sample.s0 = (Ok out, s') /\
      map issuer_name out = [u "ABC1%"; u "A"] /\
      exists h, In h out /\
        made_from (Sample.world Sample.page_nested) (u "XYZ") h
          (cell_texts row).
Proof.
  exists Sample.inner_table.
  exists (Sample.tr ["A"; "B"; "C"; "1%"]%string).
  eexists. eexists.
  split; [right; left; reflexivity|].
  split; [reflexivity|].
  split; [reflexivity|].
  split; [vm_compute; discriminate|].
  split; [vm_compute; discriminate|].
  eexists. eexists. split; [vm_compute; reflexivity|].
  split; [reflexivity|].
  eexists. split; [right; left; reflexivity|].
  repeat split.
Qed.

(** With a header and two data rows in the inner table, the two rows are
    returned twice, once by the pass over the layout table and once by
    the pass over the inner table, after a holding made of the layout
    row whose issuer is the whole text of the inner table. *)
Example nested_rows_returned_twice :
  exists out s' box,
    parse_holdings (Sample.world Sample.page_nested_data) [] (u "XYZ")
      Sample.s0 = (Ok out, s') /\
    map issuer_name out = [box; u "Co A"; u "Co B"; u "Co A"; u "Co B"] /\
    List.length box = 59 /\
    map rank out = [1; 2; 3; 4; 5]%Z.
Proof.
  eexists. eexists. eexists. split; [vm_compute; reflexivity|].
  split; [reflexivity|]. split; reflexivity.
Qed.

(* ================================================================== *)
(** * The fetch side: what each function returns and leaves behind *)
(* ================================================================== *)

Lemma upd_upd (n m : nat) (e1 e2 : list event) (s : State) :
  upd n e2 (upd m e1 s) = upd n (e1 ++ e2) s.
Proof. unfold upd. cbn. rewrite app_assoc. reflexivity. Qed.

Lemma upd_id (s : State) : upd (reads s) [] s = s.
Proof. unfold upd. rewrite app_nil_r. destruct s; reflexivity. Qed.

Lemma set_reads_upd (n m : nat) (e : list event) (s : State) :
  set_reads n (upd m e s) = upd n e s.
Proof. reflexivity. Qed.

Lemma str_eqb_eq (a b : pystr) : Py.str_eqb a b = true <-> a = b.
Proof.
  revert b. induction a as [|x a IH]; intros [|y b]; cbn;
    try (split; congruence).
  rewrite andb_true_iff, N.eqb_eq, IH. split.
  - intros [-> ->]. reflexivity.
  - intros H. injection H as -> ->. split; reflexivity.
Qed.

Lemma str_eqb_refl (a : pystr) : Py.str_eqb a a = true.
Proof. apply str_eqb_eq. reflexivity. Qed.

Lemma str_eqb_neq (a b : pystr) : a <> b -> Py.str_eqb a b = false.
Proof.
  intros H. destruct (Py.str_eqb a b) eqn:E; [|reflexivity].
  apply str_eqb_eq in E. contradiction.
Qed.

Section Fetch.

Variable w : World.

(** [ZyteClient.fetch] never raises; it posts once when there is a
    credential and not at all when there is none. *)
Lemma ZyteClient_fetch_run (zy : ZyteClient) (target : pystr) (s : State) :
  ZyteClient_fetch w zy target s =
    (Ok (zyte_result w zy target),
     upd (reads s) (zyte_events zy target) s).
Proof.
  unfold ZyteClient_fetch, zyte_result, zyte_events.
  destruct (negb (Py.truthy (api_key zy))).
  - unfold ret. rewrite upd_id. reflexivity.
  - unfold bind, emit, ret.
    destruct (zyte_net w target) as [|st [b|]]; try reflexivity.
    destruct (negb (st =? 200)%Z); try reflexivity.
    destruct (Py.truthy b); try reflexivity.
    destruct (b64decode_utf8 w b); reflexivity.
    destruct (negb (st =? 200)%Z); reflexivity.
Qed.

Lemma DirectClient_fetch_posts (dc : DirectClient) (target : pystr)
    (s : State) :
  trace (snd (DirectClient_fetch w dc target s))
    = trace s ++ [DirectGet target].
Proof.
  unfold DirectClient_fetch, bind, emit, ret.
  destruct (direct_net w target) as [|st b]; [reflexivity|].
  destruct (st =? 200)%Z; reflexivity.
Qed.

Variable self : ETFScraper.

Lemma fetch_etf_run (etf : ETFConfig) (s : State) :
  fetch_etf w self etf s =
    (Ok (etf_result w self etf (reads s)),
     upd (etf_reads w self etf (reads s))
         (zyte_events (zyte self) (url etf)) s).
Proof.
  unfold fetch_etf, bind. rewrite ZyteClient_fetch_run.
  unfold etf_result, etf_reads, etf_html.
  destruct (zyte_result w (zyte self) (url etf)) as [h|]; [|reflexivity].
  destruct (Py.truthy h); [|reflexivity].
  rewrite parse_holdings_run. cbn [reads upd]. reflexivity.
Qed.

End Fetch.

(** ** gather *)

Section Gather.

Variable A : Type.
Variable tasks : list (M A).
Variable val : nat -> nat -> A.
Variable rd : nat -> nat -> nat.
Variable ev : nat -> list event.

Hypothesis Htask :
  forall i task, nth_error tasks i = Some task ->
  forall s, task s = (Ok (val i (reads s)), upd (rd i (reads s)) (ev i) s).

Lemma run_tasks_run (order : list nat) :
  Forall (fun i => i < List.length tasks) order ->
  forall (done : list (nat * A)) (s : State),
    run_tasks tasks order done s =
      (Ok (done ++ done_of val rd order (reads s)),
       upd (reads_of rd order (reads s)) (events_of ev order) s).
Proof.
  induction order as [|i rest IH]; intros Hlt done s.
  - cbn. rewrite app_nil_r. unfold ret. rewrite upd_id. reflexivity.
  - inversion Hlt as [|? ? Hi Hrest]; subst.
    cbn [run_tasks]. destruct (nth_error tasks i) as [task|] eqn:E.
    + unfold bind at 1. rewrite (Htask _ E s).
      unfold bind at 1, emit.
      rewrite (IH Hrest). cbn [reads upd trace pg done_of reads_of].
      rewrite <- app_assoc. cbn [app]. f_equal.
      unfold upd, events_of. cbn [reads trace pg flat_map].
      rewrite <- !app_assoc. reflexivity.
    + apply nth_error_None in E. lia.
Qed.

End Gather.

(** The completion order is a rearrangement of the task indices. *)
Lemma insert_by_perm (key : nat -> nat) (i : nat) (l : list nat) :
  Permutation (i :: l) (insert_by key i l).
Proof.
  induction l as [|j l IH]; cbn; [reflexivity|].
  destruct (key i <=? key j); [reflexivity|].
  rewrite perm_swap. constructor. exact IH.
Qed.

Lemma completion_order_perm (key : nat -> nat) (n : nat) :
  Permutation (seq 0 n) (completion_order key n).
Proof.
  unfold completion_order. generalize 0.
  induction n as [|n IH]; intros a; cbn; [reflexivity|].
  rewrite <- insert_by_perm. constructor. apply IH.
Qed.

Lemma completion_order_In (key : nat -> nat) (n i : nat) :
  In i (completion_order key n) <-> i < n.
Proof.
  split; intros H.
  - apply (Permutation_in _ (Permutation_sym (completion_order_perm key n)))
      in H. apply in_seq in H. lia.
  - apply (Permutation_in _ (completion_order_perm key n)).
    apply in_seq. lia.
Qed.

Lemma completion_order_NoDup (key : nat -> nat) (n : nat) :
  NoDup (completion_order key n).
Proof.
  eapply Permutation_NoDup; [apply completion_order_perm | apply seq_NoDup].
Qed.

Lemma assoc_done_of {A} (val : nat -> nat -> A) (rd : nat -> nat -> nat)
    (order : list nat) (i : nat) :
  forall t, In i order ->
    assoc i (done_of val rd order t) = Some (val i (start_of rd order t i)).
Proof.
  induction order as [|j rest IH]; intros t Hin; [destruct Hin|].
  cbn [done_of assoc start_of].
  destruct (i =? j) eqn:E.
  - apply Nat.eqb_eq in E. subst. reflexivity.
  - apply IH. destruct Hin as [H|H]; [|exact H].
    subst. rewrite Nat.eqb_refl in E. discriminate.
Qed.

Lemma flat_map_singletons {A B} (f : A -> B) (l : list A) :
  flat_map (fun a => [f a]) l = map f l.
Proof. induction l; cbn; congruence. Qed.

Lemma flat_map_eq_in {A B} (f g : A -> list B) (l : list A) :
  (forall a, In a l -> f a = g a) -> flat_map f l = flat_map g l.
Proof.
  induction l as [|a l IH]; intros H; [reflexivity|].
  cbn. rewrite (H a (or_introl eq_refl)), IH; [reflexivity|].
  intros b Hb. apply H. right. exact Hb.
Qed.

Section FetchAll.

Variable w : World.
Variable self : ETFScraper.

Lemma fund_task (i : nat) (task : M (list Holding)) :
  nth_error (map (fetch_etf w self) (etfs self)) i = Some task ->
  forall s, task s = (Ok (fund_val w self i (reads s)),
                      upd (fund_rd w self i (reads s)) (fund_ev self i) s).
Proof.
  intros H s. rewrite nth_error_map in H.
  unfold fund_val, fund_rd, fund_ev.
  destruct (nth_error (etfs self) i) as [etf|]; [|discriminate].
  cbn in H. injection H as <-. apply fetch_etf_run.
Qed.

Lemma gather_funds_run (s : State) :
  gather w (map (fetch_etf w self) (etfs self)) s =
    (Ok (fund_results w self (reads s)),
     upd (reads_of (fund_rd w self) (fund_order w self) (reads s))
         (events_of (fund_ev self) (fund_order w self)) s).
Proof.
  unfold gather, bind. rewrite length_map.
  rewrite (@run_tasks_run _ _ (fund_val w self) (fund_rd w self)
             (fund_ev self) fund_task).
  - unfold ret. cbn [app]. f_equal. f_equal. unfold fund_results.
    rewrite <- flat_map_singletons. apply flat_map_eq_in.
    intros i Hi. apply in_seq in Hi.
    rewrite assoc_done_of; [reflexivity|].
    apply completion_order_In. lia.
  - rewrite length_map. apply Forall_forall. intros i Hi.
    apply completion_order_In in Hi. exact Hi.
Qed.

Lemma fetch_all_run (s : State) :
  fetch_all w self s =
    (Ok (dict_of (combine (map symbol (etfs self))
                          (fund_results w self (reads s)))),
     upd (reads_of (fund_rd w self) (fund_order w self) (reads s))
         (events_of (fund_ev self) (fund_order w self)) s).
Proof.
  unfold fetch_all, bind. rewrite gather_funds_run. reflexivity.
Qed.

End FetchAll.

(* ================================================================== *)
(** * The persist side *)
(* ================================================================== *)

Section Persist.

Variable w : World.

Lemma insert_spec_prefix (db : Database) (hs : list Holding) :
  forall txn tried r,
    insert_spec w db txn hs = (tried, r) ->
    (exists rest, hs = tried ++ rest) /\
    (forall txn', r = Some txn' -> tried = hs /\ txn' = txn ++ hs).
Proof.
  induction hs as [|h rest IH]; intros txn tried r H; cbn in H.
  - injection H as <- <-. split; [exists []; reflexivity|].
    intros txn' E. injection E as <-. rewrite app_nil_r. split; reflexivity.
  - destruct (pg_insert w db txn h).
    + destruct (insert_spec w db (txn ++ [h]) rest) as [tried' r'] eqn:E.
      injection H as <- <-. destruct (IH _ _ _ E) as [[rest' Hp] Hs]. split.
      * exists rest'. cbn. f_equal. exact Hp.
      * intros txn' Hr. destruct (Hs _ Hr) as [-> ->].
        rewrite <- app_assoc. split; reflexivity.
    + injection H as <- <-. split; [exists rest; reflexivity|].
      intros txn' E. discriminate.
Qed.

Lemma insert_each_run (hs : list Holding) :
  forall (txn : list Holding) (n : Z) (s : State),
    insert_each w hs (txn, n) s =
      match insert_spec w (pg s) txn hs with
      | (tried, Some txn') =>
          (Ok (txn', (n + Z.of_nat (List.length hs))%Z),
           upd (reads s) (map PgInsert tried) s)
      | (tried, None) =>
          (Raise DatabaseError, upd (reads s) (map PgInsert tried) s)
      end.
Proof.
  induction hs as [|h rest IH]; intros txn n s.
  - cbn. unfold ret. rewrite upd_id, Z.add_0_r. reflexivity.
  - cbn [insert_each insert_spec fst snd].
    unfold bind at 1, execute_insert, bind at 1, emit. cbn [pg].
    destruct (pg_insert w (pg s) txn h).
    + rewrite IH. cbn [pg reads].
      destruct (insert_spec w (pg s) (txn ++ [h]) rest) as [tried [txn'|]].
      * f_equal; [f_equal; f_equal; cbn [List.length]; lia|].
        unfold upd. cbn. rewrite <- app_assoc. reflexivity.
      * f_equal. unfold upd. cbn. rewrite <- app_assoc. reflexivity.
    + reflexivity.
Qed.

Lemma insert_each_app (a b : list Holding) :
  forall acc s,
    insert_each w (a ++ b) acc s =
    bind (insert_each w a acc) (insert_each w b) s.
Proof.
  induction a as [|h a IH]; intros acc s; [reflexivity|].
  cbn [app insert_each]. unfold bind.
  destruct (execute_insert w (fst acc) h s) as [[txn|e] s1]; [|reflexivity].
  rewrite IH. reflexivity.
Qed.

Lemma insert_items_rows (items : dict (list Holding)) :
  forall acc s,
    insert_items w items acc s = insert_each w (batch_rows items) acc s.
Proof.
  induction items as [|[k hs] rest IH]; intros acc s; [reflexivity|].
  cbn [insert_items batch_rows flat_map snd]. rewrite insert_each_app.
  unfold bind. destruct (insert_each w hs acc s) as [[acc'|e] s1];
    [apply IH | reflexivity].
Qed.

Lemma insert_each_pg (hs : list Holding) (acc : list Holding * Z)
    (s : State) :
  pg (snd (insert_each w hs acc s)) = pg s.
Proof.
  destruct acc as [txn n]. rewrite insert_each_run.
  destruct (insert_spec w (pg s) txn hs) as [tried [txn'|]]; reflexivity.
Qed.

Variable self : ETFScraper.

(** The four ways [save_holdings] can end. *)
Lemma save_holdings_run (d : dict (list Holding)) (s : State) :
  save_holdings w self d s =
    if pg_connect w (pg s) then
      match insert_spec w (pg s) [] (batch_rows d) with
      | (tried, Some txn) =>
          if pg_commit w (pg s) txn then
            (Ok (Z.of_nat (List.length (batch_rows d))),
             {| reads := reads s;
                trace := trace s ++ PgConnect :: map PgInsert tried
                                 ++ [PgCommit; PgClose];
                pg := with_holdings (pg s) (etf_holdings (pg s) ++ txn) |})
          else
            (Raise DatabaseError,
             upd (reads s) (PgConnect :: map PgInsert tried ++ [PgCommit]) s)
      | (tried, None) =>
          (Raise DatabaseError,
           upd (reads s) (PgConnect :: map PgInsert tried) s)
      end
    else (Raise DatabaseError, upd (reads s) [PgConnect] s).
Proof.
  unfold save_holdings, bind at 1, _get_db_connection, bind at 1, emit.
  cbn [pg]. destruct (pg_connect w (pg s)); [|reflexivity].
  unfold bind at 1. rewrite insert_items_rows, insert_each_run. cbn [pg].
  destruct (insert_spec w (pg s) [] (batch_rows d)) as [tried [txn|]].
  - unfold commit, emit, ret, upd, bind. cbn [pg fst snd reads trace].
    destruct (pg_commit w (pg s) txn).
    + cbn [pg fst snd reads trace Z.add]. f_equal. f_equal.
      rewrite <- !app_assoc. reflexivity.
    + f_equal. f_equal. rewrite <- !app_assoc. reflexivity.
  - unfold upd. cbn [pg fst snd reads trace]. f_equal. f_equal.
    rewrite <- app_assoc. reflexivity.
Qed.

(** When [save_holdings] returns, the holdings table has grown by the
    rows of the batch, in order, and nothing else has changed. *)
Lemma save_holdings_ok (d : dict (list Holding)) (s s' : State) (n : Z) :
  save_holdings w self d s = (Ok n, s') ->
  pg s' = with_holdings (pg s) (etf_holdings (pg s) ++ batch_rows d) /\
  trace s' = trace s ++ PgConnect :: map PgInsert (batch_rows d)
                     ++ [PgCommit; PgClose] /\
  reads s' = reads s /\
  n = Z.of_nat (List.length (batch_rows d)).
Proof.
  rewrite save_holdings_run.
  destruct (pg_connect w (pg s)); [|discriminate].
  destruct (insert_spec w (pg s) [] (batch_rows d)) as [tried [txn|]] eqn:E;
    [|discriminate].
  destruct (pg_commit w (pg s) txn); [|discriminate].
  destruct (insert_spec_prefix _ _ _ E) as [_ Hs].
  destruct (Hs txn eq_refl) as [-> ->]. cbn [app].
  intros H. injection H as <- <-. repeat split.
Qed.

(** When it raises, the committed tables are what they were. *)
Lemma save_holdings_raise (d : dict (list Holding)) (s s' : State) (e : exn) :
  save_holdings w self d s = (Raise e, s') ->
  pg s' = pg s /\ reads s' = reads s /\
  exists tried rest tail,
    batch_rows d = tried ++ rest /\
    trace s' = trace s ++ PgConnect :: map PgInsert tried ++ tail /\
    (tail = [] \/ (tail = [PgCommit] /\ rest = [])).
Proof.
  rewrite save_holdings_run.
  destruct (pg_connect w (pg s)).
  - destruct (insert_spec w (pg s) [] (batch_rows d)) as [tried [txn|]] eqn:E.
    + destruct (insert_spec_prefix _ _ _ E) as [_ Hs].
      destruct (Hs txn eq_refl) as [-> _].
      destruct (pg_commit w (pg s) txn); [discriminate|].
      intros H. injection H as _ <-. repeat split.
      exists (batch_rows d), [], [PgCommit]. rewrite app_nil_r.
      repeat split. right. split; reflexivity.
    + destruct (insert_spec_prefix _ _ _ E) as [[rest Hp] _].
      intros H. injection H as _ <-. repeat split.
      exists tried, rest, []. rewrite app_nil_r. repeat split; auto.
  - intros H. injection H as _ <-. repeat split.
    exists [], (batch_rows d), []. repeat split; auto.
Qed.

Lemma save_holdings_other_tables (d : dict (list Holding)) (s : State) :
  let s' := snd (save_holdings w self d s) in
  etf_master (pg s') = etf_master (pg s) /\
  etf_holding_changes (pg s') = etf_holding_changes (pg s) /\
  etf_scrape_log (pg s') = etf_scrape_log (pg s).
Proof.
  cbn zeta. destruct (save_holdings w self d s) as [[n|e] s'] eqn:E;
    cbn [snd].
  - apply save_holdings_ok in E. destruct E as (-> & _). repeat split.
  - apply save_holdings_raise in E. destruct E as (-> & _). repeat split.
Qed.

End Persist.

(** ** dict *)

Lemma dict_set_fresh {V} (k : pystr) (v : V) (d : dict V) :
  ~ In k (map fst d) -> dict_set k v d = d ++ [(k, v)].
Proof.
  induction d as [|[k' v'] d IH]; intros H; [reflexivity|].
  cbn [dict_set]. rewrite str_eqb_neq.
  - cbn. f_equal. apply IH. intros Hin. apply H. right. exact Hin.
  - intros ->. apply H. left. reflexivity.
Qed.

Lemma dict_fold_nodup {V} (pairs : list (pystr * V)) :
  forall d, NoDup (map fst (d ++ pairs)) ->
    fold_left (fun d kv => dict_set (fst kv) (snd kv) d) pairs d = d ++ pairs.
Proof.
  induction pairs as [|[k v] pairs IH]; intros d H.
  - cbn. rewrite app_nil_r. reflexivity.
  - cbn [fold_left fst snd]. rewrite dict_set_fresh.
    + rewrite IH; rewrite <- app_assoc; [reflexivity | exact H].
    + rewrite map_app in H. cbn in H. apply NoDup_remove_2 in H.
      intros Hin. apply H. apply in_or_app. left. exact Hin.
Qed.

(** With distinct keys, [dict(pairs)] lists the pairs as they are. *)
Lemma dict_of_nodup {V} (pairs : list (pystr * V)) :
  NoDup (map fst pairs) -> dict_of pairs = pairs.
Proof. intros H. unfold dict_of. rewrite dict_fold_nodup; auto. Qed.


(* ================================================================== *)
(** * The whole run *)
(* ================================================================== *)

Lemma nth_error_combine {A B} (a : list A) (b : list B) :
  forall j,
    nth_error (combine a b) j =
    match nth_error a j, nth_error b j with
    | Some x, Some y => Some (x, y)
    | _, _ => None
    end.
Proof.
  revert b. induction a as [|x a IH]; intros [|y b] [|j]; cbn;
    try reflexivity.
  - destruct (nth_error a j); reflexivity.
  - apply IH.
Qed.

Section Pipeline.

Variable w : World.
Variable self : ETFScraper.

Lemma number_rows_const_clock (d : date) (sym : pystr)
    (rows : list (list pystr)) :
  (forall k, clock w k = d) ->
  forall t n, number_rows w sym rows t n = number_rows w sym rows 0 n.
Proof.
  intros Hd. induction rows as [|cells rest IH]; intros t n; [reflexivity|].
  cbn [number_rows]. rewrite !Hd.
  destruct (candidate cells); [|apply IH].
  destruct (holding_of_cells _ _ _ _ _ _);
    rewrite (IH (S (S t))), (IH 2); reflexivity.
Qed.

Lemma number_rows_symbol (sym : pystr) (rows : list (list pystr)) :
  forall t n, Forall (fun h => etf_symbol h = sym) (number_rows w sym rows t n).
Proof.
  induction rows as [|cells rest IH]; intros t n; [constructor|].
  cbn [number_rows]. destruct (candidate cells); [|apply IH].
  unfold holding_of_cells.
  destruct (weight_of_text w (last cells [])); [|apply IH].
  constructor; [reflexivity | apply IH].
Qed.

Lemma etf_result_symbol (etf : ETFConfig) (t : nat) :
  Forall (fun h => etf_symbol h = symbol etf) (etf_result w self etf t).
Proof.
  unfold etf_result. destruct (etf_html w self etf); [|constructor].
  apply number_rows_symbol.
Qed.

Lemma etf_result_const_clock (d : date) (etf : ETFConfig) :
  (forall k, clock w k = d) ->
  forall t t', etf_result w self etf t = etf_result w self etf t'.
Proof.
  intros Hd t t'. unfold etf_result.
  destruct (etf_html w self etf); [|reflexivity].
  rewrite (number_rows_const_clock _ _ Hd t).
  rewrite (number_rows_const_clock _ _ Hd t'). reflexivity.
Qed.


Lemma fund_results_length (t : nat) :
  List.length (fund_results w self t) = List.length (etfs self).
Proof. unfold fund_results. rewrite length_map, length_seq. reflexivity. Qed.

(** The pairs that [fetch_all] turns into a dict: each fund's symbol
    with what its own task returned. *)
Lemma fund_pairs_In (t : nat) (j : nat) (etf : ETFConfig) :
  nth_error (etfs self) j = Some etf ->
  In (symbol etf,
      etf_result w self etf
        (start_of (fund_rd w self) (fund_order w self) t j))
     (combine (map symbol (etfs self)) (fund_results w self t)).
Proof.
  intros H.
  assert (Hj : j < List.length (etfs self))
    by (apply nth_error_Some; congruence).
  apply (nth_error_In _ j). rewrite nth_error_combine.
  rewrite nth_error_map, H. cbn [option_map].
  unfold fund_results. rewrite nth_error_map, nth_error_seq.
  destruct (Nat.ltb_spec j (List.length (etfs self))); [|lia].
  cbn [option_map Nat.add]. unfold fund_val. rewrite H. reflexivity.
Qed.

Lemma fund_pairs_inv (t : nat) (k : pystr) (l : list Holding) :
  In (k, l) (combine (map symbol (etfs self)) (fund_results w self t)) ->
  exists j etf,
    nth_error (etfs self) j = Some etf /\ k = symbol etf /\
    l = etf_result w self etf
          (start_of (fund_rd w self) (fund_order w self) t j).
Proof.
  intros H. apply In_nth_error in H. destruct H as [j H].
  rewrite nth_error_combine, nth_error_map in H.
  destruct (nth_error (etfs self) j) as [etf|] eqn:E; [|discriminate].
  cbn [option_map] in H.
  destruct (nth_error (fund_results w self t) j) as [l'|] eqn:E';
    [|discriminate].
  injection H as <- <-. exists j, etf. split; [exact E|].
  split; [reflexivity|].
  unfold fund_results in E'. rewrite nth_error_map, nth_error_seq in E'.
  destruct (Nat.ltb_spec j (List.length (etfs self))); [|discriminate].
  cbn [option_map Nat.add] in E'. injection E' as <-.
  unfold fund_val. rewrite E. reflexivity.
Qed.

Lemma fund_pairs_keys (t : nat) :
  map fst (combine (map symbol (etfs self)) (fund_results w self t))
  = map symbol (etfs self).
Proof.
  pose proof (fund_results_length t) as Hl. revert Hl.
  generalize (fund_results w self t).
  induction (etfs self) as [|e l IH]; intros [|r rs] Hl; cbn in *;
    try reflexivity; try discriminate.
  f_equal. apply IH. congruence.
Qed.

Lemma fetch_events_no_pg (order : list nat) :
  Forall (fun e => is_pg e = false /\ is_direct e = false)
         (events_of (fund_ev self) order).
Proof.
  induction order as [|i rest IH]; [constructor|].
  unfold events_of. cbn [flat_map]. apply Forall_app. split; [|exact IH].
  apply Forall_app. split; [|repeat constructor].
  unfold fund_ev. destruct (nth_error (etfs self) i); [|constructor].
  unfold zyte_events. destruct (negb _); repeat constructor.
Qed.


(** How the trace grows over a persist step, however it ends. *)
Lemma save_holdings_trace (d : dict (list Holding)) (s : State) :
  exists tried rest tail,
    batch_rows d = tried ++ rest /\
    trace (snd (save_holdings w self d s))
      = trace s ++ PgConnect :: map PgInsert tried ++ tail /\
    (tail = [] \/ tail = [PgCommit] \/ tail = [PgCommit; PgClose]).
Proof.
  destruct (save_holdings w self d s) as [[n|e] s'] eqn:E; cbn [snd].
  - apply save_holdings_ok in E. destruct E as (_ & Ht & _).
    exists (batch_rows d), [], [PgCommit; PgClose].
    rewrite app_nil_r. repeat split; auto.
  - apply save_holdings_raise in E.
    destruct E as (_ & _ & tried & rest & tail & Hb & Ht & Hc).
    exists tried, rest, tail. repeat split; auto.
    destruct Hc as [-> | [-> _]]; auto.
Qed.

Lemma run_run (s : State) :
  run w self s =
    let batch := dict_of (combine (map symbol (etfs self))
                                  (fund_results w self (reads s))) in
    let s1 := upd (reads_of (fund_rd w self) (fund_order w self) (reads s))
                  (events_of (fund_ev self) (fund_order w self)) s in
    (match fst (save_holdings w self batch s1) with
     | Ok _ => Ok tt
     | Raise e => Raise e
     end,
     snd (save_holdings w self batch s1)).
Proof.
  cbn zeta. unfold run, bind at 1. rewrite fetch_all_run. unfold bind.
  destruct (save_holdings w self _ _) as [[n|e] s2]; reflexivity.
Qed.

End Pipeline.

Lemma pairs_same_key {K V} (pairs : list (K * V)) (k : K) (v1 v2 : V) :
  NoDup (map fst pairs) -> In (k, v1) pairs -> In (k, v2) pairs -> v1 = v2.
Proof.
  induction pairs as [|[k' v'] pairs IH]; intros Hnd H1 H2; [destruct H1|].
  cbn in Hnd. inversion Hnd as [|? ? Hk Hn]; subst.
  destruct H1 as [E1|H1], H2 as [E2|H2].
  - congruence.
  - injection E1 as -> ->. exfalso. apply Hk.
    apply (in_map fst) in H2. exact H2.
  - injection E2 as -> ->. exfalso. apply Hk.
    apply (in_map fst) in H1. exact H1.
  - apply IH; assumption.
Qed.

(* ================================================================== *)
(** * More on dicts *)
(* ================================================================== *)

Section Dict.

Variable V : Type.

Lemma dict_set_key_In (k k' : pystr) (v : V) (d : dict V) :
  In k' (map fst (dict_set k v d)) <-> k' = k \/ In k' (map fst d).
Proof.
  induction d as [|[k0 v0] d IH]; cbn [dict_set].
  - cbn. intuition.
  - destruct (Py.str_eqb k0 k) eqn:E.
    + apply str_eqb_eq in E. subst. cbn. intuition.
    + cbn [map fst In]. rewrite IH. intuition.
Qed.

Lemma dict_set_NoDup (k : pystr) (v : V) (d : dict V) :
  NoDup (map fst d) -> NoDup (map fst (dict_set k v d)).
Proof.
  induction d as [|[k0 v0] d IH]; intros H; cbn [dict_set].
  - cbn. constructor; [intros []|constructor].
  - inversion H as [|? ? Hk Hd]; subst.
    destruct (Py.str_eqb k0 k) eqn:E.
    + cbn. constructor; assumption.
    + cbn [map fst]. constructor; [|apply IH; exact Hd].
      rewrite dict_set_key_In. intros [->|Hin]; [|contradiction].
      rewrite str_eqb_refl in E. discriminate.
Qed.

Lemma dict_set_In (k k' : pystr) (v v' : V) (d : dict V) :
  In (k', v') (dict_set k v d) -> (k' = k /\ v' = v) \/ In (k', v') d.
Proof.
  induction d as [|[k0 v0] d IH]; cbn [dict_set].
  - intros [H|[]]. injection H as <- <-. left. split; reflexivity.
  - destruct (Py.str_eqb k0 k) eqn:E.
    + apply str_eqb_eq in E. subst. intros [H|H].
      * injection H as <- <-. left. split; reflexivity.
      * right. right. exact H.
    + intros [H|H]; [right; left; exact H|].
      destruct (IH H) as [Hl|Hr]; [left; exact Hl | right; right; exact Hr].
Qed.

Lemma dict_get_set_same (k : pystr) (v : V) (d : dict V) :
  dict_get k (dict_set k v d) = Some v.
Proof.
  induction d as [|[k0 v0] d IH]; cbn [dict_set dict_get].
  - rewrite str_eqb_refl. reflexivity.
  - destruct (Py.str_eqb k0 k) eqn:E; cbn [dict_get]; rewrite E;
      [reflexivity | exact IH].
Qed.

Lemma dict_get_set_other (k k' : pystr) (v : V) (d : dict V) :
  k' <> k -> dict_get k' (dict_set k v d) = dict_get k' d.
Proof.
  intros Hne. induction d as [|[k0 v0] d IH]; cbn [dict_set dict_get].
  - rewrite str_eqb_neq; [reflexivity|congruence].
  - destruct (Py.str_eqb k0 k) eqn:E; cbn [dict_get].
    + apply str_eqb_eq in E. subst.
      rewrite str_eqb_neq; [reflexivity|congruence].
    + rewrite IH. reflexivity.
Qed.

Lemma dict_fold_keys (pairs : list (pystr * V)) :
  forall d k,
    In k (map fst (fold_left dict_step pairs d)) <->
    In k (map fst d) \/ In k (map fst pairs).
Proof.
  induction pairs as [|[k0 v0] pairs IH]; intros d k; cbn [fold_left].
  - cbn. intuition.
  - rewrite IH. unfold dict_step at 1. cbn [fst snd map In].
    rewrite dict_set_key_In. intuition.
Qed.

Lemma dict_fold_NoDup (pairs : list (pystr * V)) :
  forall d, NoDup (map fst d) ->
            NoDup (map fst (fold_left dict_step pairs d)).
Proof.
  induction pairs as [|kv pairs IH]; intros d H; cbn [fold_left];
    [exact H|].
  apply IH. apply dict_set_NoDup. exact H.
Qed.

Lemma dict_fold_In (pairs : list (pystr * V)) :
  forall d k v,
    In (k, v) (fold_left dict_step pairs d) -> In (k, v) d \/ In (k, v) pairs.
Proof.
  induction pairs as [|[k0 v0] pairs IH]; intros d k v H; cbn [fold_left] in H.
  - left. exact H.
  - destruct (IH _ _ _ H) as [Hd|Hp]; [|right; right; exact Hp].
    apply dict_set_In in Hd. cbn [fst snd] in Hd.
    destruct Hd as [[-> ->]|Hd]; [right; left; reflexivity | left; exact Hd].
Qed.

Lemma dict_fold_get_absent (pairs : list (pystr * V)) :
  forall d k, ~ In k (map fst pairs) ->
    dict_get k (fold_left dict_step pairs d) = dict_get k d.
Proof.
  induction pairs as [|[k0 v0] pairs IH]; intros d k H; cbn [fold_left];
    [reflexivity|].
  rewrite IH.
  - unfold dict_step. cbn [fst snd]. apply dict_get_set_other.
    intros ->. apply H. left. reflexivity.
  - intros Hin. apply H. right. exact Hin.
Qed.

(** The value of a key is the one of the last pair that has it. *)
Lemma dict_of_last (pre rest : list (pystr * V)) (k : pystr) (v : V) :
  ~ In k (map fst rest) ->
  dict_get k (dict_of (pre ++ (k, v) :: rest)) = Some v.
Proof.
  intros H. unfold dict_of.
  change (fun (d : dict V) (kv : pystr * V) => dict_set (fst kv) (snd kv) d)
    with (@dict_step V).
  rewrite fold_left_app. cbn [fold_left].
  rewrite dict_fold_get_absent by exact H.
  unfold dict_step at 1. cbn [fst snd]. apply dict_get_set_same.
Qed.

Lemma dict_of_keys (pairs : list (pystr * V)) (k : pystr) :
  In k (map fst (dict_of pairs)) <-> In k (map fst pairs).
Proof.
  unfold dict_of.
  change (fun (d : dict V) (kv : pystr * V) => dict_set (fst kv) (snd kv) d)
    with (@dict_step V).
  rewrite dict_fold_keys. cbn. intuition.
Qed.

Lemma dict_of_NoDup (pairs : list (pystr * V)) :
  NoDup (map fst (dict_of pairs)).
Proof.
  unfold dict_of.
  change (fun (d : dict V) (kv : pystr * V) => dict_set (fst kv) (snd kv) d)
    with (@dict_step V).
  apply dict_fold_NoDup. constructor.
Qed.

Lemma dict_of_In (pairs : list (pystr * V)) (k : pystr) (v : V) :
  In (k, v) (dict_of pairs) -> In (k, v) pairs.
Proof.
  unfold dict_of.
  change (fun (d : dict V) (kv : pystr * V) => dict_set (fst kv) (snd kv) d)
    with (@dict_step V).
  intros H. apply dict_fold_In in H. destruct H as [[]|H]. exact H.
Qed.

End Dict.

(* ================================================================== *)
(** * The batch of a run, fund by fund *)
(* ================================================================== *)

Lemma number_rows_undated (w : World) (sym : pystr)
    (rows : list (list pystr)) :
  forall t t' n,
    map undated (number_rows w sym rows t n)
    = map undated (number_rows w sym rows t' n).
Proof.
  induction rows as [|cells rest IH]; intros t t' n; [reflexivity|].
  cbn [number_rows]. destruct (candidate cells); [|apply IH].
  unfold holding_of_cells.
  destruct (weight_of_text w (last cells [])).
  - cbn [map]. f_equal. apply IH.
  - apply IH.
Qed.

Lemma number_rows_length (w : World) (sym : pystr)
    (rows : list (list pystr)) (t t' n n' : nat) :
  List.length (number_rows w sym rows t n)
  = List.length (number_rows w sym rows t' n').
Proof.
  revert t t' n n'.
  induction rows as [|cells rest IH]; intros t t' n n'; [reflexivity|].
  cbn [number_rows]. destruct (candidate cells); [|apply IH].
  unfold holding_of_cells.
  destruct (weight_of_text w (last cells [])); cbn [List.length];
    [f_equal|]; apply IH.
Qed.

Lemma fund_pairs_nth (w : World) (self : ETFScraper) (t j : nat)
    (etf : ETFConfig) :
  nth_error (etfs self) j = Some etf ->
  nth_error (combine (map symbol (etfs self)) (fund_results w self t)) j
  = Some (symbol etf,
          etf_result w self etf
            (start_of (fund_rd w self) (fund_order w self) t j)).
Proof.
  intros H.
  assert (Hj : j < List.length (etfs self))
    by (apply nth_error_Some; congruence).
  rewrite nth_error_combine, nth_error_map, H. cbn [option_map].
  unfold fund_results. rewrite nth_error_map, nth_error_seq.
  destruct (Nat.ltb_spec j (List.length (etfs self))); [|lia].
  cbn [option_map Nat.add]. unfold fund_val. rewrite H. reflexivity.
Qed.

Lemma combine_split_at {A B} (a : list A) (b : list B) (j : nat)
    (x : A) (y : B) :
  nth_error (combine a b) j = Some (x, y) ->
  exists pre rest,
    combine a b = pre ++ (x, y) :: rest /\
    forall k', In k' (map fst rest) ->
      exists j', j < j' /\ nth_error a j' = Some k'.
Proof.
  intros H. destruct (nth_error_split _ _ H) as (pre & rest & E & Hlen).
  exists pre, rest. split; [exact E|].
  intros k' Hin. apply in_map_iff in Hin. destruct Hin as ([k0 v0] & <- & Hin).
  apply In_nth_error in Hin. destruct Hin as [i Hi].
  exists (S (j + i)). split; [lia|].
  assert (Hn : nth_error (combine a b) (S (j + i)) = Some (k0, v0)).
  { rewrite E. rewrite nth_error_app2 by lia.
    replace (S (j + i) - List.length pre) with (S i) by lia. exact Hi. }
  rewrite nth_error_combine in Hn.
  destruct (nth_error a (S (j + i))); [|discriminate].
  destruct (nth_error b (S (j + i))); [|discriminate].
  injection Hn as -> _. reflexivity.
Qed.




(** The entry of a symbol in the batch is what the task of the last
    fund configured under that symbol returned. *)
Lemma fund_last_entry (w : World) (self : ETFScraper) (t j : nat)
    (etf : ETFConfig) :
  nth_error (etfs self) j = Some etf ->
  (forall j' etf',
      j < j' -> nth_error (etfs self) j' = Some etf' ->
      symbol etf' <> symbol etf) ->
  dict_get (symbol etf)
    (dict_of (combine (map symbol (etfs self)) (fund_results w self t)))
  = Some (etf_result w self etf
            (start_of (fund_rd w self) (fund_order w self) t j)).
Proof.
  intros Hj Hlast.
  pose proof (fund_pairs_nth w self t j Hj) as Hi.
  destruct (combine_split_at _ _ _ Hi) as (pre & rest & E & Hrest).
  rewrite E. apply dict_of_last. intros Hin.
  destruct (Hrest _ Hin) as (j' & Hlt & Hj').
  rewrite nth_error_map in Hj'.
  destruct (nth_error (etfs self) j') as [etf'|] eqn:E'; [|discriminate].
  injection Hj' as Hs. exact (Hlast j' etf' Hlt E' Hs).
Qed.


(* ================================================================== *)
(** * The run: the claims *)
(* ================================================================== *)

(** C1, as the code has it.  A run writes no scrape-log row: whatever
    the fetches and the persist step do, the scrape-log table is after
    the run what it was before, for every fund and date, and so are the
    fund master and the holding-changes tables.  The only table a run
    writes is the holdings table. *)
Theorem run_leaves_scrape_log (w : World) (self : ETFScraper) (s : State) :
  etf_scrape_log (pg (snd (run w self s))) = etf_scrape_log (pg s) /\
  etf_master (pg (snd (run w self s))) = etf_master (pg s) /\
  etf_holding_changes (pg (snd (run w self s)))
    = etf_holding_changes (pg s) /\
  (forall sym d,
      log_rows_for sym d (pg (snd (run w self s)))
      = log_rows_for sym d (pg s)).
Proof.
  rewrite run_run. cbn zeta. cbn [snd].
  match goal with
  | |- context [save_holdings w self ?b ?s1] =>
      destruct (save_holdings_other_tables w self b s1) as (Hm & Hc & Hl)
  end.
  cbn zeta in Hm, Hc, Hl. cbn [pg upd] in Hm, Hc, Hl.
  repeat split; try assumption.
  intros sym d. unfold log_rows_for. rewrite Hl. reflexivity.
Qed.

(** C1 as it is written fails: a run over three funds that all answer
    returns normally and leaves no scrape-log row for any of them. *)
Lemma run_records_no_log_row :
  exists s',
    run (Sample.world Sample.page_with_header)
        (Sample.scraper (Sample.world Sample.page_with_header))
        Sample.s0 = (Ok tt, s') /\
    List.length (etf_holdings (pg s')) = 6 /\
    ~ (forall etf, In etf Sample.funds ->
         List.length (log_rows_for (symbol etf) Sample.d0 (pg s')) = 1).
Proof.
  exists (snd (run (Sample.world Sample.page_with_header)
                   (Sample.scraper (Sample.world Sample.page_with_header))
                   Sample.s0)).
  split; [vm_compute; reflexivity|]. split; [vm_compute; reflexivity|].
  intros H. specialize (H _ (or_introl eq_refl)).
  vm_compute in H. discriminate.
Qed.


(** Both ends happen: a server that takes everything, and one that
    refuses the second row, after which nothing is stored. *)
Example save_holdings_commits :
  exists s',
    save_holdings (Sample.world Sample.page_with_header)
      (Sample.scraper (Sample.world Sample.page_with_header))
      Sample.batch Sample.s0 = (Ok 2%Z, s') /\
    etf_holdings (pg s') = batch_rows Sample.batch.
Proof.
  exists (snd (save_holdings (Sample.world Sample.page_with_header)
                 (Sample.scraper (Sample.world Sample.page_with_header))
                 Sample.batch Sample.s0)).
  split; vm_compute; reflexivity.
Qed.

Example save_holdings_refused :
  exists s',
    save_holdings (Sample.world_refusing Sample.page_with_header)
      (Sample.scraper (Sample.world_refusing Sample.page_with_header))
      Sample.batch Sample.s0 = (Raise DatabaseError, s') /\
    etf_holdings (pg s') = [] /\
    List.length (filter is_pg (trace s')) = 3.
Proof.
  exists (snd (save_holdings
                 (Sample.world_refusing Sample.page_with_header)
                 (Sample.scraper
                    (Sample.world_refusing Sample.page_with_header))
                 Sample.batch Sample.s0)).
  split; [|split]; vm_compute; reflexivity.
Qed.

(** C8.  When the persist step is run twice with the same batch and
    both calls return, the holdings table ends with the rows of the
    batch twice over, after what it held before: the second call adds a
    second copy, it replaces nothing. *)
Theorem save_holdings_twice_appends
    (w : World) (self : ETFScraper) (d : dict (list Holding))
    (s s1 s2 : State) (n1 n2 : Z)
    (Hfirst : save_holdings w self d s = (Ok n1, s1))
    (Hsecond : save_holdings w self d s1 = (Ok n2, s2)) :
  etf_holdings (pg s2)
    = etf_holdings (pg s) ++ batch_rows d ++ batch_rows d /\
  forall h, count_occ_rows h (etf_holdings (pg s2))
            = count_occ_rows h (etf_holdings (pg s))
              + 2 * count_occ_rows h (batch_rows d).
Proof.
  apply save_holdings_ok in Hfirst, Hsecond.
  destruct Hfirst as (H1 & _). destruct Hsecond as (H2 & _).
  rewrite H2, H1. cbn [etf_holdings with_holdings].
  rewrite <- app_assoc. split; [reflexivity|].
  intros h. unfold count_occ_rows. rewrite !filter_app, !length_app. lia.
Qed.

Lemma save_holdings_twice_appends_witness :
  save_holdings Sample.w_ok (Sample.scraper Sample.w_ok) Sample.batch
    Sample.s0 = (Ok 2%Z, Sample.s_once) /\
  save_holdings Sample.w_ok (Sample.scraper Sample.w_ok) Sample.batch
    Sample.s_once = (Ok 2%Z, Sample.s_twice) /\
  etf_holdings (pg Sample.s_twice)
    = etf_holdings (pg Sample.s0)
      ++ batch_rows Sample.batch ++ batch_rows Sample.batch.
Proof.
  assert (H1 : save_holdings Sample.w_ok (Sample.scraper Sample.w_ok)
                 Sample.batch Sample.s0 = (Ok 2%Z, Sample.s_once))
    by (vm_compute; reflexivity).
  assert (H2 : save_holdings Sample.w_ok (Sample.scraper Sample.w_ok)
                 Sample.batch Sample.s_once = (Ok 2%Z, Sample.s_twice))
    by (vm_compute; reflexivity).
  split; [exact H1|]. split; [exact H2|].
  exact (proj1 (@save_holdings_twice_appends _ _ _ _ _ _ _ _ H1 H2)).
Defined.

Example table_after_two_persists :
  map rank (etf_holdings (pg Sample.s_twice)) = [1; 2; 1; 2]%Z.
Proof. vm_compute. reflexivity. Qed.



Lemma sample_symbols_distinct (w : World) :
  NoDup (map symbol (etfs (Sample.scraper w))).
Proof.
  cbn. repeat constructor; cbn; intros H;
    repeat (destruct H as [H|H]; [discriminate H|]); exact H.
Defined.

Example batch_with_one_fund_down :
  exists batch s1,
    fetch_all Sample.w_down (Sample.scraper Sample.w_down) Sample.s0
      = (Ok batch, s1) /\
    map (fun kv => List.length (snd kv)) batch = [2; 0; 2].
Proof.
  exists (match fst (fetch_all Sample.w_down (Sample.scraper Sample.w_down)
                       Sample.s0) with Ok b => b | Raise _ => [] end).
  exists (snd (fetch_all Sample.w_down (Sample.scraper Sample.w_down)
                 Sample.s0)).
  split; vm_compute; reflexivity.
Qed.

(** C10.  For every fund, [fetch_etf] returns, and the only outside
    call it makes is the POST to the rendering service, once, or no call
    at all; when that fetcher returns [None] the result is the empty
    list; without a credential it returns [None] and nothing leaves the
    process.  No call of a whole run is a direct GET, although the
    scraper is built with a direct client whose [fetch] would make
    one. *)
Theorem fetch_etf_rendering_service_only
    (w : World) (self : ETFScraper) (etf : ETFConfig) (s : State) :
  (exists l s' posts,
      fetch_etf w self etf s = (Ok l, s') /\
      trace s' = trace s ++ posts /\
      (posts = [] \/ posts = [ZytePost (url etf)]) /\
      (fst (ZyteClient_fetch w (zyte self) (url etf) s) = Ok None ->
       l = []) /\
      (api_key (zyte self) = [] ->
       fst (ZyteClient_fetch w (zyte self) (url etf) s) = Ok None /\
       posts = [] /\ l = [])) /\
  (exists tr,
      trace (snd (run w self s)) = trace s ++ tr /\
      forall target, ~ In (DirectGet target) tr) /\
  (forall funds target s0,
      direct (ETFScraper_init w funds) = DirectClient_init /\
      trace (snd (DirectClient_fetch w (direct (ETFScraper_init w funds))
                    target s0))
        = trace s0 ++ [DirectGet target]).
Proof.
  split; [|split].
  - rewrite fetch_etf_run, ZyteClient_fetch_run. cbn [fst].
    eexists. eexists. exists (zyte_events (zyte self) (url etf)).
    split; [reflexivity|]. split; [reflexivity|]. split.
    { unfold zyte_events. destruct (negb _); auto. }
    split.
    + intros H. injection H as H. unfold etf_result, etf_html.
      rewrite H. reflexivity.
    + intros Hk. unfold etf_result, etf_html, zyte_result, zyte_events.
      rewrite Hk. cbn. repeat split.
  - rewrite run_run. cbn zeta. cbn [snd].
    match goal with
    | |- context [save_holdings w self ?b ?s1] =>
        destruct (save_holdings_trace w self b s1)
          as (tried & rest & tail & _ & Htr & Htail)
    end.
    eexists. split.
    + rewrite Htr. cbn [trace upd]. rewrite <- app_assoc. reflexivity.
    + intros target Hin. apply in_app_or in Hin. destruct Hin as [Hin|Hin].
      * pose proof (fetch_events_no_pg self (fund_order w self)) as Hf.
        rewrite Forall_forall in Hf. destruct (Hf _ Hin) as [_ Hd].
        discriminate Hd.
      * destruct Hin as [H|Hin]; [discriminate|].
        apply in_app_or in Hin. destruct Hin as [Hin|Hin].
        -- apply in_map_iff in Hin. destruct Hin as (h & E & _).
           discriminate E.
        -- destruct Htail as [-> | [-> | ->]]; cbn in Hin;
             intuition discriminate.
  - intros funds target s0. split; [reflexivity|].
    apply DirectClient_fetch_posts.
Qed.

(* ================================================================== *)
(** * More on the batch that [fetch_all] builds *)
(* ================================================================== *)

(** In the batch of a run, the keys are the configured symbols, each
    once, and every holding listed under a symbol carries that symbol,
    so the rows that [save_holdings] later inserts by their own
    [etf_symbol] are filed under the fund they were fetched for. *)
Theorem fetch_all_batch_well_keyed
    (w : World) (self : ETFScraper) (s : State) :
  exists batch s',
    fetch_all w self s = (Ok batch, s') /\
    NoDup (map fst batch) /\
    (forall k, In k (map fst batch) <-> In k (map symbol (etfs self))) /\
    (forall k l h, In (k, l) batch -> In h l -> etf_symbol h = k) /\
    pg s' = pg s.
Proof.
  rewrite fetch_all_run. eexists. eexists. split; [reflexivity|].
  split; [apply dict_of_NoDup|]. split; [|split; [|reflexivity]].
  - intros k. rewrite dict_of_keys, fund_pairs_keys. reflexivity.
  - intros k l h Hkl Hh. apply dict_of_In in Hkl.
    destruct (fund_pairs_inv _ _ _ _ _ Hkl) as (j & etf & _ & -> & ->).
    pose proof (etf_result_symbol w self etf
                  (start_of (fund_rd w self) (fund_order w self) (reads s) j))
      as Hs.
    rewrite Forall_forall in Hs. apply Hs. exact Hh.
Qed.

(** When two configured funds share a symbol, the batch keeps one entry
    for it, and the entry is what the later fund's fetch returned. *)
Theorem fetch_all_last_fund_wins
    (w : World) (self : ETFScraper) (s : State)
    (j : nat) (etf : ETFConfig) (d : date)
    (Hday : forall k, clock w k = d)
    (Hj : nth_error (etfs self) j = Some etf)
    (Hlast : forall j' etf',
        j < j' -> nth_error (etfs self) j' = Some etf' ->
        symbol etf' <> symbol etf) :
  exists batch s' l,
    fetch_all w self s = (Ok batch, s') /\
    dict_get (symbol etf) batch = Some l /\
    forall s0, fst (fetch_etf w self etf s0) = Ok l.
Proof.
  rewrite fetch_all_run. eexists. eexists.
  exists (etf_result w self etf 0). split; [reflexivity|]. split.
  - rewrite (@fund_last_entry w self (reads s) j etf Hj Hlast). f_equal.
    apply (etf_result_const_clock w self etf Hday).
  - intros s0. rewrite fetch_etf_run. cbn [fst]. f_equal.
    apply (etf_result_const_clock w self etf Hday).
Qed.

Lemma fetch_all_last_fund_wins_witness :
  (forall k, clock Sample.w_down k = Sample.d0) /\
  nth_error (etfs (More.dup_scraper Sample.w_down)) 1
    = Some More.dup_second /\
  (forall j' etf',
      1 < j' ->
      nth_error (etfs (More.dup_scraper Sample.w_down)) j' = Some etf' ->
      symbol etf' <> symbol More.dup_second) /\
  exists batch s' l,
    fetch_all Sample.w_down (More.dup_scraper Sample.w_down) Sample.s0
      = (Ok batch, s') /\
    dict_get (symbol More.dup_second) batch = Some l /\
    forall s0,
      fst (fetch_etf Sample.w_down (More.dup_scraper Sample.w_down)
             More.dup_second s0) = Ok l.
Proof.
  assert (Hday : forall k, clock Sample.w_down k = Sample.d0)
    by (intros k; reflexivity).
  assert (Hj : nth_error (etfs (More.dup_scraper Sample.w_down)) 1
               = Some More.dup_second) by reflexivity.
  assert (Hlast : forall j' etf',
             1 < j' ->
             nth_error (etfs (More.dup_scraper Sample.w_down)) j'
               = Some etf' ->
             symbol etf' <> symbol More.dup_second).
  { intros j' etf' Hlt H. destruct j' as [|[|[|j']]]; try lia;
      cbn in H; discriminate H. }
  split; [exact Hday|]. split; [exact Hj|]. split; [exact Hlast|].
  exact (@fetch_all_last_fund_wins _ _ Sample.s0 _ _ _ Hday Hj Hlast).
Defined.

Example duplicate_symbol_batch :
  exists batch s',
    fetch_all Sample.w_down (More.dup_scraper Sample.w_down) Sample.s0
      = (Ok batch, s') /\
    map (fun kv => (fst kv, List.length (snd kv))) batch = [(u "00980A", 2)].
Proof.
  exists (match fst (fetch_all Sample.w_down (More.dup_scraper Sample.w_down)
                       Sample.s0) with Ok b => b | Raise _ => [] end).
  exists (snd (fetch_all Sample.w_down (More.dup_scraper Sample.w_down)
                 Sample.s0)).
  split; vm_compute; reflexivity.
Qed.

(* ================================================================== *)
(** * More on a whole run *)
(* ================================================================== *)

Lemma number_rows_seq_ranks (w : World) (sym : pystr)
    (rows : list (list pystr)) (t : nat) :
  NoDup (map rank (number_rows w sym rows t 0)).
Proof.
  rewrite number_rows_ranks. apply Finite.Injective_map_NoDup.
  - intros a b H. apply Nat2Z.inj. exact H.
  - apply seq_NoDup.
Qed.

Lemma etf_result_ranks (w : World) (self : ETFScraper) (etf : ETFConfig)
    (t : nat) :
  NoDup (map rank (etf_result w self etf t)).
Proof.
  unfold etf_result. destruct (etf_html w self etf); [|constructor].
  apply number_rows_seq_ranks.
Qed.

Lemma row_keys_NoDup (pairs : list (pystr * list Holding)) :
  NoDup (map fst pairs) ->
  (forall k l, In (k, l) pairs ->
     Forall (fun h => etf_symbol h = k) l /\ NoDup (map rank l)) ->
  NoDup (map row_key (flat_map snd pairs)).
Proof.
  induction pairs as [|[k l] pairs IH]; intros Hk Hall; [constructor|].
  cbn [flat_map snd]. rewrite map_app.
  cbn in Hk. inversion Hk as [|? ? Hnk Hks]; subst.
  destruct (Hall k l (or_introl eq_refl)) as [Hsym Hrk].
  rewrite Forall_forall in Hsym.
  apply NoDup_app.
  - apply Finite.Injective_map_NoDup_in.
    + intros x y Hx Hy E. unfold row_key in E. injection E as _ E.
      clear - Hrk Hx Hy E. induction l as [|a l IHl]; [destruct Hx|].
      cbn in Hrk. inversion Hrk as [|? ? Hn Hr]; subst.
      destruct Hx as [->|Hx], Hy as [->|Hy].
      * reflexivity.
      * exfalso. apply Hn. rewrite E. apply in_map. exact Hy.
      * exfalso. apply Hn. rewrite <- E. apply in_map. exact Hx.
      * apply IHl; assumption.
    + eapply NoDup_map_inv. exact Hrk.
  - apply IH; [exact Hks|]. intros k' l' Hin. apply Hall. right. exact Hin.
  - intros key Hin1 Hin2.
    apply in_map_iff in Hin1. destruct Hin1 as (h1 & <- & Hh1).
    apply in_map_iff in Hin2. destruct Hin2 as (h2 & E2 & Hh2).
    apply in_flat_map in Hh2. destruct Hh2 as ([k' l'] & Hkl & Hh2').
    cbn [snd] in Hh2'.
    destruct (Hall k' l' (or_intror Hkl)) as [Hsym' _].
    rewrite Forall_forall in Hsym'.
    unfold row_key in E2. injection E2 as E2 _.
    rewrite (Hsym _ Hh1), (Hsym' _ Hh2') in E2. subst k'.
    apply Hnk. apply (in_map fst) in Hkl. exact Hkl.
Qed.

(** When the configured symbols are distinct, no two rows of the batch
    of a run share fund symbol and rank. *)
Theorem fetch_all_rank_unique
    (w : World) (self : ETFScraper) (s : State)
    (Hsym : NoDup (map symbol (etfs self))) :
  exists batch s',
    fetch_all w self s = (Ok batch, s') /\
    NoDup (map row_key (batch_rows batch)).
Proof.
  rewrite fetch_all_run. eexists. eexists. split; [reflexivity|].
  rewrite dict_of_nodup by (rewrite fund_pairs_keys; exact Hsym).
  apply row_keys_NoDup.
  - rewrite fund_pairs_keys. exact Hsym.
  - intros k l Hkl.
    destruct (fund_pairs_inv _ _ _ _ _ Hkl) as (j & etf & _ & -> & ->).
    split; [apply etf_result_symbol | apply etf_result_ranks].
Qed.

Lemma fetch_all_rank_unique_witness :
  NoDup (map symbol (etfs (Sample.scraper Sample.w_down))) /\
  exists batch s',
    fetch_all Sample.w_down (Sample.scraper Sample.w_down) Sample.s0
      = (Ok batch, s') /\
    NoDup (map row_key (batch_rows batch)).
Proof.
  split; [apply sample_symbols_distinct|].
  exact (@fetch_all_rank_unique _ _ Sample.s0
           (sample_symbols_distinct Sample.w_down)).
Defined.

(** ** The order of the replies *)

Lemma number_rows_with_latency (f : nat -> nat) (w : World) (sym : pystr)
    (rows : list (list pystr)) :
  forall t n,
    number_rows (with_latency f w) sym rows t n = number_rows w sym rows t n.
Proof.
  induction rows as [|cells rest IH]; intros t n; [reflexivity|].
  cbn [number_rows]. cbn [clock with_latency]. rewrite !IH. reflexivity.
Qed.

Lemma etf_result_with_latency (f : nat -> nat) (w : World)
    (self : ETFScraper) (etf : ETFConfig) (t : nat) :
  etf_result (with_latency f w) self etf t = etf_result w self etf t.
Proof.
  unfold etf_result.
  change (etf_html (with_latency f w) self etf) with (etf_html w self etf).
  destruct (etf_html w self etf) as [h|]; [|reflexivity].
  change (page_rows (with_latency f w) h) with (page_rows w h).
  apply number_rows_with_latency.
Qed.

Lemma fund_results_const_clock (w : World) (self : ETFScraper) (d : date)
    (t : nat) :
  (forall k, clock w k = d) ->
  fund_results w self t
  = map (fun i => fund_val w self i 0) (seq 0 (List.length (etfs self))).
Proof.
  intros Hd. unfold fund_results. apply map_ext. intros i.
  unfold fund_val. destruct (nth_error (etfs self) i); [|reflexivity].
  apply (etf_result_const_clock w self e Hd).
Qed.

(** On one day, the batch of a run does not depend on the order in which
    the replies of the rendering service arrive. *)
Theorem fetch_all_order_independent
    (w : World) (f : nat -> nat) (self : ETFScraper) (s : State) (d : date)
    (Hday : forall k, clock w k = d) :
  exists batch s1 s2,
    fetch_all w self s = (Ok batch, s1) /\
    fetch_all (with_latency f w) self s = (Ok batch, s2).
Proof.
  rewrite !fetch_all_run. eexists. eexists. eexists.
  split; [reflexivity|]. f_equal. f_equal. f_equal. f_equal.
  rewrite (fund_results_const_clock w self (reads s) Hday).
  rewrite (@fund_results_const_clock (with_latency f w) self d (reads s) Hday).
  apply map_ext. intros i. unfold fund_val.
  destruct (nth_error (etfs self) i); [|reflexivity].
  apply etf_result_with_latency.
Qed.

Lemma fetch_all_order_independent_witness :
  (forall k, clock Sample.w_down k = Sample.d0) /\
  exists batch s1 s2,
    fetch_all Sample.w_down (Sample.scraper Sample.w_down) Sample.s0
      = (Ok batch, s1) /\
    fetch_all (with_latency (fun i => i) Sample.w_down)
      (Sample.scraper Sample.w_down) Sample.s0 = (Ok batch, s2).
Proof.
  assert (Hday : forall k, clock Sample.w_down k = Sample.d0)
    by (intros k; reflexivity).
  split; [exact Hday|].
  exact (@fetch_all_order_independent _ (fun i => i) _ Sample.s0 _ Hday).
Defined.

Example replies_in_two_orders :
  trace (snd (fetch_all Sample.w_down (Sample.scraper Sample.w_down)
                Sample.s0))
  <> trace (snd (fetch_all (with_latency (fun i => i) Sample.w_down)
                   (Sample.scraper Sample.w_down) Sample.s0)).
Proof. vm_compute. discriminate. Qed.

(** ** Runs without credential, with a failing and with an accepting server *)

Lemma flat_map_all_nil {A B} (l : list (A * list B)) :
  (forall k v, In (k, v) l -> v = []) -> flat_map snd l = [].
Proof.
  induction l as [|[k v] l IH]; intros H; [reflexivity|].
  cbn. rewrite (H k v (or_introl eq_refl)). cbn. apply IH.
  intros k' v' Hin. apply (H k' v'). right. exact Hin.
Qed.

Lemma events_of_no_key (self : ETFScraper) (order : list nat) :
  api_key (zyte self) = [] ->
  Forall (fun e => is_network e = false /\ is_insert e = false)
         (events_of (fund_ev self) order).
Proof.
  intros Hk. induction order as [|i rest IH]; [constructor|].
  unfold events_of. cbn [flat_map]. apply Forall_app. split; [|exact IH].
  apply Forall_app. split; [|repeat constructor].
  unfold fund_ev. destruct (nth_error (etfs self) i); [|constructor].
  unfold zyte_events. rewrite Hk. constructor.
Qed.

(** Without [ZYTE_API_KEY] in the environment, a run of the scraper that
    [__init__] builds fetches nothing and stores nothing: no request
    leaves the process, no row is inserted, and the holdings table is
    after the run what it was before, whether the run returns or the
    server makes it raise. *)
Theorem run_without_credential
    (w : World) (funds : list ETFConfig) (s : State)
    (Hkey : ZYTE_API_KEY w = []) :
  exists r s' tr,
    run w (ETFScraper_init w funds) s = (r, s') /\
    etf_holdings (pg s') = etf_holdings (pg s) /\
    trace s' = trace s ++ tr /\
    Forall (fun e => is_network e = false /\ is_insert e = false) tr.
Proof.
  set (self := ETFScraper_init w funds).
  assert (Hk : api_key (zyte self) = []).
  { unfold self, ETFScraper_init, ZyteClient_init. cbn [zyte api_key].
    rewrite Hkey. reflexivity. }
  assert (Hrows : forall t,
             batch_rows (dict_of (combine (map symbol (etfs self))
                                          (fund_results w self t))) = []).
  { intros t. apply flat_map_all_nil. intros k v Hin.
    apply dict_of_In in Hin.
    destruct (fund_pairs_inv _ _ _ _ _ Hin) as (j & etf & _ & _ & ->).
    unfold etf_result, etf_html, zyte_result. rewrite Hk. reflexivity. }
  rewrite run_run. cbn zeta.
  match goal with
  | |- context [save_holdings w self ?b ?st] =>
      set (batch := b); set (s1 := st)
  end.
  destruct (save_holdings_trace w self batch s1)
    as (tried & rest & tail & Hb & Htr & Htail).
  unfold batch in Hb. rewrite Hrows in Hb.
  symmetry in Hb. apply app_eq_nil in Hb. destruct Hb as [-> ->].
  eexists. eexists.
  exists (events_of (fund_ev self) (fund_order w self)
          ++ PgConnect :: tail).
  split; [reflexivity|]. split; [|split].
  - destruct (save_holdings w self batch s1) as [[n|e] s2] eqn:E; cbn [snd].
    + apply save_holdings_ok in E. destruct E as (-> & _).
      unfold batch. rewrite Hrows, app_nil_r. reflexivity.
    + apply save_holdings_raise in E. destruct E as (-> & _). reflexivity.
  - rewrite Htr. cbn [map app]. unfold s1. cbn [trace upd].
    rewrite <- app_assoc. reflexivity.
  - apply Forall_app. split; [apply events_of_no_key; exact Hk|].
    constructor; [split; reflexivity|].
    destruct Htail as [-> | [-> | ->]]; repeat constructor.
Qed.

Lemma run_without_credential_witness :
  ZYTE_API_KEY (Sample.world_no_key Sample.page_with_header) = [] /\
  exists r s' tr,
    run (Sample.world_no_key Sample.page_with_header)
      (ETFScraper_init (Sample.world_no_key Sample.page_with_header)
         Sample.funds) Sample.s0 = (r, s') /\
    etf_holdings (pg s') = etf_holdings (pg Sample.s0) /\
    trace s' = trace Sample.s0 ++ tr /\
    Forall (fun e => is_network e = false /\ is_insert e = false) tr.
Proof.
  split; [reflexivity|].
  exact (@run_without_credential
           (Sample.world_no_key Sample.page_with_header)
           Sample.funds Sample.s0 eq_refl).
Defined.

(** A run raises nothing but a database error, and when it raises the
    committed tables are what they were before the run: no failure of a
    fetch or of a row makes a run raise. *)
Theorem run_raises_database_error_only
    (w : World) (self : ETFScraper) (s s' : State) (e : exn)
    (Hraise : run w self s = (Raise e, s')) :
  e = DatabaseError /\ pg s' = pg s.
Proof.
  rewrite run_run in Hraise. cbn zeta in Hraise.
  match type of Hraise with
  | context [save_holdings w self ?b ?st] =>
      set (batch := b) in *; set (s1 := st) in *
  end.
  destruct (save_holdings w self batch s1) as [[n|e0] s2] eqn:E;
    cbn [fst snd] in Hraise; [discriminate|].
  injection Hraise as <- <-.
  split.
  - rewrite save_holdings_run in E.
    destruct (pg_connect w (pg s1));
      [|injection E as <- _; reflexivity].
    destruct (insert_spec w (pg s1) [] (batch_rows batch)) as [tried [txn|]];
      [|injection E as <- _; reflexivity].
    destruct (pg_commit w (pg s1) txn); [discriminate|].
    injection E as <- _. reflexivity.
  - apply save_holdings_raise in E. destruct E as (-> & _). reflexivity.
Qed.

Lemma run_raises_database_error_only_witness :
  run (Sample.world_refusing Sample.page_with_header)
    (Sample.scraper (Sample.world_refusing Sample.page_with_header))
    Sample.s0
  = (Raise DatabaseError,
     snd (run (Sample.world_refusing Sample.page_with_header)
            (Sample.scraper (Sample.world_refusing Sample.page_with_header))
            Sample.s0)) /\
  DatabaseError = DatabaseError /\
  pg (snd (run (Sample.world_refusing Sample.page_with_header)
             (Sample.scraper (Sample.world_refusing Sample.page_with_header))
             Sample.s0)) = pg Sample.s0.
Proof.
  assert (H : run (Sample.world_refusing Sample.page_with_header)
                (Sample.scraper
                   (Sample.world_refusing Sample.page_with_header))
                Sample.s0
              = (Raise DatabaseError,
                 snd (run (Sample.world_refusing Sample.page_with_header)
                        (Sample.scraper
                           (Sample.world_refusing Sample.page_with_header))
                        Sample.s0)))
    by (vm_compute; reflexivity).
  split; [exact H|].
  exact (@run_raises_database_error_only _ _ _ _ _ H).
Defined.

Lemma insert_spec_accepting (w : World) (db : Database) (hs : list Holding) :
  (forall db txn h, pg_insert w db txn h = true) ->
  forall txn, insert_spec w db txn hs = (hs, Some (txn ++ hs)).
Proof.
  intros Hacc. induction hs as [|h rest IH]; intros txn; cbn [insert_spec].
  - rewrite app_nil_r. reflexivity.
  - rewrite Hacc, IH, <- app_assoc. reflexivity.
Qed.

(** With a server that takes every statement, a run returns whatever the
    rendering service does, to some funds or to all, and the holdings
    table grows by exactly the rows of the batch, in batch order. *)
Theorem run_returns_when_server_accepts
    (w : World) (self : ETFScraper) (s : State)
    (Hacc : accepting w) :
  exists batch s1 s',
    fetch_all w self s = (Ok batch, s1) /\
    run w self s = (Ok tt, s') /\
    etf_holdings (pg s') = etf_holdings (pg s) ++ batch_rows batch.
Proof.
  destruct Hacc as (Hc & Hi & Hm).
  rewrite run_run, fetch_all_run. cbn zeta.
  eexists. eexists. eexists. split; [reflexivity|].
  rewrite save_holdings_run, Hc, (insert_spec_accepting _ _ _ Hi), Hm.
  cbn [fst snd app pg etf_holdings with_holdings upd].
  split; reflexivity.
Qed.

Lemma run_returns_when_server_accepts_witness :
  accepting Sample.w_down /\
  exists batch s1 s',
    fetch_all Sample.w_down (Sample.scraper Sample.w_down) Sample.s0
      = (Ok batch, s1) /\
    run Sample.w_down (Sample.scraper Sample.w_down) Sample.s0
      = (Ok tt, s') /\
    etf_holdings (pg s')
      = etf_holdings (pg Sample.s0) ++ batch_rows batch.
Proof.
  assert (Hacc : accepting Sample.w_down)
    by (split; [|split]; intros; reflexivity).
  split; [exact Hacc|].
  exact (@run_returns_when_server_accepts _ _ Sample.s0 Hacc).
Defined.

(* ================================================================== *)
(** * More on the parser *)
(* ================================================================== *)

(** A page without tables, or whose tables have one [tr] or none each,
    yields no holding and the clock is not asked. *)
Theorem parse_holdings_no_data_rows
    (w : World) (html sym : pystr) (s : State)
    (Hshort : Forall (fun table => List.length (find_all TR table) <= 1)
                     (find_all TABLE (lxml w html))) :
  parse_holdings w html sym s = (Ok [], s).
Proof.
  rewrite parse_holdings_run.
  assert (Hrows : rows_visited (lxml w html) = []).
  { unfold rows_visited.
    induction (find_all TABLE (lxml w html)) as [|table rest IH];
      [reflexivity|].
    inversion Hshort as [|? ? Hl Hr]; subst. cbn [flat_map].
    rewrite (IH Hr), app_nil_r.
    destruct (find_all TR table) as [|r [|r' l]]; cbn in Hl |- *;
      try reflexivity. lia. }
  rewrite Hrows. cbn [map number_rows]. unfold clock_after. cbn.
  rewrite Nat.add_0_r. f_equal. destruct s; reflexivity.
Qed.

Lemma parse_holdings_no_data_rows_witness :
  Forall (fun table => List.length (find_all TR table) <= 1)
         (find_all TABLE (lxml (Sample.world More.page_header_only) [])) /\
  parse_holdings (Sample.world More.page_header_only) [] (u "XYZ") Sample.s0
  = (Ok [], Sample.s0).
Proof.
  assert (H : Forall (fun table => List.length (find_all TR table) <= 1)
                (find_all TABLE
                   (lxml (Sample.world More.page_header_only) [])))
    by (repeat constructor).
  split; [exact H|].
  exact (@parse_holdings_no_data_rows _ [] (u "XYZ") Sample.s0 H).
Defined.

Lemma clean_weight_signs (t : pystr) :
  Forall (fun c => c = PERCENT \/ c = COMMA) t -> clean_weight t = [].
Proof.
  induction t as [|c t IH]; intros H; [reflexivity|].
  inversion H as [|? ? Hc Ht]; subst.
  unfold clean_weight, Py.remove_char in *. cbn [filter].
  destruct Hc as [->| ->]; cbn; apply IH; exact Ht.
Qed.

(** A row whose weight cell is not empty but holds only percent signs
    and commas is dropped, where an empty cell would have given weight
    zero: the page gives, dates apart, the holdings of the page without
    that row, the later rows moving up one rank. *)
Theorem parse_holdings_weight_of_signs_only
    (w : World) (html html' sym : pystr) (s s0 : State)
    (before after : list (list pystr)) (cells : list pystr)
    (Hpage : page_rows w html = before ++ cells :: after)
    (Hpage' : page_rows w html' = before ++ after)
    (Hcand : 4 <= List.length cells)
    (Hfull : last cells [] <> [])
    (Hsigns : Forall (fun c => c = PERCENT \/ c = COMMA) (last cells [])) :
  exists out out' s1 s1',
    parse_holdings w html sym s = (Ok out, s1) /\
    parse_holdings w html' sym s0 = (Ok out', s1') /\
    map undated out = map undated out'.
Proof.
  rewrite !parse_holdings_run. fold (page_rows w html).
  fold (page_rows w html'). rewrite Hpage, Hpage'.
  eexists. eexists. eexists. eexists.
  split; [reflexivity|]. split; [reflexivity|].
  rewrite !number_rows_app, !map_app. f_equal.
  - apply number_rows_undated.
  - cbn [number_rows].
    assert (Hc : candidate cells = true)
      by (unfold candidate; apply Nat.leb_le; exact Hcand).
    rewrite Hc. unfold holding_of_cells, weight_of_text.
    unfold pystr, Py.str in *.
    destruct (last cells []) as [|c t] eqn:El; [congruence|].
    cbn [Py.truthy]. rewrite (clean_weight_signs Hsigns).
    change (Py.float_of_str (unicode_decimal w) []) with (@None Py.float).
    cbn [option_map].
    rewrite (number_rows_length w sym before (reads s) (reads s0) 0 0).
    apply number_rows_undated.
Qed.

Lemma parse_holdings_weight_of_signs_only_witness :
  page_rows More.world_sign (u "sign")
    = [Sample.cells_a] ++ More.cells_sign :: [Sample.cells_b] /\
  page_rows More.world_sign [] = [Sample.cells_a] ++ [Sample.cells_b] /\
  4 <= List.length More.cells_sign /\
  last More.cells_sign [] <> [] /\
  Forall (fun c => c = PERCENT \/ c = COMMA) (last More.cells_sign []) /\
  exists out out' s1 s1',
    parse_holdings More.world_sign (u "sign") (u "XYZ") Sample.s0
      = (Ok out, s1) /\
    parse_holdings More.world_sign [] (u "XYZ") Sample.s0 = (Ok out', s1') /\
    map undated out = map undated out'.
Proof.
  assert (H1 : page_rows More.world_sign (u "sign")
               = [Sample.cells_a] ++ More.cells_sign :: [Sample.cells_b])
    by (vm_compute; reflexivity).
  assert (H2 : page_rows More.world_sign []
               = [Sample.cells_a] ++ [Sample.cells_b])
    by (vm_compute; reflexivity).
  assert (H3 : 4 <= List.length More.cells_sign) by (cbn; lia).
  assert (H4 : last More.cells_sign [] <> []) by (vm_compute; discriminate).
  assert (H5 : Forall (fun c => c = PERCENT \/ c = COMMA)
                      (last More.cells_sign []))
    by (repeat constructor).
  split; [exact H1|]. split; [exact H2|]. split; [exact H3|].
  split; [exact H4|]. split; [exact H5|].
  exact (@parse_holdings_weight_of_signs_only _ _ _ (u "XYZ") Sample.s0
           Sample.s0 _ _ _ H1 H2 H3 H4 H5).
Defined.

(* ================================================================== *)
(** * The fund master table after [_init_db] *)
(* ================================================================== *)

Lemma upsert_master_symbols (e : ETFConfig) (table : list ETFConfig) :
  map symbol (upsert_master e table)
  = if existsb (fun r => Py.str_eqb (symbol r) (symbol e)) table
    then map symbol table
    else map symbol table ++ [symbol e].
Proof.
  induction table as [|r rest IH]; [reflexivity|].
  cbn [upsert_master existsb].
  destruct (Py.str_eqb (symbol r) (symbol e)); [reflexivity|].
  cbn [map orb]. rewrite IH.
  destruct (existsb _ rest); reflexivity.
Qed.

Lemma existsb_symbol (k : pystr) (table : list ETFConfig) :
  existsb (fun r => Py.str_eqb (symbol r) k) table = true
  <-> In k (map symbol table).
Proof.
  rewrite existsb_exists, in_map_iff. split.
  - intros (r & Hin & E). apply str_eqb_eq in E. exists r. auto.
  - intros (r & E & Hin). exists r. split; [exact Hin|].
    apply str_eqb_eq. exact E.
Qed.

Lemma upsert_master_NoDup (e : ETFConfig) (table : list ETFConfig) :
  NoDup (map symbol table) -> NoDup (map symbol (upsert_master e table)).
Proof.
  intros H. rewrite upsert_master_symbols.
  destruct (existsb _ table) eqn:E; [exact H|].
  apply NoDup_app; [exact H | repeat constructor; intros [] |].
  intros k Hk [<-|[]].
  apply existsb_symbol in Hk. congruence.
Qed.

Lemma upsert_etfs_symbols (funds : list ETFConfig) :
  forall table k,
    In k (map symbol (upsert_etfs funds table)) <->
    In k (map symbol table) \/ In k (map symbol funds).
Proof.
  unfold upsert_etfs.
  induction funds as [|e funds IH]; intros table k; cbn [fold_left].
  - cbn. intuition.
  - rewrite IH, upsert_master_symbols.
    destruct (existsb _ table) eqn:E.
    + apply existsb_symbol in E. cbn [map In]. intuition. subst. auto.
    + rewrite in_app_iff. cbn [map In]. intuition.
Qed.

Lemma upsert_etfs_NoDup (funds : list ETFConfig) :
  forall table,
    NoDup (map symbol table) -> NoDup (map symbol (upsert_etfs funds table)).
Proof.
  unfold upsert_etfs.
  induction funds as [|e funds IH]; intros table H; cbn [fold_left];
    [exact H|].
  apply IH. apply upsert_master_NoDup. exact H.
Qed.

Lemma upsert_master_keeps (e r : ETFConfig) (table : list ETFConfig) :
  In r table -> exists r', In r' (upsert_master e table) /\ same_but_name r r'.
Proof.
  induction table as [|x rest IH]; intros Hin; [destruct Hin|].
  cbn [upsert_master].
  destruct (Py.str_eqb (symbol x) (symbol e)); destruct Hin as [<-|Hin].
  - eexists. split; [left; reflexivity|]. repeat split.
  - exists r. split; [right; exact Hin|]. repeat split.
  - exists x. split; [left; reflexivity|]. repeat split.
  - destruct (IH Hin) as (r' & Hr' & Hs). exists r'.
    split; [right; exact Hr' | exact Hs].
Qed.

Lemma upsert_master_length (e : ETFConfig) (table : list ETFConfig) :
  List.length table <= List.length (upsert_master e table).
Proof.
  induction table as [|x rest IH]; cbn [upsert_master]; [cbn; lia|].
  destruct (Py.str_eqb (symbol x) (symbol e)); cbn [List.length]; lia.
Qed.

(** The upserts of [_init_db] delete no row: every row of the table is
    still there afterwards with its symbol, provider, type and URL, and
    the table has not fewer rows than before; the symbols afterwards
    are those the table had and those of the configuration, no other;
    and when the symbols of the table were distinct they still are,
    even if the configuration names a symbol twice. *)
Theorem upsert_etfs_keeps_rows
    (funds table : list ETFConfig) :
  (forall r, In r table ->
             exists r', In r' (upsert_etfs funds table) /\
                        same_but_name r r') /\
  List.length table <= List.length (upsert_etfs funds table) /\
  (forall k, In k (map symbol (upsert_etfs funds table)) <->
             In k (map symbol table) \/ In k (map symbol funds)) /\
  (NoDup (map symbol table) ->
   NoDup (map symbol (upsert_etfs funds table))).
Proof.
  split; [|split; [|split]].
  - unfold upsert_etfs. revert table.
    induction funds as [|e funds IH]; intros table r Hr; cbn [fold_left].
    + exists r. split; [exact Hr|]. repeat split.
    + destruct (upsert_master_keeps e r table Hr) as (r1 & Hr1 & H1).
      destruct (IH _ _ Hr1) as (r' & Hr' & H').
      exists r'. split; [exact Hr'|].
      unfold same_but_name in *. intuition congruence.
  - unfold upsert_etfs. revert table.
    induction funds as [|e funds IH]; intros table; cbn [fold_left]; [lia|].
    etransitivity; [apply (upsert_master_length e)|apply IH].
  - apply upsert_etfs_symbols.
  - apply upsert_etfs_NoDup.
Qed.

Lemma upsert_master_present (e : ETFConfig) (table : list ETFConfig) :
  NoDup (map symbol table) ->
  In (symbol e) (map symbol table) ->
  upsert_master e table
  = map (fun r => if Py.str_eqb (symbol r) (symbol e)
                  then {| symbol := symbol r; name := name e;
                          provider := provider r; type := type r;
                          url := url r |}
                  else r) table.
Proof.
  induction table as [|r rest IH]; intros Hn Hin; [destruct Hin|].
  cbn [upsert_master map]. cbn in Hn. inversion Hn as [|? ? Hr Hrest]; subst.
  destruct (Py.str_eqb (symbol r) (symbol e)) eqn:E.
  - f_equal. apply str_eqb_eq in E. symmetry. rewrite <- map_id.
    apply map_ext_in. intros r' Hr'.
    rewrite str_eqb_neq; [reflexivity|].
    intros E'. apply Hr. rewrite E, <- E'. apply in_map. exact Hr'.
  - f_equal. apply IH; [exact Hrest|].
    destruct Hin as [Hin|Hin]; [|exact Hin].
    rewrite Hin, str_eqb_refl in E. discriminate.
Qed.

Lemma upsert_master_absent (e : ETFConfig) (table : list ETFConfig) :
  ~ In (symbol e) (map symbol table) -> upsert_master e table = table ++ [e].
Proof.
  induction table as [|r rest IH]; intros H; [reflexivity|].
  cbn [upsert_master]. rewrite str_eqb_neq.
  - cbn. f_equal. apply IH. intros Hin. apply H. right. exact Hin.
  - intros E. apply H. left. exact E.
Qed.

Lemma last_name_absent (funds : list ETFConfig) (k : pystr) :
  ~ In k (map symbol funds) -> last_name funds k = None.
Proof.
  induction funds as [|e funds IH]; intros H; [reflexivity|].
  cbn [last_name]. rewrite IH by (intros Hin; apply H; right; exact Hin).
  rewrite str_eqb_neq; [reflexivity|]. intros E. apply H. left. exact E.
Qed.

Lemma last_name_none (funds : list ETFConfig) (k : pystr) :
  last_name funds k = None -> ~ In k (map symbol funds).
Proof.
  induction funds as [|e funds IH]; intros H; [intros []|].
  cbn [last_name] in H.
  destruct (last_name funds k); [discriminate|].
  destruct (Py.str_eqb (symbol e) k) eqn:E; [discriminate|].
  intros [Hin|Hin]; [|exact (IH eq_refl Hin)].
  rewrite Hin, str_eqb_refl in E. discriminate.
Qed.

(** When every configured symbol is in the table already, the loop only
    renames. *)
Lemma upsert_etfs_present (funds : list ETFConfig) :
  forall table,
    NoDup (map symbol table) ->
    (forall e, In e funds -> In (symbol e) (map symbol table)) ->
    upsert_etfs funds table = map (retitled funds) table.
Proof.
  unfold upsert_etfs.
  induction funds as [|e funds IH]; intros table Hn Hall; cbn [fold_left].
  - unfold retitled. cbn. rewrite map_id. reflexivity.
  - rewrite (@upsert_master_present e table Hn (Hall e (or_introl eq_refl))).
    rewrite IH.
    + rewrite map_map. apply map_ext. intros r. unfold retitled.
      cbn [last_name].
      destruct (Py.str_eqb (symbol r) (symbol e)) eqn:E; cbn [symbol].
      * destruct (last_name funds (symbol r)); [reflexivity|].
        apply str_eqb_eq in E. rewrite E, str_eqb_refl. reflexivity.
      * destruct (last_name funds (symbol r)); [reflexivity|].
        destruct (Py.str_eqb (symbol e) (symbol r)) eqn:E'; [|reflexivity].
        apply str_eqb_eq in E'. rewrite E', str_eqb_refl in E. discriminate.
    + rewrite map_map.
      erewrite map_ext; [exact Hn|].
      intros r. destruct (Py.str_eqb (symbol r) (symbol e)); reflexivity.
    + intros e' He'. rewrite map_map.
      erewrite map_ext; [apply Hall; right; exact He'|].
      intros r. destruct (Py.str_eqb (symbol r) (symbol e)); reflexivity.
Qed.

(** A row that is in the table keeps its provider, its type and its URL
    whatever the configuration now says of that fund; only its name
    follows the configuration, and a row of no configured fund is left
    as it is. *)
Theorem upsert_etfs_updates_name_only
    (funds table : list ETFConfig) (r : ETFConfig)
    (Hkeys : NoDup (map symbol table))
    (Hrow : In r table) :
  exists r',
    In r' (upsert_etfs funds table) /\
    symbol r' = symbol r /\ provider r' = provider r /\
    type r' = type r /\ url r' = url r /\
    (forall n, last_name funds (symbol r) = Some n -> name r' = n) /\
    (~ In (symbol r) (map symbol funds) -> r' = r).
Proof.
  unfold upsert_etfs. revert table r Hkeys Hrow.
  induction funds as [|e funds IH]; intros table r Hkeys Hrow;
    cbn [fold_left].
  - exists r. repeat split; auto. intros n H. discriminate H.
  - set (r1 := if Py.str_eqb (symbol r) (symbol e)
               then {| symbol := symbol r; name := name e;
                       provider := provider r; type := type r;
                       url := url r |}
               else r).
    assert (Hr1 : In r1 (upsert_master e table)).
    { destruct (existsb (fun x => Py.str_eqb (symbol x) (symbol e)) table)
        eqn:Ex.
      - apply existsb_symbol in Ex.
        rewrite (@upsert_master_present e table Hkeys Ex).
        apply in_map_iff. exists r. split; [reflexivity | exact Hrow].
      - assert (Hno : ~ In (symbol e) (map symbol table)).
        { intros H. apply existsb_symbol in H. congruence. }
        rewrite (@upsert_master_absent e table Hno). apply in_or_app. left.
        unfold r1. rewrite str_eqb_neq; [exact Hrow|].
        intros E. apply Hno. rewrite <- E. apply in_map. exact Hrow. }
    assert (Hs1 : symbol r1 = symbol r /\ provider r1 = provider r /\
                  type r1 = type r /\ url r1 = url r).
    { unfold r1. destruct (Py.str_eqb _ _); repeat split. }
    destruct Hs1 as (Hs & Hp & Ht & Hu).
    destruct (IH (upsert_master e table) r1
                (@upsert_master_NoDup e table Hkeys) Hr1)
      as (r' & Hin & Hs' & Hp' & Ht' & Hu' & Hname & Hsame).
    exists r'. split; [exact Hin|].
    split; [congruence|]. split; [congruence|]. split; [congruence|].
    split; [congruence|]. split.
    + intros n Hn. cbn [last_name] in Hn. rewrite <- Hs in Hn.
      destruct (last_name funds (symbol r1)) as [n'|] eqn:El.
      * injection Hn as <-. apply Hname. reflexivity.
      * rewrite Hsame by (apply last_name_none; exact El).
        rewrite Hs in Hn.
        destruct (Py.str_eqb (symbol e) (symbol r)) eqn:E; [|discriminate].
        injection Hn as <-. apply str_eqb_eq in E.
        unfold r1. rewrite E, str_eqb_refl. reflexivity.
    + intros Hno. rewrite Hsame.
      * unfold r1. rewrite str_eqb_neq; [reflexivity|].
        intros E. apply Hno. left. symmetry. exact E.
      * intros Hin'. apply Hno. right. rewrite <- Hs. exact Hin'.
Qed.

Lemma upsert_etfs_updates_name_only_witness :
  NoDup (map symbol [old_master_row]) /\
  In old_master_row [old_master_row] /\
  exists r',
    In r' (upsert_etfs Sample.funds [old_master_row]) /\
    symbol r' = symbol old_master_row /\
    provider r' = provider old_master_row /\
    type r' = type old_master_row /\ url r' = url old_master_row /\
    (forall n, last_name Sample.funds (symbol old_master_row) = Some n ->
               name r' = n) /\
    (~ In (symbol old_master_row) (map symbol Sample.funds) ->
     r' = old_master_row).
Proof.
  assert (H1 : NoDup (map symbol [old_master_row]))
    by (repeat constructor; intros []).
  assert (H2 : In old_master_row [old_master_row]) by (left; reflexivity).
  split; [exact H1|]. split; [exact H2|].
  exact (@upsert_etfs_updates_name_only Sample.funds _ _ H1 H2).
Defined.

Example old_row_after_init :
  upsert_etfs Sample.funds [old_master_row]
  = [ {| symbol := u "00980A"; name := u "00980A"; provider := u "old";
         type := u "active"; url := u "https://old" |};
      Sample.fund "00981A" "https://b"; Sample.fund "00982A" "https://c" ].
Proof. vm_compute. reflexivity. Qed.

(** On an empty master table, a configuration with distinct symbols is
    stored as it is, row for row and in its order. *)
Theorem upsert_etfs_fresh_table
    (funds : list ETFConfig)
    (Hsym : NoDup (map symbol funds)) :
  upsert_etfs funds [] = funds.
Proof.
  unfold upsert_etfs.
  assert (H : forall table,
             NoDup (map symbol (table ++ funds)) ->
             fold_left (fun t e => upsert_master e t) funds table
             = table ++ funds).
  { clear Hsym. induction funds as [|e funds IH]; intros table H;
      cbn [fold_left].
    - rewrite app_nil_r. reflexivity.
    - rewrite upsert_master_absent.
      + rewrite IH; rewrite <- app_assoc; [reflexivity | exact H].
      + rewrite map_app in H. cbn in H. apply NoDup_remove_2 in H.
        intros Hin. apply H. apply in_or_app. left. exact Hin. }
  apply (H []). exact Hsym.
Qed.

Lemma upsert_etfs_fresh_table_witness :
  NoDup (map symbol Sample.funds) /\
  upsert_etfs Sample.funds [] = Sample.funds.
Proof.
  assert (H : NoDup (map symbol Sample.funds))
    by (apply (sample_symbols_distinct Sample.w_ok)).
  split; [exact H|]. exact (@upsert_etfs_fresh_table _ H).
Defined.

Lemma upsert_master_In_other (e r : ETFConfig) (table : list ETFConfig) :
  In r (upsert_master e table) -> symbol r <> symbol e -> In r table.
Proof.
  induction table as [|x rest IH]; cbn [upsert_master]; intros Hin Hne.
  - destruct Hin as [<-|[]]. congruence.
  - destruct (Py.str_eqb (symbol x) (symbol e)) eqn:E.
    + apply str_eqb_eq in E. destruct Hin as [<-|Hin].
      * cbn in Hne. congruence.
      * right. exact Hin.
    + destruct Hin as [<-|Hin]; [left; reflexivity|].
      right. apply IH; assumption.
Qed.

Lemma upsert_master_name (e r : ETFConfig) (table : list ETFConfig) :
  NoDup (map symbol table) ->
  In r (upsert_master e table) -> symbol r = symbol e -> name r = name e.
Proof.
  intros Hn Hin Hs.
  destruct (existsb (fun x => Py.str_eqb (symbol x) (symbol e)) table) eqn:Ex.
  - apply existsb_symbol in Ex.
    rewrite (@upsert_master_present e table Hn Ex) in Hin.
    apply in_map_iff in Hin. destruct Hin as (x & <- & Hx).
    destruct (Py.str_eqb (symbol x) (symbol e)) eqn:E; [reflexivity|].
    rewrite Hs, str_eqb_refl in E. discriminate.
  - assert (Hno : ~ In (symbol e) (map symbol table)).
    { intros H. apply existsb_symbol in H. congruence. }
    rewrite (@upsert_master_absent e table Hno) in Hin.
    apply in_app_or in Hin. destruct Hin as [Hin|[<-|[]]]; [|reflexivity].
    exfalso. apply Hno. rewrite <- Hs. apply in_map. exact Hin.
Qed.

Lemma upsert_etfs_In_inv (funds : list ETFConfig) (r : ETFConfig) :
  forall table,
    In r (upsert_etfs funds table) ->
    ~ In (symbol r) (map symbol funds) -> In r table.
Proof.
  unfold upsert_etfs.
  induction funds as [|e funds IH]; intros table Hin Hno; [exact Hin|].
  cbn [fold_left] in Hin.
  apply (@upsert_master_In_other e).
  - apply IH; [exact Hin|]. intros H. apply Hno. right. exact H.
  - intros E. apply Hno. left. symmetry. exact E.
Qed.

Lemma upsert_etfs_named (funds : list ETFConfig) (r : ETFConfig) (n : pystr) :
  forall table,
    NoDup (map symbol table) ->
    In r (upsert_etfs funds table) ->
    last_name funds (symbol r) = Some n -> name r = n.
Proof.
  induction funds as [|e funds IH]; intros table Hn Hin Hl;
    [discriminate Hl|].
  change (upsert_etfs (e :: funds) table)
    with (upsert_etfs funds (upsert_master e table)) in Hin.
  cbn [last_name] in Hl.
  destruct (last_name funds (symbol r)) as [n'|] eqn:El.
  - injection Hl as <-.
    apply (IH (upsert_master e table)); auto using upsert_master_NoDup.
  - destruct (Py.str_eqb (symbol e) (symbol r)) eqn:E; [|discriminate].
    injection Hl as <-. apply str_eqb_eq in E.
    apply (@upsert_master_name e r table Hn); [|symmetry; exact E].
    apply (@upsert_etfs_In_inv funds); [exact Hin|].
    apply last_name_none. exact El.
Qed.

(** Running the upserts of [_init_db] a second time with the same
    configuration changes nothing in the five columns the configuration
    feeds (the update timestamp, which the statement also sets, is not
    among them). *)
Theorem upsert_etfs_idempotent
    (funds table : list ETFConfig)
    (Hkeys : NoDup (map symbol table)) :
  upsert_etfs funds (upsert_etfs funds table) = upsert_etfs funds table.
Proof.
  rewrite upsert_etfs_present.
  - rewrite <- map_id. apply map_ext_in. intros r Hr. unfold retitled.
    destruct (last_name funds (symbol r)) as [n|] eqn:El; [|reflexivity].
    rewrite <- (@upsert_etfs_named funds r n table Hkeys Hr El).
    destruct r; reflexivity.
  - apply upsert_etfs_NoDup. exact Hkeys.
  - intros e He. apply upsert_etfs_symbols. right. apply in_map. exact He.
Qed.

Lemma upsert_etfs_idempotent_witness :
  NoDup (map symbol [old_master_row]) /\
  upsert_etfs Sample.funds (upsert_etfs Sample.funds [old_master_row])
  = upsert_etfs Sample.funds [old_master_row].
Proof.
  assert (H : NoDup (map symbol [old_master_row]))
    by (repeat constructor; intros []).
  split; [exact H|]. exact (@upsert_etfs_idempotent Sample.funds _ H).
Defined.

(* ================================================================== *)
(** * The trigger time of the scheduler *)
(* ================================================================== *)

Lemma contains_app (c : N) (a b : pystr) :
  contains c (a ++ b) = contains c a || contains c b.
Proof. unfold contains. apply existsb_app. Qed.

Lemma no_space_no_blank (tok : pystr) :
  forallb (fun c => negb (Py.isspace c)) tok = true ->
  contains SPACE tok = false.
Proof.
  induction tok as [|c tok IH]; [reflexivity|]. cbn [forallb contains existsb].
  intros H. apply andb_prop in H. destruct H as [Hc Ht].
  fold (contains SPACE tok). rewrite (IH Ht), orb_false_r.
  destruct (c =? SPACE)%N eqn:E; [|reflexivity].
  apply N.eqb_eq in E. subst c. discriminate Hc.
Qed.

Lemma split_ws_word (tok : pystr) :
  forallb (fun c => negb (Py.isspace c)) tok = true ->
  forall cur rest,
    Py.truthy (cur ++ tok) = true ->
    split_ws cur (tok ++ SPACE :: rest) = (cur ++ tok) :: split_ws [] rest.
Proof.
  induction tok as [|c tok IH]; intros H cur rest Hne.
  - rewrite app_nil_r in *. cbn [app split_ws].
    change (Py.isspace SPACE) with true. cbn iota. rewrite Hne. reflexivity.
  - cbn [forallb] in H. apply andb_prop in H. destruct H as [Hc Ht].
    cbn [app split_ws]. apply negb_true_iff in Hc. rewrite Hc.
    rewrite (IH Ht (cur ++ [c]) rest).
    + rewrite <- app_assoc. reflexivity.
    + rewrite <- app_assoc. exact Hne.
Qed.

(** Whatever follows the first word of the schedule text is ignored: a
    text made of a word with a colon, a space and anything at all gives
    the trigger time of the word alone, so the zone named in the text
    never reaches the trigger. *)
Theorem trigger_time_ignores_zone
    (w : World) (tok zone : pystr)
    (Hword : forallb (fun c => negb (Py.isspace c)) tok = true)
    (Hcolon : contains COLON tok = true) :
  trigger_time w (tok ++ SPACE :: zone) = trigger_time w tok.
Proof.
  unfold trigger_time.
  rewrite contains_app, Hcolon. cbn [orb].
  rewrite contains_app. cbn [contains existsb]. rewrite N.eqb_refl.
  rewrite orb_true_r, (no_space_no_blank _ Hword).
  unfold py_split.
  assert (Hne : Py.truthy ([] ++ tok) = true).
  { destruct tok; [discriminate Hcolon | reflexivity]. }
  rewrite (split_ws_word _ Hword [] zone Hne). reflexivity.
Qed.

Lemma trigger_time_ignores_zone_witness :
  forallb (fun c => negb (Py.isspace c)) (u "08:30") = true /\
  contains COLON (u "08:30") = true /\
  trigger_time Sample.w_ok (u "08:30" ++ SPACE :: u "Europe/Paris")
  = trigger_time Sample.w_ok (u "08:30").
Proof.
  assert (H1 : forallb (fun c => negb (Py.isspace c)) (u "08:30") = true)
    by (vm_compute; reflexivity).
  assert (H2 : contains COLON (u "08:30") = true)
    by (vm_compute; reflexivity).
  split; [exact H1|]. split; [exact H2|].
  exact (@trigger_time_ignores_zone Sample.w_ok _ (u "Europe/Paris") H1 H2).
Defined.

Lemma py_int_value_error (w : World) (t : pystr) :
  (exists z, py_int w t = Ok z) \/ py_int w t = Raise ValueError.
Proof.
  unfold py_int. destruct (Py.int_of_str _ t); [|right; reflexivity].
  left. eexists. reflexivity.
Qed.

Lemma split_ws_nonempty (s : pystr) :
  forall cur,
    existsb (fun c => negb (Py.isspace c)) s = true ->
    split_ws cur s <> [].
Proof.
  induction s as [|c s IH]; intros cur H; [discriminate H|].
  cbn [existsb] in H. cbn [split_ws].
  destruct (Py.isspace c) eqn:E; cbn [negb orb] in H.
  - destruct (Py.truthy cur); [discriminate|]. cbn [app]. apply IH. exact H.
  - clear H. assert (Hcur : Py.truthy (cur ++ [c]) = true)
      by (destruct cur; reflexivity).
    revert Hcur. generalize (cur ++ [c]). clear.
    induction s as [|c s IH]; intros cur Hcur; cbn [split_ws].
    + rewrite Hcur. discriminate.
    + destruct (Py.isspace c).
      * rewrite Hcur. discriminate.
      * apply IH. destruct cur; reflexivity.
Qed.

(** Reading the trigger time either succeeds or raises [ValueError]:
    the first word asked of [split()] is always there, so no
    [IndexError] comes out of [start]. *)
Theorem trigger_time_value_error_only (w : World) (cron_time : pystr) :
  (exists hm, trigger_time w cron_time = Ok hm) \/
  trigger_time w cron_time = Raise ValueError.
Proof.
  unfold trigger_time.
  destruct (contains COLON cron_time) eqn:Hc; [|left; eexists; reflexivity].
  assert (Hpart : exists part,
             (if contains SPACE cron_time
              then py_index (py_split cron_time) 0
              else Ok cron_time) = Ok part).
  { destruct (contains SPACE cron_time); [|eexists; reflexivity].
    assert (Hne : py_split cron_time <> []).
    { apply split_ws_nonempty. unfold contains in Hc.
      apply existsb_exists in Hc. destruct Hc as (c & Hin & E).
      apply existsb_exists. exists c. split; [exact Hin|].
      apply N.eqb_eq in E. subst c. reflexivity. }
    destruct (py_split cron_time) as [|p ps]; [congruence|].
    exists p. reflexivity. }
  destruct Hpart as [part ->]. cbn [rbind].
  destruct (py_split_on COLON part) as [|h [|m [|x l]]];
    try (right; reflexivity).
  destruct (py_int_value_error w h) as [[hour ->]| ->]; [|right; reflexivity].
  destruct (py_int_value_error w m) as [[minute ->]| ->]; [|right; reflexivity].
  left. eexists. reflexivity.
Qed.

Lemma logged_times_reread_100 (w : World) :
  forallb (fun hm : nat * nat => rereads w (fst hm) (snd hm))
          (list_prod (seq 0 100) (seq 0 100)) = true.
Proof. vm_compute. reflexivity. Qed.

(** The time that [start] logs reads back as the same trigger time, for
    every hour and minute of two digits: so do 24 to 99, which the
    reading does not turn down. *)
Theorem logged_time_rereads
    (w : World) (hour minute : nat)
    (Hh : hour < 100) (Hm : minute < 100) :
  trigger_time w (logged_time (Z.of_nat hour) (Z.of_nat minute))
  = Ok (Z.of_nat hour, Z.of_nat minute).
Proof.
  pose proof (logged_times_reread_100 w) as Hall.
  pose proof (proj1 (forallb_forall _ _) Hall (hour, minute)) as Hhm.
  clear Hall.
  assert (Hin : In (hour, minute) (list_prod (seq 0 100) (seq 0 100))).
  { apply in_prod; apply in_seq; lia. }
  specialize (Hhm Hin). change (rereads w hour minute = true) in Hhm.
  unfold rereads in Hhm.
  destruct (trigger_time _) as [[h m]|e]; [|discriminate].
  apply andb_prop in Hhm. destruct Hhm as [E1 E2].
  apply Z.eqb_eq in E1, E2. subst. reflexivity.
Qed.

Lemma logged_time_rereads_witness :
  8 < 100 /\ 30 < 100 /\
  trigger_time Sample.w_ok (logged_time (Z.of_nat 8) (Z.of_nat 30))
  = Ok (Z.of_nat 8, Z.of_nat 30).
Proof.
  assert (H1 : 8 < 100) by lia. assert (H2 : 30 < 100) by lia.
  split; [exact H1|]. split; [exact H2|].
  exact (@logged_time_rereads Sample.w_ok 8 30 H1 H2).
Defined.

(** A configuration without schedule section, and one whose schedule
    has no colon, both start the job at eight. *)
Example start_time_defaults :
  start_time Sample.w_ok [] = Ok (8%Z, 0%Z) /\
  start_time Sample.w_ok [(u "schedule", [(u "daily_fetch", u "0930")])]
  = Ok (8%Z, 0%Z) /\
  start_time Sample.w_ok
    [(u "schedule", [(u "daily_fetch", u "09:30 Asia/Taipei")])]
  = Ok (9%Z, 30%Z).
Proof. repeat split; vm_compute; reflexivity. Qed.

(** [int] reads the decimal digits of any script: a time written with
    the fullwidth digits U+FF10 to U+FF19 is read like its ASCII
    form. *)
Example trigger_time_fullwidth_digits :
  trigger_time Sample.w_ok [65296; 65304; 58; 65299; 65296]%N
  = Ok (8%Z, 30%Z) /\
  py_int Sample.w_ok [65304]%N = Ok 8%Z /\
  py_int Sample.w_ok (u "8a") = Raise ValueError.
Proof. repeat split; vm_compute; reflexivity. Qed.

(* ================================================================== *)
(** * The stock screener *)
(* ================================================================== *)

Section ScreenerFacts.

Import Screener.

Lemma py_index_in_range {T} (l : list T) (i : nat) :
  i < List.length l -> exists a, py_index l (Z.of_nat i) = Ok a.
Proof.
  intros H. destruct (nth_error l i) as [a|] eqn:E.
  - exists a. apply py_index_nth. exact E.
  - apply nth_error_None in E. lia.
Qed.

Lemma text_at_ok (cols : list node) (i : nat) :
  exists t, text_at cols i = Ok t.
Proof.
  unfold text_at. destruct (Nat.ltb_spec i (List.length cols)).
  - destruct (py_index_in_range cols H) as [a ->]. eexists. reflexivity.
  - eexists. reflexivity.
Qed.

Lemma stock_of_row_ok (cols : list node) :
  cols <> [] ->
  exists d, stock_of_row cols = Ok d /\ map fst d = stock_keys.
Proof.
  intros H. unfold stock_of_row.
  destruct cols as [|c0 rest]; [congruence|].
  change (py_index (c0 :: rest) 0) with (Ok c0). cbn [rbind].
  destruct (text_at_ok (c0 :: rest) 1) as [t1 ->].
  destruct (text_at_ok (c0 :: rest) 2) as [t2 ->].
  destruct (text_at_ok (c0 :: rest) 3) as [t3 ->].
  destruct (text_at_ok (c0 :: rest) 4) as [t4 ->].
  destruct (text_at_ok (c0 :: rest) 5) as [t5 ->].
  cbn [rbind]. eexists. split; reflexivity.
Qed.

Lemma stock_rows_ok (rows : list node) :
  forall stocks,
    Forall (fun d => map fst d = stock_keys) stocks ->
    exists out,
      stock_rows rows stocks = Ok out /\
      List.length out <= List.length stocks + List.length rows /\
      Forall (fun d => map fst d = stock_keys) out.
Proof.
  induction rows as [|row rest IH]; intros stocks Hk; cbn [stock_rows].
  - exists stocks. unfold dict in *. repeat split; [cbn; lia | exact Hk].
  - destruct (6 <=? List.length (find_all TD row)) eqn:E.
    + assert (Hne : find_all TD row <> []).
      { apply Nat.leb_le in E. destruct (find_all TD row); cbn in E;
          [lia | discriminate]. }
      destruct (stock_of_row_ok Hne) as (d & -> & Hd). cbn [rbind].
      destruct (IH (stocks ++ [d])) as (out & Hout & Hl & Ho).
      * apply Forall_app. split; [exact Hk | repeat constructor; exact Hd].
      * exists out. split; [exact Hout|]. unfold dict in *.
        rewrite length_app in Hl. cbn [List.length] in *.
        split; [lia | exact Ho].
    + destruct (IH stocks Hk) as (out & Hout & Hl & Ho).
      exists out. split; [exact Hout|]. unfold dict in *.
      cbn [List.length]. split; [lia | exact Ho].
Qed.

Lemma slice_length {T} (a b : nat) (l : list T) :
  List.length (slice a b l) <= b - a.
Proof. unfold slice. rewrite length_firstn. lia. Qed.

End ScreenerFacts.

(** [get_taiwan_stocks] never raises and makes one GET.  When it
    returns a list, the list has ten stocks at most, each a dict with
    the six keys symbol, name, price, change, pct_change and volume in
    that order, and it is empty when the page has no table; it returns
    [None] exactly when the GET raised or the status was between 400
    and 599. *)
Theorem get_taiwan_stocks_at_most_ten (w : World) (s : State) :
  exists r,
    Screener.get_taiwan_stocks w s
      = (Ok r, add_trace [DirectGet Screener.YAHOO_URL] s) /\
    match r with
    | Some stocks =>
        List.length stocks <= 10 /\
        Forall (fun d => map fst d = stock_keys) stocks /\
        (exists st text,
            direct_net w Screener.YAHOO_URL = DirectResponse st text /\
            Screener.is_error_status st = false /\
            (find_all TABLE (lxml w text) = [] -> stocks = []))
    | None =>
        direct_net w Screener.YAHOO_URL = DirectRaise \/
        exists st text,
          direct_net w Screener.YAHOO_URL = DirectResponse st text /\
          Screener.is_error_status st = true
    end.
Proof.
  unfold Screener.get_taiwan_stocks, bind, emit, ret, add_trace.
  destruct (direct_net w Screener.YAHOO_URL) as [|st text] eqn:En.
  - exists None. split; [reflexivity|]. left. reflexivity.
  - destruct (Screener.is_error_status st) eqn:Es.
    + exists None. split; [reflexivity|]. right. exists st, text. auto.
    + unfold Screener.stocks_of_soup, Screener.find.
      destruct (find_all TABLE (lxml w text)) as [|table rest] eqn:Et;
        cbn [hd_error].
      * exists (Some []). split; [reflexivity|].
        split; [cbn; lia|]. split; [constructor|].
        exists st, text. auto.
      * destruct (@stock_rows_ok
                    (Screener.slice 1 11 (find_all TR table)) []
                    (Forall_nil _)) as (out & Hout & Hl & Ho).
        exists (Some out). unfold dict in *.
        split; [rewrite Hout; reflexivity|].
        pose proof (slice_length 1 11 (find_all TR table)) as Hs.
        cbn [List.length] in Hl.
        split; [lia|]. split; [exact Ho|].
        exists st, text. repeat split; auto. intros H.
        rewrite Et in H. discriminate H.
Qed.

Section SummaryFacts.

Import Screener.

Lemma gainer_of_row_ok (cols : list node) :
  cols <> [] ->
  exists g,
    gainer_of_row cols = Ok g /\
    match g with Some d => good_gainer d | None => True end.
Proof.
  intros H. unfold gainer_of_row.
  destruct cols as [|c0 rest]; [congruence|].
  change (py_index (c0 :: rest) 0) with (Ok c0). cbn [rbind].
  rewrite (@py_index_last _ (c0 :: rest) (Text [])) by discriminate.
  cbn [rbind].
  destruct (Py.truthy _ && contains PERCENT _) eqn:E.
  - eexists. split; [reflexivity|]. apply andb_prop in E.
    destruct E as [E1 E2]. eexists. eexists.
    split; [reflexivity|]. split; assumption.
  - eexists. split; [reflexivity | exact I].
Qed.

Lemma gainer_rows_ok (rows : list node) :
  forall gainers,
    Forall good_gainer gainers ->
    exists out, gainer_rows rows gainers = Ok out /\ Forall good_gainer out.
Proof.
  induction rows as [|row rest IH]; intros gainers Hg; cbn [gainer_rows].
  - exists gainers. split; [reflexivity | exact Hg].
  - destruct (3 <=? List.length (find_all TD_TH row)) eqn:E.
    + assert (Hne : find_all TD_TH row <> []).
      { apply Nat.leb_le in E. destruct (find_all TD_TH row); cbn in E;
          [lia | discriminate]. }
      destruct (gainer_of_row_ok Hne) as (g & Hrow & Hgood).
      rewrite Hrow. cbn [rbind]. apply IH.
      destruct g as [d|]; [|exact Hg].
      apply Forall_app. split; [exact Hg | repeat constructor; exact Hgood].
    + apply IH. exact Hg.
Qed.

Lemma gainer_tables_ok (tables : list node) :
  forall gainers,
    Forall good_gainer gainers ->
    exists out, gainer_tables tables gainers = Ok out /\ Forall good_gainer out.
Proof.
  induction tables as [|table rest IH]; intros gainers Hg;
    cbn [gainer_tables].
  - exists gainers. split; [reflexivity | exact Hg].
  - destruct (gainer_rows_ok (slice 1 6 (find_all TR table)) Hg)
      as (mid & Hmid & Hgood).
    rewrite Hmid. cbn [rbind]. apply IH. exact Hgood.
Qed.

Lemma Forall_slice {T} (P : T -> Prop) (a b : nat) (l : list T) :
  Forall P l -> Forall P (slice a b l).
Proof.
  intros H. unfold slice.
  assert (Hs : Forall P (skipn a l)).
  { clear b. revert a. induction H as [|x l Hx Hl IH]; intros [|a]; cbn;
      auto. }
  generalize (b - a). revert Hs. generalize (skipn a l). clear.
  intros l H. induction H as [|x l Hx Hl IH]; intros [|n]; cbn; auto.
Qed.

End SummaryFacts.

(** [get_market_summary] never raises and makes one GET.  It returns
    five entries at most, each with a symbol that is not empty and a
    change text that holds a percent sign; it returns [None] only when
    the GET raised, and parses the page of any status, error pages
    included. *)
Theorem get_market_summary_at_most_five (w : World) (s : State) :
  exists r,
    Screener.get_market_summary w s
      = (Ok r, add_trace [DirectGet Screener.TRADINGVIEW_URL] s) /\
    match r with
    | Some gainers =>
        List.length gainers <= 5 /\
        Forall good_gainer gainers /\
        exists st text,
          direct_net w Screener.TRADINGVIEW_URL = DirectResponse st text
    | None => direct_net w Screener.TRADINGVIEW_URL = DirectRaise
    end.
Proof.
  unfold Screener.get_market_summary, bind, emit, ret, add_trace.
  destruct (direct_net w Screener.TRADINGVIEW_URL) as [|st text] eqn:En.
  - exists None. split; reflexivity.
  - destruct (@gainer_tables_ok
                (Screener.slice 0 3 (find_all TABLE (lxml w text))) []
                (Forall_nil _)) as (out & Hout & Hgood).
    exists (Some (Screener.slice 0 5 out)). unfold dict in *.
    split; [rewrite Hout; reflexivity|].
    split; [apply (slice_length 0 5)|].
    split; [apply Forall_slice; exact Hgood|].
    exists st, text. reflexivity.
Qed.
